(** * DIGIsens / LOWA serial protocol: frame codec, reply parsers, polling loops

    A shallow embedding of the protocol code of the repository
    (digisens_interface.py and the stand-alone polling scripts) together with
    the properties its specification states about it.

    Conventions of the embedding:
    - Python text is a [string] of 8-bit characters, that is text whose code
      points are all below 256: the wire protocol is ASCII and every frame
      is written with [encode('ascii')] or [str.encode].  [ord] is
      [N_of_ascii].  Text with a code point of 256 or more is outside the
      embedding; on such text the checksum of the scripts, which fills a
      [bytearray] from [map(ord, msg)], raises ValueError, so what is proved
      of the scripts' builders and of their callers is proved for text
      within the embedding.
    - Python integers are [Z] (or [nat]/[N] where the source value is a
      length or an XOR of ordinals and so cannot be negative).
    - A function that may raise returns a [result]; the exception classes the
      code can meet are the constructors of [exn].
    - The serial port (pyserial) is an external collaborator.  It is modelled
      as a record holding the scripted outcomes of the reads still to come
      and the log of the calls made so far; the functions that talk to it
      pass that record along explicitly. *)

From Stdlib Require Import String Ascii List ZArith NArith QArith Bool Lia.
From Stdlib Require Import DecimalString HexadecimalString.
Import ListNotations.
Local Close Scope Q_scope.
Local Open Scope string_scope.

(* ================================================================== *)
(** * Python primitives used by the sources *)
(* ================================================================== *)

Module Py.

(** Exception classes that the modelled code raises or lets through. *)
Inductive exn : Type :=
| ConnectionError
| TimeoutError
| IndexError
| ValueError
| UnicodeDecodeError
| UnicodeEncodeError
| SerialException.

Inductive result (A : Type) : Type :=
| Ok (a : A)
| Raise (e : exn).
Arguments Ok {A} a.
Arguments Raise {A} e.

Definition bind {A B : Type} (m : result A) (k : A -> result B) : result B :=
  match m with
  | Ok a => k a
  | Raise e => Raise e
  end.

Definition ord (c : ascii) : N := N_of_ascii c.

Definition len (s : string) : nat := String.length s.

(** [s[:n]] and [s[n:]] for [0 <= n]. *)
Fixpoint take (n : nat) (s : string) : string :=
  match n, s with
  | S n', String c s' => String c (take n' s')
  | _, _ => EmptyString
  end.

Fixpoint drop (n : nat) (s : string) : string :=
  match n, s with
  | S n', String _ s' => drop n' s'
  | _, _ => s
  end.

(** A slice bound resolved against a sequence of length [n]: a negative
    bound counts from the end, and both clamp to [0 .. n]. *)
Definition bound (n : nat) (i : Z) : nat :=
  if (i <? 0)%Z then Z.to_nat (Z.max 0 (i + Z.of_nat n))
  else Nat.min (Z.to_nat i) n.

(** [s[lo:hi]]; [None] is an omitted bound.  Never raises. *)
Definition slice (lo hi : option Z) (s : string) : string :=
  let n := len s in
  let a := match lo with Some i => bound n i | None => 0 end in
  let b := match hi with Some i => bound n i | None => n end in
  take (b - a) (drop a s).

(** [s[i]] for a non-negative constant [i]: IndexError past the end. *)
Definition item (i : nat) (s : string) : result ascii :=
  match String.get i s with
  | Some c => Ok c
  | None => Raise IndexError
  end.

(** [str.isspace] on one character with code point below 256. *)
Definition isspace (c : ascii) : bool :=
  let n := ord c in
  ((9 <=? n) && (n <=? 13) || (28 <=? n) && (n <=? 32)
   || (n =? 133) || (n =? 160))%N.

Fixpoint lstrip (s : string) : string :=
  match s with
  | String c s' => if isspace c then lstrip s' else s
  | EmptyString => EmptyString
  end.

Fixpoint rstrip (s : string) : string :=
  match s with
  | String c s' =>
      match rstrip s' with
      | EmptyString => if isspace c then EmptyString else String c EmptyString
      | r => String c r
      end
  | EmptyString => EmptyString
  end.

(** [s.strip()] *)
Definition strip (s : string) : string := rstrip (lstrip s).

(** [str(n)] for [n >= 0]. *)
Definition str_of_nat (n : nat) : string :=
  DecimalString.NilEmpty.string_of_uint (Nat.to_uint n).

(** [hex(n)] for [n >= 0]: lower-case digits after the ["0x"] marker. *)
Definition hex (n : N) : string :=
  "0x" ++ HexadecimalString.NilEmpty.string_of_uint (N.to_hex_uint n).

(** [str.upper] on one character; only ASCII letters change (the sources
    apply it to the output of [hex] only). *)
Definition upper_char (c : ascii) : ascii :=
  let n := ord c in
  if ((97 <=? n) && (n <=? 122))%N then ascii_of_N (n - 32) else c.

Fixpoint upper (s : string) : string :=
  match s with
  | String c s' => String (upper_char c) (upper s')
  | EmptyString => EmptyString
  end.

Fixpoint zeros (n : nat) : string :=
  match n with
  | O => EmptyString
  | S n' => String "0" (zeros n')
  end.

(** [s.zfill(width)]: zeros on the left up to [width]; they go after a
    leading sign character. *)
Definition zfill (width : nat) (s : string) : string :=
  let pad := zeros (width - len s) in
  match s with
  | String c s' =>
      if (Ascii.eqb c "+" || Ascii.eqb c "-")%bool
      then String c (pad ++ s')
      else pad ++ s
  | EmptyString => pad
  end.

(** [f"{n:02d}"] for an integer [n]: the sign counts in the width. *)
Definition fmt_02d (n : Z) : string :=
  if (n <? 0)%Z
  then zfill 2 ("-" ++ str_of_nat (Z.to_nat (- n)))
  else zfill 2 (str_of_nat (Z.to_nat n)).

(** [f"{n:02X}"] for [n >= 0]. *)
Definition fmt_02X (n : N) : string :=
  zfill 2 (upper (slice (Some 2%Z) None (hex n))).

(** [s.lower()], ASCII letters only (used on replies of the device). *)
Definition lower_char (c : ascii) : ascii :=
  let n := ord c in
  if ((65 <=? n) && (n <=? 90))%N then ascii_of_N (n + 32) else c.

(** [s.encode()] (UTF-8) as a list of byte values: a character below 128
    is one byte, a character from 128 to 255 is two. *)
Fixpoint encode_utf8 (s : string) : list N :=
  match s with
  | String c s' =>
      let n := ord c in
      (if (n <? 128)%N then [n]
       else [N.lor 192 (N.shiftr n 6); N.lor 128 (N.land n 63)])
      ++ encode_utf8 s'
  | EmptyString => []
  end.

(** [map(ord, s)] *)
Fixpoint ords (s : string) : list N :=
  match s with
  | String c s' => ord c :: ords s'
  | EmptyString => []
  end.

(** [s.encode('ascii')]: UnicodeEncodeError on a character above 127. *)
Definition encode_ascii (s : string) : result (list N) :=
  if forallb (fun n => (n <? 128)%N) (ords s) then Ok (ords s)
  else Raise UnicodeEncodeError.

Definition lower (s : string) : string :=
  string_of_list_ascii (map lower_char (list_ascii_of_string s)).

(** [needle in s] for strings. *)
Fixpoint contains (needle s : string) : bool :=
  if prefix needle s then true
  else match s with
       | String _ s' => contains needle s'
       | EmptyString => false
       end.

(** [range(0, stop, step)] for [step > 0]: the multiples of [step] below
    [stop]. *)
Definition range_step (stop step : nat) : list nat :=
  map (fun k => k * step) (seq 0 ((stop + step - 1) / step)).

(** [range(n)] *)
Definition range (n : nat) : list nat := seq 0 n.

(** ** The built-in [float] applied to text

    The value kept is the decimal number the text denotes, as sign,
    coefficient and power of ten; Python then rounds it to a binary64
    (to [inf] or to zero for a value outside its range), which is not
    modelled and which no property below depends on.  What matters here is
    which texts
    [float] accepts: optional sign, then [inf], [infinity] or [nan] in any
    letter case, or digits with an optional point and an optional exponent;
    surrounding white space is ignored and a single underscore may stand
    between two digits. *)
Inductive pyfloat : Type :=
| Finite (negative : bool) (coefficient : N) (exponent : Z)
| Inf (negative : bool)
| NaN.

(** The literal [0.0]. *)
Definition float_zero : pyfloat := Finite false 0 0.

(** Unary minus. *)
Definition fneg (x : pyfloat) : pyfloat :=
  match x with
  | Finite s c e => Finite (negb s) c e
  | Inf s => Inf (negb s)
  | NaN => NaN
  end.

Definition isdigit (c : ascii) : bool :=
  ((48 <=? ord c) && (ord c <=? 57))%N.

(** Every underscore must have a digit on both sides; they are then
    dropped.  [prev] is the character before [s]. *)
Fixpoint drop_underscores (prev : option ascii) (s : string) : option string :=
  match s with
  | EmptyString =>
      match prev with
      | Some "_"%char => None
      | _ => Some EmptyString
      end
  | String c s' =>
      if Ascii.eqb c "_" then
        match prev with
        | Some p => if isdigit p then drop_underscores (Some c) s' else None
        | None => None
        end
      else
        match prev with
        | Some "_"%char =>
            if isdigit c
            then option_map (String c) (drop_underscores (Some c) s')
            else None
        | _ => option_map (String c) (drop_underscores (Some c) s')
        end
  end.

(** Reads a run of digits: the number read so far, how many digits were
    read, and the rest of the text. *)
Fixpoint read_digits (s : string) (acc : N) (cnt : nat) : N * nat * string :=
  match s with
  | String c s' =>
      if isdigit c then read_digits s' (acc * 10 + (ord c - 48))%N (S cnt)
      else (acc, cnt, s)
  | EmptyString => (acc, cnt, EmptyString)
  end.

Definition read_exponent (s : string) : option Z :=
  let '(neg, r) :=
    match s with
    | String "+" r => (false, r)
    | String "-" r => (true, r)
    | _ => (false, s)
    end in
  match read_digits r 0 0 with
  | (_, O, _) => None
  | (v, _, EmptyString) => Some (if neg then (- Z.of_N v)%Z else Z.of_N v)
  | _ => None
  end.

Definition read_decimal (s : string) : option (N * Z) :=
  let '(ip, ni, r1) := read_digits s 0 0 in
  let '(m, nf, r2) :=
    match r1 with
    | String "." r => read_digits r ip 0
    | _ => (ip, 0, r1)
    end in
  if (ni + nf =? 0)%nat then None
  else
    match r2 with
    | EmptyString => Some (m, (- Z.of_nat nf)%Z)
    | String c r3 =>
        if (Ascii.eqb c "e" || Ascii.eqb c "E")%bool
        then option_map (fun e => (m, (e - Z.of_nat nf)%Z)) (read_exponent r3)
        else None
    end.

(** [float(s)]; [None] stands for the ValueError it raises. *)
Definition float_of_str (s : string) : option pyfloat :=
  match drop_underscores None (strip s) with
  | None => None
  | Some t =>
      let '(neg, body) :=
        match t with
        | String "+" r => (false, r)
        | String "-" r => (true, r)
        | _ => (false, t)
        end in
      let l := lower body in
      if (String.eqb l "inf" || String.eqb l "infinity")%bool then Some (Inf neg)
      else if String.eqb l "nan" then Some NaN
      else option_map (fun '(c, e) => Finite neg c e) (read_decimal body)
  end.

Definition float (s : string) : result pyfloat :=
  match float_of_str s with
  | Some x => Ok x
  | None => Raise ValueError
  end.

End Py.

Import Py.

Declare Scope py_scope.
Notation "x <- m ;; k" := (Py.bind m (fun x => k))
  (at level 61, m at next level, right associativity) : py_scope.
Local Open Scope py_scope.

(** The carriage return that ends every frame. *)
Definition CR : string := String (ascii_of_nat 13) EmptyString.

(* ================================================================== *)
(** * The serial port and the clock, as a recording stub *)
(* ================================================================== *)

Module Port.

(** The calls the code makes on the port, and [time.sleep]. *)
Inductive event : Type :=
| EvOpen
| EvClose
| EvResetInput
| EvResetOutput
| EvWrite (data : list N)
| EvFlush
| EvReadUntil
| EvSleep (seconds : Q).

(** What one [ser.read_until(b'\r').decode(...)] evaluates to: the decoded
    text (all of it when the terminator came, what had arrived when the
    timeout struck, the empty text when nothing did), or an exception of the
    read or of the decoding. *)
Inductive outcome : Type :=
| Reply (text : string)
| Fails (e : exn).

Record Serial : Type := {
  is_open : bool;
  incoming : list outcome;
  log : list event
}.

(** Code that talks to a state [St] and may raise. *)
Definition M (St A : Type) : Type := St -> result A * St.

Definition ret {St A : Type} (a : A) : M St A := fun s => (Ok a, s).

Definition raise {St A : Type} (e : exn) : M St A := fun s => (Raise e, s).

Definition bind {St A B : Type} (m : M St A) (k : A -> M St B) : M St B :=
  fun s =>
    match m s with
    | (Ok a, s') => k a s'
    | (Raise e, s') => (Raise e, s')
    end.

(** A pure computation that may raise, run inside [M]. *)
Definition lift {St A : Type} (r : result A) : M St A := fun s => (r, s).

(** [try: m  except Exception as e: h e] *)
Definition try_except {St A : Type} (m : M St A) (h : exn -> M St A) : M St A :=
  fun s =>
    match m s with
    | (Ok a, s') => (Ok a, s')
    | (Raise e, s') => h e s'
    end.

Definition record (ev : event) : M Serial unit :=
  fun s => (Ok tt, {| is_open := is_open s; incoming := incoming s;
                      log := log s ++ [ev] |}).

(** Every port call on a closed port raises (PortNotOpenError, a
    SerialException). *)
Definition when_open {A : Type} (m : M Serial A) : M Serial A :=
  fun s => if is_open s then m s else (Raise SerialException, s).

Definition write (data : list N) : M Serial unit := when_open (record (EvWrite data)).

Definition flush : M Serial unit := when_open (record EvFlush).

Definition reset_input_buffer : M Serial unit := when_open (record EvResetInput).

Definition reset_output_buffer : M Serial unit := when_open (record EvResetOutput).

Definition open : M Serial unit :=
  fun s => (Ok tt, {| is_open := true; incoming := incoming s;
                      log := log s ++ [EvOpen] |}).

Definition close : M Serial unit :=
  fun s => (Ok tt, {| is_open := false; incoming := incoming s;
                      log := log s ++ [EvClose] |}).

(** [ser.read_until(b'\r').decode(...)]: the next scripted outcome; a bus
    with nothing scripted stays silent until the timeout. *)
Definition read_until_decode : M Serial string :=
  when_open (fun s =>
    let s' rest := {| is_open := is_open s; incoming := rest;
                      log := log s ++ [EvReadUntil] |} in
    match incoming s with
    | [] => (Ok EmptyString, s' [])
    | Reply text :: rest => (Ok text, s' rest)
    | Fails e :: rest => (Raise e, s' rest)
    end).

(** [time.sleep(seconds)], recorded in the same log. *)
Definition sleep (seconds : Q) : M Serial unit := record (EvSleep seconds).

(** [x > 0] on a delay. *)
Definition positive (x : Q) : bool := negb (Qle_bool x 0).

End Port.

Import Port.

Declare Scope port_scope.
Notation "x <~ m ;; k" := (Port.bind m (fun x => k))
  (at level 61, m at next level, right associativity) : port_scope.
Notation "m ;;; k" := (Port.bind m (fun _ => k))
  (at level 61, right associativity) : port_scope.
Local Open Scope port_scope.

(* ================================================================== *)
(** * digisens_interface.py *)
(* ================================================================== *)

Module digisens_interface.

(** [DigiSensInterface._calculate_checksum] *)
Definition _calculate_checksum (message : string) : string :=
  let checksum := fold_left (fun acc c => N.lxor acc c) (ords message) 0%N in
  fmt_02X checksum.

(** [DigiSensInterface._build_command]; [channel = None] is the default
    argument, [use_extended] selects the ['#'] prefix. *)
Definition _build_command (command mux_id : string) (channel : option Z)
           (use_extended : bool) : string :=
  let prefix := if use_extended then "#" else "@" in
  let data := match channel with
              | Some ch => mux_id ++ fmt_02d ch
              | None => mux_id
              end in
  let length := (len command + len data + 2)%nat in
  let message := prefix ++ fmt_02d (Z.of_nat length) ++ command ++ data in
  let checksum := _calculate_checksum message in
  message ++ checksum ++ CR.

(** [class StatusFlag(Enum)] *)
Inductive StatusFlag : Type :=
| OK
| MOTION
| NOT_CONNECTED
| EEPROM_ERROR.

(** [StatusFlag(value)]: lookup by value, ValueError when no member has
    it. *)
Definition StatusFlag_of_value (value : ascii) : result StatusFlag :=
  if Ascii.eqb value " " then Ok OK
  else if Ascii.eqb value "M" then Ok MOTION
  else if Ascii.eqb value "C" then Ok NOT_CONNECTED
  else if Ascii.eqb value "E" then Ok EEPROM_ERROR
  else Raise ValueError.

Record WeightReading : Type := {
  weight : pyfloat;
  status : StatusFlag;
  raw_response : string
}.

(** [WeightReading.is_valid] *)
Definition is_valid (r : WeightReading) : bool :=
  match status r with
  | OK => true
  | _ => false
  end.

(** The [serial] attribute of a [DigiSensInterface]; [None] before
    [connect]. *)
Record DigiSensInterface : Type := { serial : option Serial }.

(** Runs port calls on [self.serial], which the caller has checked. *)
Definition on_serial {A : Type} (m : M Serial A) : M DigiSensInterface A :=
  fun self =>
    match serial self with
    | Some ser => let '(r, ser') := m ser in (r, {| serial := Some ser' |})
    | None => (Raise ConnectionError, self)
    end.

(** [DigiSensInterface._send_command] *)
Definition _send_command (command : string) : M DigiSensInterface string :=
  fun self =>
    match serial self with
    | None => (Raise ConnectionError, self)
    | Some ser =>
        if negb (is_open ser) then (Raise ConnectionError, self)
        else
          on_serial
            (data <~ lift (encode_ascii command) ;;
             write data ;;;
             flush ;;;
             raw <~ read_until_decode ;;
             let response := strip raw in
             if String.eqb response EmptyString then raise TimeoutError
             else ret response) self
    end.

(** [DigiSensInterface._parse_weight_response] *)
Definition _parse_weight_response (response : string) : result WeightReading :=
  let data := slice (Some 3%Z) None response in
  sign <- item 0 data ;;
  let weight_str := strip (slice (Some 1%Z) (Some 9%Z) data) in
  status_char <- item 9 data ;;
  weight <- float weight_str ;;
  let weight := if Ascii.eqb sign "-" then fneg weight else weight in
  status <- match StatusFlag_of_value status_char with
            | Ok st => Ok st
            | Raise ValueError => Ok OK
            | Raise e => Raise e
            end ;;
  Ok {| weight := weight; status := status; raw_response := response |}.

(** [DigiSensInterface.get_weight] *)
Definition get_weight (mux_id : string) (channel : Z) (use_extended : bool)
  : M DigiSensInterface WeightReading :=
  let command := _build_command "gw" mux_id (Some channel) use_extended in
  response <~ _send_command command ;;
  lift (_parse_weight_response response).

(** The [for i in range(0, len(data), 11)] loop of [get_all_weights]; [idxs]
    are the values of [i] still to come. *)
Fixpoint get_all_weights_loop (idxs : list nat) (data : string)
         (weights : list WeightReading) : result (list WeightReading) :=
  match idxs with
  | [] => Ok weights
  | i :: rest =>
      let weight_block :=
        slice (Some (Z.of_nat i)) (Some (Z.of_nat (i + 11))) data in
      if (len weight_block =? 11)%nat then
        let fake_response := "@13" ++ weight_block ++ "00" in
        weight <- _parse_weight_response fake_response ;;
        get_all_weights_loop rest data (weights ++ [weight])
      else get_all_weights_loop rest data weights
  end.

(** [DigiSensInterface.get_all_weights] *)
Definition get_all_weights (mux_id : string) (use_extended : bool)
  : M DigiSensInterface (list WeightReading) :=
  let command := _build_command "gl" mux_id None use_extended in
  response <~ _send_command command ;;
  let data := slice (Some 3%Z) None response in
  let data := slice None (Some (-2)%Z) data in
  lift (get_all_weights_loop (range_step (len data) 11) data []).

(** [DigiSensInterface.zero_sensor] *)
Definition zero_sensor (mux_id : string) (channel : Z) (use_extended : bool)
  : M DigiSensInterface bool :=
  let command := _build_command "sz" mux_id (Some channel) use_extended in
  response <~ _send_command command ;;
  ret (contains "sz" (lower response)).

(** [DigiSensInterface.get_model_number] *)
Definition get_model_number (mux_id : string) (use_extended : bool)
  : M DigiSensInterface string :=
  let command := _build_command "gm" mux_id None use_extended in
  response <~ _send_command command ;;
  ret (slice (Some 3%Z) (Some (-2)%Z) response).

(** [DigiSensInterface.get_software_revision] *)
Definition get_software_revision (mux_id : string) (use_extended : bool)
  : M DigiSensInterface string :=
  let command := _build_command "gr" mux_id None use_extended in
  response <~ _send_command command ;;
  ret (slice (Some 3%Z) (Some (-2)%Z) response).

(** [DigiSensInterface.get_mux_address] *)
Definition get_mux_address (use_extended : bool) : M DigiSensInterface string :=
  let prefix := if use_extended then "#" else "@" in
  let message := prefix ++ "05ag" in
  let checksum := _calculate_checksum message in
  let command := message ++ checksum ++ CR in
  response <~ _send_command command ;;
  ret (slice (Some 3%Z) (Some (-2)%Z) response).

(** The table [valid_baudrates] of [set_baudrate]. *)
Definition valid_baudrates : list Z := [9600; 19200; 38400; 57600; 115200]%Z.

(** [l.index(x)] for an [x] known to be in [l]: the first position. *)
Fixpoint list_index (x : Z) (l : list Z) : nat :=
  match l with
  | [] => 0
  | y :: l' => if (x =? y)%Z then 0 else S (list_index x l')
  end.

(** [DigiSensInterface.set_baudrate] *)
Definition set_baudrate (mux_id : string) (baudrate : Z) (use_extended : bool)
  : M DigiSensInterface bool :=
  if negb (existsb (Z.eqb baudrate) valid_baudrates) then raise ValueError
  else
    let code := list_index baudrate valid_baudrates in
    let command := _build_command ("br" ++ str_of_nat code) mux_id None
                                  use_extended in
    response <~ _send_command command ;;
    ret (contains "br" (lower response)).

(** [DigiSensInterface.disconnect] *)
Definition disconnect : M DigiSensInterface unit :=
  fun self =>
    match serial self with
    | Some ser => if is_open ser then on_serial close self else (Ok tt, self)
    | None => (Ok tt, self)
    end.

(** ** [class ShelfMonitor]

    [self.shelves] is a dictionary from MUX id to tare weights, kept as an
    association list in insertion order.  The subtraction of two floats is
    binary64 arithmetic, which the embedding takes as given. *)

Fixpoint dict_get {V : Type} (k : string) (d : list (string * V)) : option V :=
  match d with
  | [] => None
  | (k', v) :: d' => if String.eqb k k' then Some v else dict_get k d'
  end.

(** [d[k] = v] *)
Fixpoint dict_set {V : Type} (k : string) (v : V) (d : list (string * V))
  : list (string * V) :=
  match d with
  | [] => [(k, v)]
  | (k', v') :: d' =>
      if String.eqb k k' then (k', v) :: d' else (k', v') :: dict_set k v d'
  end.

Record ShelfMonitor : Type := {
  interface : DigiSensInterface;
  shelves : list (string * list pyfloat)
}.

(** A call on [self.interface]. *)
Definition on_interface {A : Type} (m : M DigiSensInterface A) : M ShelfMonitor A :=
  fun self =>
    let '(r, i) := m (interface self) in
    (r, {| interface := i; shelves := shelves self |}).

(** [ShelfMonitor.add_shelf] *)
Definition add_shelf (mux_id : string) (num_sensors : Z)
           (tare_weights : option (list pyfloat)) : M ShelfMonitor unit :=
  fun self =>
    let tare_weights :=
      match tare_weights with
      | None => repeat float_zero (Z.to_nat num_sensors)
      | Some t => t
      end in
    (Ok tt, {| interface := interface self;
               shelves := dict_set mux_id tare_weights (shelves self) |}).

(** [time.sleep] before a read of the interface; recorded when there is a
    port to record it. *)
Definition sleep_before_read (seconds : Q) : M DigiSensInterface unit :=
  fun self =>
    match serial self with
    | Some _ => on_serial (sleep seconds) self
    | None => (Ok tt, self)
    end.

(** [ShelfMonitor.calibrate_shelf] *)
Definition calibrate_shelf (mux_id : string) : M ShelfMonitor (list pyfloat) :=
  on_interface (sleep_before_read 2) ;;;
  weights <~ on_interface (get_all_weights mux_id false) ;;
  let tare_weights := map weight weights in
  (fun self => (Ok tare_weights,
                {| interface := interface self;
                   shelves := dict_set mux_id tare_weights (shelves self) |})).

Section Net_weights.

(** [reading.weight - tare] *)
Variable float_sub : pyfloat -> pyfloat -> pyfloat.

(** The [for i, (reading, tare) in enumerate(zip(weights, tare_weights))]
    loop of [get_net_weights]. *)
Fixpoint net_of (weights : list WeightReading) (tare_weights : list pyfloat)
  : list (option pyfloat) :=
  match weights, tare_weights with
  | reading :: weights', tare :: tare_weights' =>
      (if is_valid reading then Some (float_sub (weight reading) tare) else None)
      :: net_of weights' tare_weights'
  | _, _ => []
  end.

(** [ShelfMonitor.get_net_weights] *)
Definition get_net_weights (mux_id : string)
  : M ShelfMonitor (list (option pyfloat)) :=
  fun self =>
    match dict_get mux_id (shelves self) with
    | None => (Raise ValueError, self)
    | Some tare_weights =>
        (weights <~ on_interface (get_all_weights mux_id false) ;;
         ret (net_of weights tare_weights)) self
    end.

End Net_weights.

End digisens_interface.

(** read_two_muxes.py: the two reads of [main], inside its [with] block;
    the prompts and the printing are left out. *)
Module read_two_muxes.

Import digisens_interface.

Definition detect_addressing_mode (mux_id : string) : bool :=
  (len mux_id =? 16)%nat.

Definition main_reads (mux1_id mux2_id : string)
  : M DigiSensInterface
      (option (list WeightReading) * option (list WeightReading)) :=
  let use_extended_1 := detect_addressing_mode mux1_id in
  let use_extended_2 := detect_addressing_mode mux2_id in
  weights1 <~ try_except
                (w <~ get_all_weights mux1_id use_extended_1 ;; ret (Some w))
                (fun _ => ret None) ;;
  weights2 <~ try_except
                (w <~ get_all_weights mux2_id use_extended_2 ;; ret (Some w))
                (fun _ => ret None) ;;
  ret (weights1, weights2).

End read_two_muxes.

(* ================================================================== *)
(** * The stand-alone scripts *)
(* ================================================================== *)

(** The status text of a reading tuple.  [f"PARSE_ERROR({e})"] and
    [f"ERROR({e})"] keep the exception instead of its message. *)
Inductive status_text : Type :=
| Name (s : string)
| PARSE_ERROR (e : exn)
| ERROR (e : exn).

(** The tuple [(channel, weight, status, valid)]. *)
Definition reading : Type := (nat * pyfloat * status_text * bool)%type.

Definition channel_of (r : reading) : nat := let '(ch, _, _, _) := r in ch.
Definition weight_of (r : reading) : pyfloat := let '(_, w, _, _) := r in w.
Definition status_of (r : reading) : status_text := let '(_, _, st, _) := r in st.
Definition valid_of (r : reading) : bool := let '(_, _, _, v) := r in v.

(** read_two_muxes_simple.py; the same two functions are repeated verbatim in
    read_two_muxes_multiport.py, get_weights_gd_fixed.py,
    get_weights_gd_single_port.py and (as [create_lowa_msg_OLD])
    verify_protocol.py. *)
Module read_two_muxes_simple.

(** [byte_str.extend(map(ord, msg))] takes every character of 8-bit text;
    the ValueError it raises on a code point of 256 or more cannot occur
    on the text of the embedding. *)
Definition XOR_CRC_calculation (msg : string) : string :=
  let byte_str := ords msg in
  let checksum := fold_left (fun acc b => N.lxor acc b) byte_str 0%N in
  zfill 2 (upper (slice (Some 2%Z) None (hex checksum))).

Definition create_lowa_msg (head uid command data : string) : string :=
  let c_length := str_of_nat (len (head ++ "00" ++ command ++ uid ++ data)) in
  let msg := head ++ zfill 2 c_length ++ command ++ uid ++ data in
  let msg_crc := XOR_CRC_calculation msg in
  let msg := msg ++ msg_crc in
  msg ++ CR.

(** [status_map.get(status_char, 'UNKNOWN')] *)
Definition status_map_get (status_char : ascii) : string :=
  if Ascii.eqb status_char " " then "OK"
  else if Ascii.eqb status_char "M" then "MOTION"
  else if Ascii.eqb status_char "C" then "NOT_CONNECTED"
  else if Ascii.eqb status_char "E" then "EEPROM_ERROR"
  else "UNKNOWN".

Definition parse_weight_response (response : string) (channel_idx : nat)
  : result reading :=
  sign <- item 0 response ;;
  let weight_str := strip (slice (Some 1%Z) (Some 9%Z) response) in
  status_char <- item 9 response ;;
  let '(weight, status_char) :=
    match float weight_str with
    | Ok weight => (if Ascii.eqb sign "-" then fneg weight else weight, status_char)
    | Raise _ => (float_zero, "E"%char)
    end in
  let status := status_map_get status_char in
  let valid := Ascii.eqb status_char " " in
  Ok (channel_idx, weight, Name status, valid).

(** The [for i in range(0, len(data), 11)] loop of [read_mux_weights];
    [idxs] are the values of [i] still to come. *)
Fixpoint read_mux_weights_loop (idxs : list nat) (data : string)
         (weights : list reading) : result (list reading) :=
  match idxs with
  | [] => Ok weights
  | i :: rest =>
      let weight_block :=
        slice (Some (Z.of_nat i)) (Some (Z.of_nat (i + 11))) data in
      if (len weight_block =? 11)%nat then
        let channel_idx := i / 11 in
        parsed <- parse_weight_response weight_block channel_idx ;;
        read_mux_weights_loop rest data (weights ++ [parsed])
      else read_mux_weights_loop rest data weights
  end.

(** Everything [read_mux_weights] does with the reply text. *)
Definition weights_of_answer (mux_answer : string) : result (list reading) :=
  let data := slice (Some 3%Z) (Some (-3)%Z) mux_answer in
  read_mux_weights_loop (range_step (len data) 11) data [].

Definition read_mux_weights (mux_id : string) (use_extended : bool)
  : M Serial (list reading) :=
  let head := if use_extended then "#" else "@" in
  let msg := create_lowa_msg head mux_id "gl" EmptyString in
  write (encode_utf8 msg) ;;;
  mux_answer <~ read_until_decode ;;
  lift (weights_of_answer mux_answer).

(** The two reads of [main], between [ser.open()] and [ser.close()]; the
    prompts and the printing are left out. *)
Definition main_reads (mux1_id mux2_id : string)
  : M Serial (list reading * list reading) :=
  let use_extended_1 := (len mux1_id =? 16)%nat in
  let use_extended_2 := (len mux2_id =? 16)%nat in
  open ;;;
  weights1 <~ try_except (read_mux_weights mux1_id use_extended_1)
                         (fun _ => ret []) ;;
  weights2 <~ try_except (read_mux_weights mux2_id use_extended_2)
                         (fun _ => ret []) ;;
  close ;;;
  ret (weights1, weights2).

End read_two_muxes_simple.

(** read_two_muxes_multiport.py: the message builder, the block parser and
    the parsing loop are those of read_two_muxes_simple.py, character for
    character; [read_mux_weights] opens the port itself and reports
    failures in its result. *)
Module read_two_muxes_multiport.

Definition create_lowa_msg := read_two_muxes_simple.create_lowa_msg.

Definition parse_weight_response := read_two_muxes_simple.parse_weight_response.

(** The third component of the result of [read_mux_weights]. *)
Inductive error_message : Type :=
| No_response_or_timeout
| Serial_error (e : exn)
| Error (e : exn).

Definition read_mux_weights (mux_id : string) (use_extended : bool)
  : M Serial (bool * list reading * option error_message) :=
  try_except
    (open ;;;
     let head := if use_extended then "#" else "@" in
     let msg := create_lowa_msg head mux_id "gl" EmptyString in
     write (encode_utf8 msg) ;;;
     mux_answer <~ read_until_decode ;;
     if (String.eqb mux_answer EmptyString || (len mux_answer <? 5)%nat)%bool then
       close ;;;
       ret (false, [], Some No_response_or_timeout)
     else
       weights <~ lift (read_two_muxes_simple.weights_of_answer mux_answer) ;;
       close ;;;
       ret (true, weights, None))
    (fun e =>
       match e with
       | SerialException => ret (false, [], Some (Serial_error e))
       | _ => ret (false, [], Some (Error e))
       end).

End read_two_muxes_multiport.

(** verify_protocol.py *)
Module verify_protocol.

Definition XOR_CRC_calculation := read_two_muxes_simple.XOR_CRC_calculation.

Definition create_lowa_msg_OLD := read_two_muxes_simple.create_lowa_msg.

Definition create_lowa_msg_CORRECT (head uid command data : string) : string :=
  let payload := command ++ uid ++ data in
  let c_length := str_of_nat (len payload + 2) in
  let msg := head ++ zfill 2 c_length ++ payload in
  let msg_crc := XOR_CRC_calculation msg in
  let msg := msg ++ msg_crc in
  msg ++ CR.

End verify_protocol.

(** digisens_n17.py: the checksum is rendered without [zfill]. *)
Module digisens_n17.

Definition XOR_CRC_calculation (msg : string) : string :=
  let checksum := fold_left (fun acc b => N.lxor acc b) (encode_utf8 msg) 0%N in
  upper (slice (Some 2%Z) None (hex checksum)).

Definition create_lowa_msg (head uid command data : string) : string :=
  let c_length := str_of_nat (len (head ++ "00" ++ command ++ uid ++ data)) in
  let msg := head ++ zfill 2 c_length ++ command ++ uid ++ data in
  let msg_crc := XOR_CRC_calculation msg in
  msg ++ msg_crc ++ CR.

(** [read_scale]; [None] is the [None] it returns for a reply of fewer
    than five characters. *)
Definition read_scale (uid : string) (scale_number : Z) : M Serial (option string) :=
  let scale_str := fmt_02d scale_number in
  let msg := create_lowa_msg "#" uid "gd" scale_str in
  write (encode_utf8 msg) ;;;
  reply <~ read_until_decode ;;
  if (len reply <? 5)%nat then ret None
  else ret (Some (slice (Some 3%Z) (Some (-1)%Z) reply)).

End digisens_n17.

(** get_weights_gd_fixed.py *)
Module get_weights_gd_fixed.

Definition create_lowa_msg := read_two_muxes_simple.create_lowa_msg.

Definition status_map_get := read_two_muxes_simple.status_map_get.

Definition parse_gd_response (response : string) (channel_idx : nat) : reading :=
  match
    (let data := slice (Some 3%Z) None response in
     sign <- item 0 data ;;
     let weight_str := strip (slice (Some 1%Z) (Some 10%Z) data) in
     status_char <- item 10 data ;;
     weight <- float weight_str ;;
     let weight := if Ascii.eqb sign "-" then fneg weight else weight in
     let status := status_map_get status_char in
     let valid := Ascii.eqb status_char " " in
     Ok (channel_idx, weight, Name status, valid))
  with
  | Ok r => r
  | Raise e => (channel_idx, float_zero, PARSE_ERROR e, false)
  end.

(** What the loop of [read_all_weights_gd] appends for a reply. *)
Definition reading_of_response (response : string) (channel : nat) : reading :=
  if (negb (String.eqb response EmptyString) && (14 <=? len response)%nat)%bool
  then parse_gd_response response channel
  else (channel, float_zero, Name "NO_RESPONSE", false).

(** The [for channel in range(num_channels)] loop of
    [read_all_weights_gd]. *)
Fixpoint read_all_weights_gd_loop (head mux_id : string) (channels : list nat)
         (weights : list reading) : M Serial (list reading) :=
  match channels with
  | [] => ret weights
  | channel :: rest =>
      r <~ try_except
             (let msg := create_lowa_msg head mux_id "gd"
                           (str_of_nat channel ++ "0") in
              write (encode_utf8 msg) ;;;
              flush ;;;
              response <~ read_until_decode ;;
              ret (reading_of_response response channel))
             (fun e => ret (channel, float_zero, ERROR e, false)) ;;
      read_all_weights_gd_loop head mux_id rest (weights ++ [r])
  end.

Definition read_all_weights_gd (mux_id : string) (num_channels : nat)
           (use_extended : bool)
  : M Serial (bool * list reading * option exn) :=
  try_except
    (open ;;;
     reset_input_buffer ;;;
     reset_output_buffer ;;;
     let head := if use_extended then "#" else "@" in
     weights <~ read_all_weights_gd_loop head mux_id (range num_channels) [] ;;
     close ;;;
     ret (true, weights, None))
    (fun e => ret (false, [], Some e)).

End get_weights_gd_fixed.

(** get_weights_gd_single_port.py *)
Module get_weights_gd_single_port.

Definition create_lowa_msg := read_two_muxes_simple.create_lowa_msg.

Definition parse_gd_response := get_weights_gd_fixed.parse_gd_response.

(** The request of one channel: [gd], the channel, mode 0. *)
Definition gd_msg (head mux_id : string) (channel : nat) : string :=
  create_lowa_msg head mux_id "gd" (str_of_nat channel ++ "0").

(** The [for channel in range(num_channels)] loop of
    [read_all_weights_gd_single_port]. *)
Fixpoint read_all_weights_gd_single_port_loop (head mux_id : string)
         (inter_command_delay : Q) (channels : list nat)
         (weights : list reading) : M Serial (list reading) :=
  match channels with
  | [] => ret weights
  | channel :: rest =>
      weights <~ try_except
             (let msg := gd_msg head mux_id channel in
              write (encode_utf8 msg) ;;;
              flush ;;;
              response <~ read_until_decode ;;
              let weights :=
                if (negb (String.eqb response EmptyString) && (14 <=? len response)%nat)%bool
                then (weights ++ [parse_gd_response response channel])%list
                else (weights ++ [(channel, float_zero, Name "NO_RESPONSE", false)])%list in
              (if positive inter_command_delay
               then sleep inter_command_delay
               else ret tt) ;;;
              ret weights)
             (fun e => ret (weights ++ [(channel, float_zero, ERROR e, false)])%list) ;;
      read_all_weights_gd_single_port_loop head mux_id inter_command_delay
        rest weights
  end.

Definition read_all_weights_gd_single_port (mux_id : string)
           (num_channels : nat) (use_extended : bool)
           (inter_command_delay : Q)
  : M Serial (bool * list reading * option exn) :=
  try_except
    (reset_input_buffer ;;;
     reset_output_buffer ;;;
     let head := if use_extended then "#" else "@" in
     weights <~ read_all_weights_gd_single_port_loop head mux_id
                  inter_command_delay (range num_channels) [] ;;
     ret (true, weights, None))
    (fun e => ret (false, [], Some e)).

(** One entry of [results]; the [port] and [elapsed] keys are left out. *)
Record mux_result : Type := {
  mux_id : string;
  label : string;
  success : bool;
  weights : list reading;
  error : option exn
}.

(** The default of [inter_command_delay], 0.05 s. *)
Definition default_inter_command_delay : Q := 5 # 100.

(** The [for idx, mux_config in enumerate(mux_configs)] loop of
    [read_multiple_muxes_single_port]; [total] is [len(mux_configs)] and a
    configuration is the pair of its ['id'] and ['label']. *)
Fixpoint read_multiple_muxes_single_port_loop (inter_mux_delay : Q)
         (total idx : nat) (mux_configs : list (string * string))
         (results : list mux_result) : M Serial (list mux_result) :=
  match mux_configs with
  | [] => ret results
  | (mux_id, label) :: rest =>
      let use_extended := (len mux_id =? 16)%nat in
      r <~ read_all_weights_gd_single_port mux_id 8 use_extended
             default_inter_command_delay ;;
      let '(success, weights, error) := r in
      let results := (results ++ [{| mux_id := mux_id; label := label;
                                     success := success; weights := weights;
                                     error := error |}])%list in
      (if (positive inter_mux_delay && (idx <? total - 1)%nat)%bool
       then sleep inter_mux_delay
       else ret tt) ;;;
      read_multiple_muxes_single_port_loop inter_mux_delay total (S idx)
        rest results
  end.

Definition read_multiple_muxes_single_port
           (mux_configs : list (string * string)) (inter_mux_delay : Q)
  : M Serial (list mux_result) :=
  try_except
    (open ;;;
     results <~ read_multiple_muxes_single_port_loop inter_mux_delay
                  (length mux_configs) 0 mux_configs [] ;;
     close ;;;
     ret results)
    (fun _ => ret []).

End get_weights_gd_single_port.

(* ================================================================== *)
(** * Vocabulary of the specification *)
(* ================================================================== *)

(** "2-digit zero-padded decimal" *)
Definition dec2 (n : nat) : string :=
  String (ascii_of_nat (48 + n / 10))
         (String (ascii_of_nat (48 + n mod 10)) EmptyString).

(** The upper-case hexadecimal digit of a value below 16. *)
Definition hexdigit (d : N) : ascii :=
  if (d <? 10)%N then ascii_of_N (48 + d) else ascii_of_N (55 + d).

(** "2 uppercase hex digits, zero-padded" *)
Definition hex2 (n : N) : string :=
  String (hexdigit (n / 16)) (String (hexdigit (n mod 16)) EmptyString).

(** "XOR the ordinal value of every character" *)
Definition xor_ords (s : string) : N :=
  fold_right N.lxor 0%N (ords s).

(** The text [_build_command] appends for its [channel] argument. *)
Definition channel_text (channel : option Z) : string :=
  match channel with
  | Some ch => fmt_02d ch
  | None => EmptyString
  end.

(** The address length that a header character announces. *)
Definition address_length (header : ascii) : nat :=
  if Ascii.eqb header "#" then 16 else 3.

(** The [j]-th window of width 11 of a reply body. *)
Definition window (data : string) (j : nat) : string :=
  slice (Some (Z.of_nat (j * 11))) (Some (Z.of_nat (j * 11 + 11))) data.

(** Whether the library parses window [j] of [data], wrapped the way
    [get_all_weights] wraps a window before it calls the block parser. *)
Definition window_parses (data : string) (j : nat) : bool :=
  match digisens_interface._parse_weight_response
          ("@13" ++ window data j ++ "00") with
  | Ok _ => true
  | Raise _ => false
  end.

(** A reply body of seven full windows and five more characters. *)
Definition seven_windows_and_five : string :=
  " 0002.130 ? 0002.131 ? 0002.132 ? 0002.133 ?"
  ++ "-0002.134M? 0002.135 ? 0002.136 ? 0002".

(** A reply body of eight blocks of ten characters. *)
Definition eight_blocks_of_ten : string :=
  " 0002.130  0002.131  0002.132  0002.133 "
  ++ "-0002.134M 0002.135  0002.136  0002.137 ".

(** A port that is open, with the given outcomes for its next reads and an
    empty log. *)
Definition fresh_port (replies : list outcome) : Serial :=
  {| is_open := true; incoming := replies; log := [] |}.

(** An interface after [connect], holding the port [ser]. *)
Definition connected (ser : Serial) : digisens_interface.DigiSensInterface :=
  {| digisens_interface.serial := Some ser |}.

(** Text made of characters below 128. *)
Definition is_ascii (s : string) : bool :=
  forallb (fun n => (n <? 128)%N) (ords s).

(** The reply text ends with the terminator. *)
Fixpoint terminated (text : string) : bool :=
  match text with
  | EmptyString => false
  | String c EmptyString => Ascii.eqb c (ascii_of_nat 13)
  | String _ rest => terminated rest
  end.

(** The request for channel 0 of device 123. *)
Definition gw_request : string :=
  digisens_interface._build_command "gw" "123" (Some 0%Z) false.

(** A full reply to it. *)
Definition gw_reply : string := "@13 0002.130 5C" ++ CR.

(** The requests written, in the order of the log. *)
Fixpoint writes (l : list event) : list (list N) :=
  match l with
  | [] => []
  | EvWrite data :: l' => data :: writes l'
  | _ :: l' => writes l'
  end.

(** Where a port stands between two exchanges: [Ready] to take a request
    (at the start, or once the delay has passed after a read), [Sent] when a
    request is written and its read is still to come, [Heard] when the read
    has been made and the delay has not yet passed. *)
Inductive phase : Type :=
| Ready
| Sent
| Heard.

(** One event of the log; [None] when a request is written on a port that
    is not [Ready].  A sleep counts only after the read of the exchange: one
    of at least [d] seconds makes the port [Ready] again. *)
Definition settle_step (d : Q) (st : phase) (ev : event) : option phase :=
  match ev, st with
  | EvWrite _, Ready => Some Sent
  | EvWrite _, _ => None
  | EvReadUntil, Sent => Some Heard
  | EvSleep s, Heard => Some (if Qle_bool d s then Ready else Heard)
  | _, _ => Some st
  end.

(** The phase after a log, started in [st]. *)
Fixpoint settle_run (d : Q) (st : phase) (l : list event) : option phase :=
  match l with
  | [] => Some st
  | ev :: l' =>
      match settle_step d st ev with
      | Some st' => settle_run d st' l'
      | None => None
      end
  end.

(** Every exchange of the log is a write followed by its read, and the read
    is followed by a sleep of at least [d] seconds before the next write and
    before the log ends. *)
Definition settled (d : Q) (l : list event) : bool :=
  match settle_run d Ready l with
  | Some Ready => true
  | _ => false
  end.

(** The log of the port of an interface. *)
Definition log_of (self : digisens_interface.DigiSensInterface) : list event :=
  match digisens_interface.serial self with
  | Some ser => log ser
  | None => []
  end.

(** The read returned: with a reply, not with an exception. *)
Definition is_reply (o : outcome) : bool :=
  match o with
  | Reply _ => true
  | Fails _ => false
  end.

(** The events of one exchange of the single-port loop: the write, the
    flush, the read, and the sleep, which is left out when the read raised
    or the delay is not positive. *)
Definition exchange_events (d : Q) (request : string) (o : option outcome)
  : list event :=
  [EvWrite (encode_utf8 request); EvFlush; EvReadUntil]
  ++ match o with
     | Some (Fails _) => []
     | _ => if positive d then [EvSleep d] else []
     end.

(** The events of the exchanges of one device, channel after channel; [inc]
    are the outcomes of the reads to come. *)
Fixpoint poll_events (d : Q) (head mux_id : string) (channels : list nat)
         (inc : list outcome) : list event :=
  match channels with
  | [] => []
  | channel :: rest =>
      exchange_events d (get_weights_gd_single_port.gd_msg head mux_id channel)
                      (hd_error inc)
      ++ poll_events d head mux_id rest (tl inc)
  end.

(** The header a device is addressed with in
    [read_multiple_muxes_single_port]. *)
Definition head_of (mux_id : string) : string :=
  if (len mux_id =? 16)%nat then "#" else "@".

(** The events of polling the devices of [mux_configs] one after the other:
    for each the two buffer resets and its eight exchanges, and the sleep
    between two devices. *)
Fixpoint bus_events (inter_mux_delay : Q) (total idx : nat)
         (mux_configs : list (string * string)) (inc : list outcome)
  : list event :=
  match mux_configs with
  | [] => []
  | (mux_id, _) :: rest =>
      [EvResetInput; EvResetOutput]
      ++ poll_events get_weights_gd_single_port.default_inter_command_delay
                     (head_of mux_id) mux_id (range 8) inc
      ++ (if (positive inter_mux_delay && (idx <? total - 1)%nat)%bool
          then [EvSleep inter_mux_delay] else [])
      ++ bus_events inter_mux_delay total (S idx) rest (skipn 8 inc)
  end.

(** The requests of one device, channel by channel. *)
Definition requests_of (mux_id : string) : list (list N) :=
  map (fun channel =>
         encode_utf8
           (get_weights_gd_single_port.gd_msg (head_of mux_id) mux_id channel))
      (range 8).

(** The log of [main] reading devices 123 and 456, each answering with two
    blocks. *)
Definition main_reads_log : list event :=
  log_of (snd (read_two_muxes.main_reads "123" "456"
                 (connected (fresh_port
                    [Reply ("@27 0002.130   0002.131  5C" ++ CR);
                     Reply ("@27 0002.132   0002.133  5C" ++ CR)])))).

(** The log of the single-port loop over two channels when the first read
    raises. *)
Definition failed_then_answered_log : list event :=
  log (snd (get_weights_gd_single_port.read_all_weights_gd_single_port
              "123" 2 false (5 # 100)
              (fresh_port [Fails UnicodeDecodeError;
                           Reply ("@14 00002.130 5C" ++ CR)]))).

(** The value of an upper-case hexadecimal digit. *)
Definition hexval (c : ascii) : N :=
  let n := ord c in
  if (n <? 58)%N then (n - 48)%N else (n - 55)%N.

(** The value of a text of two hexadecimal digits. *)
Definition hex2_value (s : string) : N :=
  match s with
  | String a (String b EmptyString) => (16 * hexval a + hexval b)%N
  | _ => 0%N
  end.

(** An address of a hundred characters. *)
Definition hundred_characters : string :=
  "0123456789012345678901234567890123456789012345678901234567890123456789"
  ++ "012345678901234567890123456789".

(** The interface has no port, or its port is closed. *)
Definition not_connected (self : digisens_interface.DigiSensInterface) : bool :=
  match digisens_interface.serial self with
  | Some ser => negb (is_open ser)
  | None => true
  end.

(** An address whose last character has the code 233. *)
Definition accented_address : string :=
  "12" ++ String (ascii_of_nat 233) EmptyString.

(** What a result holds, seen through [f]. *)
Definition result_map {A B : Type} (f : A -> B) (r : result A) : result B :=
  match r with
  | Ok a => Ok (f a)
  | Raise e => Raise e
  end.

(** The identity and the label of one entry of [results]. *)
Definition config_of (r : get_weights_gd_single_port.mux_result) : string * string :=
  (get_weights_gd_single_port.mux_id r, get_weights_gd_single_port.label r).

(** An entry that reports success, no error and the channels 0 to 7. *)
Definition full_result (r : get_weights_gd_single_port.mux_result) : Prop :=
  get_weights_gd_single_port.success r = true
  /\ get_weights_gd_single_port.error r = None
  /\ map channel_of (get_weights_gd_single_port.weights r) = seq 0 8.

(** The error text of a failed read of [read_mux_weights]: the first
    [except] clause takes a SerialException, the second the rest. *)
Definition error_of (e : exn) : read_two_muxes_multiport.error_message :=
  match e with
  | SerialException => read_two_muxes_multiport.Serial_error e
  | _ => read_two_muxes_multiport.Error e
  end.

(** What [read_mux_weights] of read_two_muxes_multiport.py answers when its
    read gives the outcome [o]; [None] is a bus that stays silent. *)
Definition multiport_answer (o : option outcome)
           (r : bool * list reading * option read_two_muxes_multiport.error_message)
  : Prop :=
  match o with
  | Some (Fails e) => r = (false, [], Some (error_of e))
  | Some (Reply text) =>
      if (len text <? 5)%nat
      then r = (false, [], Some read_two_muxes_multiport.No_response_or_timeout)
      else exists ws, r = (true, ws, None)
                      /\ length ws = (len text - 6) / 11
                      /\ map channel_of ws = seq 0 ((len text - 6) / 11)
  | None => r = (false, [], Some read_two_muxes_multiport.No_response_or_timeout)
  end.

(** The [gl] request of [read_mux_weights] for a MUX, with the prefix that
    [main] chooses from the length of the id. *)
Definition gl_request (mux_id : string) : list N :=
  encode_utf8
    (read_two_muxes_simple.create_lowa_msg
       (if (len mux_id =? 16)%nat then "#" else "@") mux_id "gl" EmptyString).

(** The entries of the list [get_net_weights] returns, for the readings
    [weights] and the tare weights [tares]: entry [i] exists when both lists
    have one, and is [None] for a reading that is not valid. *)
Definition net_entries (float_sub : pyfloat -> pyfloat -> pyfloat)
           (weights : list digisens_interface.WeightReading)
           (tares : list pyfloat) (nets : list (option pyfloat)) : Prop :=
  length nets = Nat.min (length weights) (length tares)
  /\ forall i,
       nth_error nets i
       = match nth_error weights i, nth_error tares i with
         | Some reading, Some tare =>
             Some (if digisens_interface.is_valid reading
                   then Some (float_sub (digisens_interface.weight reading) tare)
                   else None)
         | _, _ => None
         end.

(** What [get_net_weights] answers, against what [get_all_weights] answers
    for the same MUX on the same interface. *)
Definition net_answer (float_sub : pyfloat -> pyfloat -> pyfloat)
           (tares : list pyfloat)
           (read : result (list digisens_interface.WeightReading))
           (net : result (list (option pyfloat))) : Prop :=
  match read, net with
  | Ok weights, Ok nets => net_entries float_sub weights tares nets
  | Raise e, Raise e' => e = e'
  | _, _ => False
  end.

(** A [gl] reply with two blocks: channel 0 in order, channel 1 in motion. *)
Definition gl_reply_two : string :=
  "@25" ++ "+0002.130 k" ++ "-0000.500Mk" ++ "5C" ++ CR.

(** A monitor on a port that answers [gl_reply_two], with shelf 123
    registered under three tare weights. *)
Definition monitor_123 : digisens_interface.ShelfMonitor :=
  {| digisens_interface.interface := connected (fresh_port [Reply gl_reply_two]);
     digisens_interface.shelves := [("123", [float_zero; float_zero; float_zero])] |}.

(** A monitor with a shelf registered under a 16-character id. *)
Definition monitor_16 : digisens_interface.ShelfMonitor :=
  {| digisens_interface.interface := connected (fresh_port [Reply gl_reply_two]);
     digisens_interface.shelves := [("0120250925110711", [float_zero])] |}.

(* ================================================================== *)
(** * Properties *)
(* ================================================================== *)

(** ** Text helpers *)

Section Text.

Lemma app_assoc_str (a b c : string) : (a ++ b) ++ c = a ++ b ++ c.
Proof. induction a as [|x a IH]; simpl; [reflexivity | now rewrite IH]. Qed.

Lemma app_empty_r (a : string) : a ++ EmptyString = a.
Proof. induction a as [|x a IH]; simpl; [reflexivity | now rewrite IH]. Qed.

Lemma len_app (a b : string) : len (a ++ b) = len a + len b.
Proof. induction a as [|x a IH]; simpl; [reflexivity | now rewrite IH]. Qed.

Lemma len_take (n : nat) (s : string) : len (take n s) = Nat.min n (len s).
Proof.
  revert s; induction n as [|n IH]; intros [|c s]; simpl; try reflexivity.
  now rewrite IH.
Qed.

Lemma len_drop (n : nat) (s : string) : len (drop n s) = len s - n.
Proof.
  revert s; induction n as [|n IH]; intros [|c s]; simpl; try reflexivity.
  apply IH.
Qed.

Lemma take_all (n : nat) (s : string) : len s <= n -> take n s = s.
Proof.
  revert s; induction n as [|n IH]; intros [|c s] H; simpl in *;
    try reflexivity; try lia.
  f_equal; apply IH; lia.
Qed.

Lemma take_app (a b : string) : take (len a) (a ++ b) = a.
Proof. induction a as [|x a IH]; simpl; [now destruct b | now rewrite IH]. Qed.

Lemma drop_app (a b : string) : drop (len a) (a ++ b) = b.
Proof. induction a as [|x a IH]; simpl; [now destruct b | exact IH]. Qed.

Lemma drop_drop (n m : nat) (s : string) : drop n (drop m s) = drop (m + n) s.
Proof.
  revert s; induction m as [|m IH]; intros s; simpl; [reflexivity|].
  destruct s as [|c s]; [now destruct n | apply IH].
Qed.

Lemma take_drop_app (n : nat) (s : string) : take n s ++ drop n s = s.
Proof.
  revert s; induction n as [|n IH]; intros [|c s]; simpl; try reflexivity.
  now rewrite IH.
Qed.

Lemma len_0_empty (s : string) : len s = 0 -> s = EmptyString.
Proof. now destruct s. Qed.

(** A text of known small length, spelled out. *)
Lemma len_1_inv (s : string) : len s = 1 -> exists c, s = String c EmptyString.
Proof. destruct s as [|c [|d s]]; simpl; try discriminate; eauto. Qed.

Lemma len_2_inv (s : string) :
  len s = 2 -> exists c d, s = String c (String d EmptyString).
Proof. destruct s as [|c [|d [|e s]]]; simpl; try discriminate; eauto. Qed.

(** Slices with both bounds inside the text. *)
Lemma slice_nat (a b : nat) (s : string) :
  a <= b -> b <= len s ->
  slice (Some (Z.of_nat a)) (Some (Z.of_nat b)) s = take (b - a) (drop a s).
Proof.
  intros Hab Hb. unfold slice, bound.
  destruct (Z.ltb_spec (Z.of_nat a) 0); [lia|].
  destruct (Z.ltb_spec (Z.of_nat b) 0); [lia|].
  rewrite !Nat2Z.id, !Nat.min_l by lia. reflexivity.
Qed.

Lemma slice_from (a : nat) (s : string) :
  slice (Some (Z.of_nat a)) None s = drop a s.
Proof.
  unfold slice, bound.
  destruct (Z.ltb_spec (Z.of_nat a) 0); [lia|].
  rewrite Nat2Z.id.
  destruct (Nat.le_gt_cases a (len s)) as [H1|H1].
  - rewrite Nat.min_l by lia. apply take_all. rewrite len_drop. lia.
  - rewrite Nat.min_r by lia.
    replace (len s - len s) with 0 by lia.
    assert (E : drop a s = EmptyString) by (apply len_0_empty; rewrite len_drop; lia).
    rewrite E. now destruct (drop (len s) s).
Qed.

(** [s[a:-k]] drops [a] characters in front and [k] at the end. *)
Lemma slice_inner (a k : nat) (m t : string) :
  0 < k -> len t = k -> a <= len m ->
  slice (Some (Z.of_nat a)) (Some (- Z.of_nat k)%Z) (m ++ t) = drop a m.
Proof.
  intros Hk Ht Ha. unfold slice, bound. rewrite len_app, Ht.
  destruct (Z.ltb_spec (Z.of_nat a) 0); [lia|].
  destruct (Z.ltb_spec (- Z.of_nat k) 0); [|lia].
  rewrite Nat2Z.id, Nat.min_l by lia.
  replace (Z.to_nat (Z.max 0 (- Z.of_nat k + Z.of_nat (len m + k))))
    with (len m) by lia.
  rewrite <- (take_drop_app a m) at 2. rewrite app_assoc_str.
  assert (La : len (take a m) = a) by (rewrite len_take; lia).
  rewrite <- La at 2. rewrite drop_app.
  replace (len m - a) with (len (drop a m)) by (rewrite len_drop; lia).
  apply take_app.
Qed.

Lemma slice_init (k : nat) (m t : string) :
  0 < k -> len t = k ->
  slice None (Some (- Z.of_nat k)%Z) (m ++ t) = m.
Proof.
  intros Hk Ht. unfold slice, bound. rewrite len_app, Ht.
  destruct (Z.ltb_spec (- Z.of_nat k) 0); [|lia].
  replace (Z.to_nat (Z.max 0 (- Z.of_nat k + Z.of_nat (len m + k))) - 0)
    with (len m) by lia.
  simpl drop. destruct (m ++ t) eqn:E.
  - destruct m; [reflexivity | discriminate].
  - rewrite <- E. apply take_app.
Qed.

Lemma slice_last (k : nat) (m t : string) :
  0 < k -> len t = k ->
  slice (Some (- Z.of_nat k)%Z) None (m ++ t) = t.
Proof.
  intros Hk Ht. unfold slice, bound. rewrite len_app, Ht.
  destruct (Z.ltb_spec (- Z.of_nat k) 0); [|lia].
  replace (Z.to_nat (Z.max 0 (- Z.of_nat k + Z.of_nat (len m + k))))
    with (len m) by lia.
  rewrite drop_app. apply take_all. lia.
Qed.

End Text.

(** ** Two-character renderings, as the specification words them *)

Section Renderings.

(** A boolean property checked on every number below [n]. *)
Lemma forall_below (P : nat -> bool) (n : nat) :
  forallb P (seq 0 n) = true -> forall k, k < n -> P k = true.
Proof.
  intros A k Hk. rewrite forallb_forall in A. apply A, in_seq. lia.
Qed.

Lemma zfill_dec2 (n : nat) : n < 100 -> zfill 2 (str_of_nat n) = dec2 n.
Proof.
  intros H. apply String.eqb_eq.
  apply (forall_below (fun n => String.eqb (zfill 2 (str_of_nat n)) (dec2 n)) 100);
    [vm_compute; reflexivity | exact H].
Qed.

Lemma fmt_02d_dec2 (n : nat) : n < 100 -> fmt_02d (Z.of_nat n) = dec2 n.
Proof.
  intros H. unfold fmt_02d.
  destruct (Z.ltb_spec (Z.of_nat n) 0); [lia|].
  rewrite Nat2Z.id. now apply zfill_dec2.
Qed.

Lemma fmt_02X_hex2 (n : N) : (n < 256)%N -> fmt_02X n = hex2 n.
Proof.
  intros H. rewrite <- (N2Nat.id n). apply String.eqb_eq.
  apply (forall_below
           (fun k => String.eqb (fmt_02X (N.of_nat k)) (hex2 (N.of_nat k))) 256);
    [vm_compute; reflexivity | lia].
Qed.

Lemma lxor_lt_256 (a b : N) : (a < 256 -> b < 256 -> N.lxor a b < 256)%N.
Proof.
  intros Ha Hb.
  assert (L : forall x, (x < 256 -> N.log2 x < 8)%N).
  { intros x Hx. destruct (N.eq_dec x 0) as [->|Hn]; [reflexivity|].
    apply N.log2_lt_pow2; [lia | exact Hx]. }
  destruct (N.eq_dec (N.lxor a b) 0) as [E|E]; [rewrite E; reflexivity|].
  change 256%N with (2 ^ 8)%N. apply N.log2_lt_pow2; [lia|].
  pose proof (N.log2_lxor a b). pose proof (L a Ha). pose proof (L b Hb). lia.
Qed.

Lemma fold_lxor_lt_256 (l : list N) (acc : N) :
  (acc < 256)%N -> Forall (fun b => (b < 256)%N) l ->
  (fold_left (fun a b => N.lxor a b) l acc < 256)%N.
Proof.
  revert acc; induction l as [|b l IH]; intros acc Ha Hl; simpl; [exact Ha|].
  inversion Hl; subst. apply IH; [now apply lxor_lt_256 | assumption].
Qed.

Lemma ords_bounded (s : string) : Forall (fun b => (b < 256)%N) (ords s).
Proof.
  induction s as [|c s IH]; simpl; constructor; [apply N_ascii_bounded | exact IH].
Qed.

(** The loop [checksum ^= ord(char)], started at 0, computes [xor_ords]. *)
Lemma fold_lxor_xor_ords (s : string) (acc : N) :
  fold_left (fun a b => N.lxor a b) (ords s) acc = N.lxor acc (xor_ords s).
Proof.
  revert acc; induction s as [|c s IH]; intros acc; unfold xor_ords in *; simpl.
  - now rewrite N.lxor_0_r.
  - rewrite IH. now rewrite N.lxor_assoc.
Qed.

Lemma xor_ords_lt_256 (s : string) : (xor_ords s < 256)%N.
Proof.
  pose proof (fold_lxor_lt_256 (ords s) 0 eq_refl (ords_bounded s)) as H.
  now rewrite fold_lxor_xor_ords, N.lxor_0_l in H.
Qed.

Lemma hexdigit_not_space (d : N) : (d < 16)%N -> isspace (hexdigit d) = false.
Proof.
  intros H. rewrite <- (N2Nat.id d). apply negb_true_iff.
  apply (forall_below (fun k => negb (isspace (hexdigit (N.of_nat k)))) 16);
    [vm_compute; reflexivity | lia].
Qed.

(** The library's checksum is the XOR of the ordinals as two upper-case
    hexadecimal digits. *)
Lemma _calculate_checksum_hex2 (message : string) :
  digisens_interface._calculate_checksum message = hex2 (xor_ords message).
Proof.
  unfold digisens_interface._calculate_checksum.
  rewrite fold_lxor_xor_ords, N.lxor_0_l.
  apply fmt_02X_hex2, xor_ords_lt_256.
Qed.

(** So is the checksum of the scripts that pad with [zfill(2)]. *)
Lemma XOR_CRC_calculation_hex2 (msg : string) :
  read_two_muxes_simple.XOR_CRC_calculation msg = hex2 (xor_ords msg).
Proof.
  unfold read_two_muxes_simple.XOR_CRC_calculation.
  rewrite fold_lxor_xor_ords, N.lxor_0_l.
  apply (fmt_02X_hex2 _ (xor_ords_lt_256 msg)).
Qed.

End Renderings.

(** ** Frame encoding *)

(** C1 at the failing input.  The library builder does not produce the
    reference frame [@09sz123040]: for command ["sz"], MUX 123 and channel 0
    it renders the channel as two digits and gives [@09sz1230070]; given the
    same six characters after the length field it counts 08 and gives
    [@08sz123041], as does [create_lowa_msg_CORRECT] of verify_protocol.py.
    The builder of the scripts, and [create_lowa_msg_OLD], give the
    reference frame. *)
Theorem library_builder_misses_reference_sz :
  digisens_interface._build_command "sz" "123" (Some 0%Z) false
  = "@09sz1230070" ++ CR
  /\ digisens_interface._build_command "sz" "1230" None false
     = "@08sz123041" ++ CR
  /\ verify_protocol.create_lowa_msg_CORRECT "@" "123" "sz" "0"
     = "@08sz123041" ++ CR
  /\ verify_protocol.create_lowa_msg_OLD "@" "123" "sz" "0"
     = "@09sz123040" ++ CR
  /\ read_two_muxes_simple.create_lowa_msg "@" "123" "sz" "0"
     = "@09sz123040" ++ CR.
Proof. repeat split; vm_compute; reflexivity. Qed.

Lemma slice_1_3 (h : ascii) (d rest : string) :
  len d = 2 -> slice (Some 1%Z) (Some 3%Z) (String h (d ++ rest)) = d.
Proof. intros H. destruct (len_2_inv d H) as (a & b & ->). reflexivity. Qed.

Lemma create_lowa_msg_shape (h : ascii) (uid command data : string) :
  len (command ++ uid ++ data) + 3 < 100 ->
  read_two_muxes_simple.create_lowa_msg (String h EmptyString) uid command data
  = String h (dec2 (len (command ++ uid ++ data) + 3)
              ++ (command ++ uid ++ data)
              ++ hex2 (xor_ords (String h (dec2 (len (command ++ uid ++ data) + 3)
                                           ++ command ++ uid ++ data)))
              ++ CR).
Proof.
  intros H. unfold read_two_muxes_simple.create_lowa_msg.
  rewrite XOR_CRC_calculation_hex2.
  replace (len (String h EmptyString ++ "00" ++ command ++ uid ++ data))
    with (len (command ++ uid ++ data) + 3)
    by (rewrite (len_app (String h EmptyString)), (len_app "00"); simpl len; lia).
  rewrite zfill_dec2 by exact H.
  rewrite !app_assoc_str. reflexivity.
Qed.

Lemma _build_command_shape (command mux_id : string) (channel : option Z)
      (use_extended : bool) :
  len (command ++ mux_id ++ channel_text channel) + 2 < 100 ->
  let h := if use_extended then "#"%char else "@"%char in
  let payload := command ++ mux_id ++ channel_text channel in
  digisens_interface._build_command command mux_id channel use_extended
  = String h (dec2 (len payload + 2) ++ payload
              ++ hex2 (xor_ords (String h (dec2 (len payload + 2) ++ payload)))
              ++ CR).
Proof.
  intros H h payload. unfold digisens_interface._build_command.
  rewrite _calculate_checksum_hex2.
  assert (E : (match channel with
               | Some ch => mux_id ++ fmt_02d ch
               | None => mux_id
               end) = mux_id ++ channel_text channel).
  { destruct channel; simpl; [reflexivity | now rewrite app_empty_r]. }
  rewrite E.
  replace (len command + len (mux_id ++ channel_text channel) + 2)
    with (len payload + 2) by (unfold payload; rewrite !len_app; lia).
  rewrite fmt_02d_dec2 by exact H.
  fold payload. subst h. destruct use_extended; rewrite !app_assoc_str; reflexivity.
Qed.

(** The two characters after the header are a two-digit decimal count.  In
    a frame built by [create_lowa_msg] with a one-character header the count
    is that of command, address and data plus 3: it is the length of header,
    length field, command, address and data.  In a frame built by
    [_build_command] it is the count of command, address and channel text
    plus 2.  Both hold while the count stays below 100. *)
Lemma length_field_counts (head uid command data : string)
      (channel : option Z) (use_extended : bool) :
  len head = 1 ->
  len (command ++ uid ++ data) + 3 < 100 ->
  len (command ++ uid ++ channel_text channel) + 2 < 100 ->
  slice (Some 1%Z) (Some 3%Z)
        (read_two_muxes_simple.create_lowa_msg head uid command data)
  = dec2 (len (command ++ uid ++ data) + 3)
  /\ slice (Some 1%Z) (Some 3%Z)
           (digisens_interface._build_command command uid channel use_extended)
     = dec2 (len (command ++ uid ++ channel_text channel) + 2).
Proof.
  intros Hh H1 H2. split.
  - destruct (len_1_inv head Hh) as [h ->].
    rewrite create_lowa_msg_shape by exact H1. now apply slice_1_3.
  - rewrite _build_command_shape by exact H2. now apply slice_1_3.
Qed.

(** C2 at the failing input.  For header ['@'], address ["123"], command
    ["sz"] and data ["0"], command, address and data count 6 characters, so
    the length field the claim asks for is 08.  [create_lowa_msg] of the
    scripts writes 09: it counts [len(head + '00' + command + uid + data)],
    one more than the [+ 2 for checksum] its own comment announces.  The
    library builder writes 08 for the same six characters. *)
Theorem script_length_field_is_payload_plus_3 :
  dec2 (len ("sz" ++ "123" ++ "0") + 2) = "08"
  /\ slice (Some 1%Z) (Some 3%Z)
           (read_two_muxes_simple.create_lowa_msg "@" "123" "sz" "0") = "09"
  /\ slice (Some 1%Z) (Some 3%Z)
           (read_two_muxes_simple.create_lowa_msg "@" "123" "sz" "0")
     <> dec2 (len ("sz" ++ "123" ++ "0") + 2)
  /\ slice (Some 1%Z) (Some 3%Z)
           (digisens_interface._build_command "sz" "1230" None false) = "08".
Proof. repeat split; try reflexivity. vm_compute. discriminate. Qed.

(** C8 at the failing input.  The checksum of digisens_n17.py is rendered
    without padding: the XOR of the ordinals of ["ab"] is 3, and the result
    is the one character ["3"], where the padded renderings give ["03"].  The
    same happens inside a frame. *)
Theorem n17_checksum_is_not_padded :
  digisens_n17.XOR_CRC_calculation "ab" = "3"
  /\ read_two_muxes_simple.XOR_CRC_calculation "ab" = "03"
  /\ digisens_interface._calculate_checksum "ab" = "03"
  /\ digisens_n17.create_lowa_msg "#" "01202509251107Aa" "gd" "00"
     = "#23gd01202509251107Aa00" ++ "C" ++ CR.
Proof. repeat split; vm_compute; reflexivity. Qed.

(** ** Round trip *)

Lemma rstrip_CR (s : string) (c : ascii) :
  isspace c = false -> rstrip (s ++ String c CR) = s ++ String c EmptyString.
Proof.
  intros Hc. induction s as [|x s IH].
  - simpl. now rewrite Hc.
  - change (rstrip (String x s ++ String c CR))
      with (match rstrip (s ++ String c CR) with
            | EmptyString => if isspace x then EmptyString else String x EmptyString
            | r => String x r
            end).
    rewrite IH. now destruct s.
Qed.

Lemma hex2_len (n : N) : len (hex2 n) = 2.
Proof. reflexivity. Qed.

Lemma dec2_len (n : nat) : len (dec2 n) = 2.
Proof. reflexivity. Qed.

(** [_send_command]'s [strip] takes the terminator off a frame and nothing
    else. *)
Lemma strip_frame (h : ascii) (m : string) (x : N) :
  isspace h = false ->
  strip (String h (m ++ hex2 x ++ CR)) = String h (m ++ hex2 x).
Proof.
  intros Hh. unfold strip.
  change (lstrip (String h (m ++ hex2 x ++ CR)))
    with (if isspace h then lstrip (m ++ hex2 x ++ CR)
          else String h (m ++ hex2 x ++ CR)).
  rewrite Hh. unfold hex2.
  replace (String h (m ++ String (hexdigit (x / 16))
                            (String (hexdigit (x mod 16)) EmptyString) ++ CR))
    with (String h (m ++ String (hexdigit (x / 16)) EmptyString)
          ++ String (hexdigit (x mod 16)) CR)
    by (cbn [append]; now rewrite app_assoc_str).
  rewrite rstrip_CR by (apply hexdigit_not_space, N.mod_lt; discriminate).
  cbn [append]. now rewrite app_assoc_str.
Qed.

(** [s[-(k+j):-j]] is the last [k] characters but [j]. *)
Lemma slice_before_last (k j : nat) (m t u : string) :
  0 < j -> len t = k -> len u = j ->
  slice (Some (- Z.of_nat (k + j))%Z) (Some (- Z.of_nat j)%Z) (m ++ t ++ u) = t.
Proof.
  intros Hj Ht Hu. unfold slice, bound. rewrite !len_app, Ht, Hu.
  destruct (Z.ltb_spec (- Z.of_nat (k + j)) 0); [|lia].
  destruct (Z.ltb_spec (- Z.of_nat j) 0); [|lia].
  replace (Z.to_nat (Z.max 0 (- Z.of_nat (k + j) + Z.of_nat (len m + (k + j)))))
    with (len m) by lia.
  replace (Z.to_nat (Z.max 0 (- Z.of_nat j + Z.of_nat (len m + (k + j)))) - len m)
    with (len t) by lia.
  rewrite drop_app. apply take_app.
Qed.

Lemma address_in_body (command address rest : string) (n : nat) :
  len command = 2 -> len address = n ->
  slice (Some 2%Z) (Some (2 + Z.of_nat n)%Z) (command ++ address ++ rest)
  = address.
Proof.
  intros Hc Ha.
  replace (2 + Z.of_nat n)%Z with (Z.of_nat (2 + n)) by lia.
  rewrite (slice_nat 2 (2 + n)) by (rewrite ?len_app; lia).
  rewrite <- Hc, drop_app.
  replace (len command + n - len command) with (len address) by lia.
  apply take_app.
Qed.

(** C7.  Round trip of a well-formed request: a two-character command, an
    address whose length is the one the header announces, and a length
    count below 100.  For a frame of [_build_command], as [_send_command]
    would strip it and [response[3:-2]] would cut it: the first transmitted
    character is the header, the address is found again after the command,
    and the checksum recomputed over all but the last two characters is
    those two characters.  The same for a frame of [create_lowa_msg], cut
    with [[3:-3]] as the scripts do on the unstripped text. *)
Theorem frame_roundtrip (command address data : string) (channel : option Z)
        (use_extended : bool) :
  let header := if use_extended then "#"%char else "@"%char in
  len command = 2 ->
  len address = address_length header ->
  len (command ++ address ++ channel_text channel) + 2 < 100 ->
  len (command ++ address ++ data) + 3 < 100 ->
  (let frame := digisens_interface._build_command command address channel
                                                  use_extended in
   let response := strip frame in
   let body := slice (Some 3%Z) (Some (-2)%Z) response in
   item 0 frame = Ok header
   /\ frame = response ++ CR
   /\ body = command ++ address ++ channel_text channel
   /\ slice (Some 2%Z) (Some (2 + Z.of_nat (address_length header))%Z) body
      = address
   /\ digisens_interface._calculate_checksum (slice None (Some (-2)%Z) response)
      = slice (Some (-2)%Z) None response)
  /\
  (let frame := read_two_muxes_simple.create_lowa_msg (String header EmptyString)
                                                      address command data in
   let body := slice (Some 3%Z) (Some (-3)%Z) frame in
   item 0 frame = Ok header
   /\ slice (Some (-1)%Z) None frame = CR
   /\ body = command ++ address ++ data
   /\ slice (Some 2%Z) (Some (2 + Z.of_nat (address_length header))%Z) body
      = address
   /\ read_two_muxes_simple.XOR_CRC_calculation (slice None (Some (-3)%Z) frame)
      = slice (Some (-3)%Z) (Some (-1)%Z) frame).
Proof.
  intros header Hc Ha H2 H3.
  assert (Hh : isspace header = false) by (subst header; now destruct use_extended).
  split.
  - cbv zeta. rewrite _build_command_shape by exact H2. fold header.
    set (payload := command ++ address ++ channel_text channel).
    set (L := dec2 (len payload + 2)).
    set (x := xor_ords (String header (L ++ payload))).
    replace (L ++ payload ++ hex2 x ++ CR) with ((L ++ payload) ++ hex2 x ++ CR)
      by now rewrite app_assoc_str.
    rewrite strip_frame by exact Hh.
    change (String header ((L ++ payload) ++ hex2 x))
      with (String header (L ++ payload) ++ hex2 x).
    repeat split.
    + cbn [append]. now rewrite !app_assoc_str.
    + rewrite (slice_inner 3 2) by (try reflexivity; simpl; lia). reflexivity.
    + rewrite (slice_inner 3 2) by (try reflexivity; simpl; lia).
      change (drop 3 (String header (L ++ payload))) with payload.
      now apply address_in_body.
    + rewrite (slice_init 2), (slice_last 2) by (try reflexivity; lia).
      apply _calculate_checksum_hex2.
  - cbv zeta. rewrite create_lowa_msg_shape by exact H3.
    set (payload := command ++ address ++ data).
    set (L := dec2 (len payload + 3)).
    set (x := xor_ords (String header (L ++ payload))).
    replace (String header (L ++ payload ++ hex2 x ++ CR))
      with (String header (L ++ payload) ++ hex2 x ++ CR)
      by (cbn [append]; now rewrite app_assoc_str).
    repeat split.
    + replace (String header (L ++ payload) ++ hex2 x ++ CR)
        with ((String header (L ++ payload) ++ hex2 x) ++ CR)
        by now rewrite app_assoc_str.
      apply (slice_last 1); [lia | reflexivity].
    + rewrite (slice_inner 3 3) by (try reflexivity; simpl; lia). reflexivity.
    + rewrite (slice_inner 3 3) by (try reflexivity; simpl; lia).
      change (drop 3 (String header (L ++ payload))) with payload.
      now apply address_in_body.
    + rewrite (slice_init 3) by (try reflexivity; lia).
      rewrite (slice_before_last 2 1) by (try reflexivity; lia).
      apply XOR_CRC_calculation_hex2.
Qed.

Lemma frame_roundtrip_witness :
  (let frame := digisens_interface._build_command "gm" "123" None false in
   let response := strip frame in
   let body := slice (Some 3%Z) (Some (-2)%Z) response in
   item 0 frame = Ok "@"%char
   /\ frame = response ++ CR
   /\ body = "gm" ++ "123" ++ channel_text None
   /\ slice (Some 2%Z) (Some (2 + Z.of_nat (address_length "@"))%Z) body = "123"
   /\ digisens_interface._calculate_checksum (slice None (Some (-2)%Z) response)
      = slice (Some (-2)%Z) None response)
  /\
  (let frame := read_two_muxes_simple.create_lowa_msg "@" "123" "gm" EmptyString in
   let body := slice (Some 3%Z) (Some (-3)%Z) frame in
   item 0 frame = Ok "@"%char
   /\ slice (Some (-1)%Z) None frame = CR
   /\ body = "gm" ++ "123" ++ EmptyString
   /\ slice (Some 2%Z) (Some (2 + Z.of_nat (address_length "@"))%Z) body = "123"
   /\ read_two_muxes_simple.XOR_CRC_calculation (slice None (Some (-3)%Z) frame)
      = slice (Some (-3)%Z) (Some (-1)%Z) frame).
Proof.
  apply (frame_roundtrip "gm" "123" EmptyString None false).
  - reflexivity.
  - reflexivity.
  - vm_compute; lia.
  - vm_compute; lia.
Defined.

(** ** Bulk replies *)

Section Bulk.

Import read_two_muxes_simple.

Lemma get_Some (i : nat) (s : string) :
  i < len s -> exists c, String.get i s = Some c.
Proof.
  revert i; induction s as [|x s IH]; intros i H; simpl in *; [lia|].
  destruct i as [|i]; [eauto | apply IH; lia].
Qed.

Lemma get_None (i : nat) (s : string) : len s <= i -> String.get i s = None.
Proof.
  revert i; induction s as [|x s IH]; intros i H; simpl in *; [reflexivity|].
  destruct i as [|i]; [lia | apply IH; lia].
Qed.

Lemma item_Ok (i : nat) (s : string) : i < len s -> exists c, item i s = Ok c.
Proof.
  intros H. destruct (get_Some i s H) as [c E]. exists c.
  unfold item. now rewrite E.
Qed.

Lemma item_Raise (i : nat) (s : string) : len s <= i -> item i s = Raise IndexError.
Proof. intros H. unfold item. now rewrite get_None. Qed.

Lemma len_slice_nat (a b : nat) (s : string) :
  len (slice (Some (Z.of_nat a)) (Some (Z.of_nat b)) s)
  = Nat.min b (len s) - Nat.min a (len s).
Proof.
  unfold slice, bound.
  destruct (Z.ltb_spec (Z.of_nat a) 0); [lia|].
  destruct (Z.ltb_spec (Z.of_nat b) 0); [lia|].
  rewrite !Nat2Z.id, len_take, len_drop. lia.
Qed.

(** The block parser of the scripts returns a reading for every block of
    at least 10 characters, with the channel index it was given. *)
Lemma parse_weight_response_total (block : string) (ch : nat) :
  10 <= len block ->
  exists w st v, parse_weight_response block ch = Ok (ch, w, st, v).
Proof.
  intros H. unfold parse_weight_response.
  destruct (item_Ok 0 block) as [s ->]; [lia|].
  destruct (item_Ok 9 block) as [x ->]; [lia|].
  cbn [Py.bind].
  destruct (float _) as [w|e]; eauto.
Qed.

Lemma read_mux_weights_loop_app (l1 l2 : list nat) (data : string)
      (acc : list reading) :
  read_mux_weights_loop (l1 ++ l2) data acc
  = Py.bind (read_mux_weights_loop l1 data acc)
            (fun acc' => read_mux_weights_loop l2 data acc').
Proof.
  revert acc; induction l1 as [|i l1 IH]; intros acc; [reflexivity|].
  cbn [read_mux_weights_loop List.app].
  destruct (len _ =? 11)%nat; [|apply IH].
  destruct (parse_weight_response _ _) as [r|e]; [apply IH | reflexivity].
Qed.

(** The first [n] full windows give [n] readings, in order, each the parse
    of its window under the channel index [position / 11]. *)
Lemma read_mux_weights_loop_full (data : string) (n : nat) (acc : list reading) :
  n * 11 <= len data ->
  exists ws,
    read_mux_weights_loop (map (fun j => j * 11) (seq 0 n)) data acc
    = Ok (acc ++ ws)%list
    /\ map channel_of ws = seq 0 n
    /\ Forall2 (fun j r => parse_weight_response (window data j) (j * 11 / 11) = Ok r)
               (seq 0 n) ws.
Proof.
  induction n as [|n IH]; intros Hn.
  - exists []. cbn. rewrite app_nil_r. repeat split; constructor.
  - destruct IH as (ws & E & Hch & Hall); [lia|].
    rewrite seq_S, map_app, read_mux_weights_loop_app, E.
    cbn [Py.bind map read_mux_weights_loop Nat.add].
    fold (window data n).
    assert (L : len (window data n) = 11)
      by (unfold window; rewrite len_slice_nat; lia).
    rewrite L, Nat.eqb_refl.
    destruct (parse_weight_response_total (window data n) (n * 11 / 11))
      as (w & st & v & P); [lia|].
    rewrite P. cbn [Py.bind].
    exists (ws ++ [(n * 11 / 11, w, st, v)])%list.
    rewrite <- app_assoc. split; [reflexivity|]. split.
    + rewrite map_app, Hch. cbn [map channel_of Nat.add].
      now rewrite Nat.div_mul by discriminate.
    + apply Forall2_app; [exact Hall|]. constructor; [exact P | constructor].
Qed.

Lemma range_step_11 (k r : nat) :
  r < 11 ->
  range_step (11 * k + r) 11
  = (map (fun j => j * 11) (seq 0 k)
     ++ (if (r =? 0)%nat then [] else [k * 11]))%list.
Proof.
  intros Hr. unfold range_step.
  destruct (Nat.eqb_spec r 0) as [->|Hn].
  - replace ((11 * k + 0 + 11 - 1) / 11) with k; [now rewrite app_nil_r|].
    apply Nat.div_unique with (r := 10); lia.
  - replace ((11 * k + r + 11 - 1) / 11) with (S k).
    + now rewrite seq_S, map_app.
    + apply Nat.div_unique with (r := r - 1); lia.
Qed.

Lemma get_all_weights_loop_app (l1 l2 : list nat) (data : string)
      (acc : list digisens_interface.WeightReading) :
  digisens_interface.get_all_weights_loop (l1 ++ l2) data acc
  = Py.bind (digisens_interface.get_all_weights_loop l1 data acc)
            (fun acc' => digisens_interface.get_all_weights_loop l2 data acc').
Proof.
  revert acc; induction l1 as [|i l1 IH]; intros acc; [reflexivity|].
  cbn [digisens_interface.get_all_weights_loop List.app].
  destruct (len _ =? 11)%nat; [|apply IH].
  destruct (digisens_interface._parse_weight_response _) as [r|e];
    [apply IH | reflexivity].
Qed.

(** The loop of the library cuts the same windows.  It gives one reading
    for each full window, in order, provided every window parses; a window
    that does not parse ends the loop with its exception. *)
Lemma get_all_weights_loop_windows (data : string) (k r : nat) :
  len data = 11 * k + r ->
  r < 11 ->
  (forall j, j < k ->
     exists rd, digisens_interface._parse_weight_response
                  ("@13" ++ window data j ++ "00") = Ok rd) ->
  exists ws,
    digisens_interface.get_all_weights_loop (range_step (len data) 11) data []
    = Ok ws
    /\ length ws = k
    /\ Forall2 (fun j rd =>
                  digisens_interface._parse_weight_response
                    ("@13" ++ window data j ++ "00") = Ok rd)
               (seq 0 k) ws.
Proof.
  intros Hlen Hr Hparse.
  assert (F : forall n acc, n <= k ->
            exists ws,
              digisens_interface.get_all_weights_loop
                (map (fun j => j * 11) (seq 0 n)) data acc = Ok (acc ++ ws)%list
              /\ length ws = n
              /\ Forall2 (fun j rd =>
                            digisens_interface._parse_weight_response
                              ("@13" ++ window data j ++ "00") = Ok rd)
                         (seq 0 n) ws).
  { induction n as [|n IH]; intros acc Hn.
    - exists []. cbn. rewrite app_nil_r. repeat split; constructor.
    - destruct (IH acc) as (ws & E & Hl & Hall); [lia|].
      rewrite seq_S, map_app, get_all_weights_loop_app, E.
      cbn [Py.bind map digisens_interface.get_all_weights_loop Nat.add].
      fold (window data n).
      assert (L : len (window data n) = 11)
        by (unfold window; rewrite len_slice_nat; lia).
      rewrite L, Nat.eqb_refl.
      destruct (Hparse n) as [rd P]; [lia|].
      rewrite P. cbn [Py.bind].
      exists (ws ++ [rd])%list.
      rewrite <- app_assoc. split; [reflexivity|]. split.
      + rewrite length_app, Hl. cbn. lia.
      + apply Forall2_app; [exact Hall|]. constructor; [exact P | constructor]. }
  destruct (F k [] (le_n k)) as (ws & E & Hl & Hall).
  exists ws. rewrite Hlen, range_step_11, get_all_weights_loop_app, E by exact Hr.
  cbn [Py.bind List.app]. repeat split; try assumption.
  destruct (Nat.eqb_spec r 0); [reflexivity|].
  cbn [digisens_interface.get_all_weights_loop].
  fold (window data k).
  assert (L : len (window data k) = r)
    by (unfold window; rewrite len_slice_nat; lia).
  rewrite L. destruct (Nat.eqb_spec r 11); [lia | reflexivity].
Qed.

End Bulk.

(** C3, as the code has it.  The windows of a [gl] reply body are 11
    characters wide.  In the loop of the scripts a body of [k] full windows
    and [r < 11] more characters gives exactly [k] readings; their channel
    indices are 0 to [k - 1] in order; the [j]-th is the parse of the [j]-th
    window under the index [position / 11]; the incomplete window at the end
    is dropped.  The loop of the library cuts the same windows: when it
    parses every full window it gives exactly [k] readings, the [j]-th the
    parse of the [j]-th window, and drops the incomplete window as well. *)
Theorem bulk_reply_windows (data : string) (k r : nat) :
  len data = 11 * k + r ->
  r < 11 ->
  (exists ws,
      read_two_muxes_simple.read_mux_weights_loop (range_step (len data) 11)
                                                  data []
      = Ok ws
      /\ length ws = k
      /\ map channel_of ws = seq 0 k
      /\ Forall2 (fun j rd =>
                    read_two_muxes_simple.parse_weight_response
                      (window data j) (j * 11 / 11) = Ok rd)
                 (seq 0 k) ws)
  /\ (forallb (window_parses data) (seq 0 k) = true ->
      exists ws,
        digisens_interface.get_all_weights_loop (range_step (len data) 11)
                                                data []
        = Ok ws
        /\ length ws = k
        /\ Forall2 (fun j rd =>
                      digisens_interface._parse_weight_response
                        ("@13" ++ window data j ++ "00") = Ok rd)
                   (seq 0 k) ws).
Proof.
  intros Hlen Hr. split.
  - destruct (read_mux_weights_loop_full data k []) as (ws & E & Hch & Hall);
      [lia|].
    exists ws. rewrite Hlen, range_step_11, read_mux_weights_loop_app, E
      by exact Hr.
    cbn [Py.bind List.app]. repeat split; try assumption.
    + destruct (Nat.eqb_spec r 0); [reflexivity|].
      cbn [read_two_muxes_simple.read_mux_weights_loop].
      fold (window data k).
      assert (L : len (window data k) = r)
        by (unfold window; rewrite len_slice_nat; lia).
      rewrite L. destruct (Nat.eqb_spec r 11); [lia | reflexivity].
    + rewrite <- (length_map channel_of), Hch. apply length_seq.
  - intros Hp. apply (get_all_weights_loop_windows data k r Hlen Hr).
    intros j Hj. rewrite forallb_forall in Hp.
    specialize (Hp j ltac:(apply in_seq; lia)). unfold window_parses in Hp.
    destruct (digisens_interface._parse_weight_response _) as [rd|e];
      [now exists rd | discriminate].
Qed.

(** Seven full windows and five more characters: seven readings, from the
    scripts and from the library. *)
Lemma bulk_reply_windows_witness :
  (exists ws,
      read_two_muxes_simple.read_mux_weights_loop
        (range_step (len seven_windows_and_five) 11) seven_windows_and_five []
      = Ok ws
      /\ length ws = 7
      /\ map channel_of ws = seq 0 7
      /\ Forall2 (fun j rd =>
                    read_two_muxes_simple.parse_weight_response
                      (window seven_windows_and_five j) (j * 11 / 11) = Ok rd)
                 (seq 0 7) ws)
  /\ (exists ws,
        digisens_interface.get_all_weights_loop
          (range_step (len seven_windows_and_five) 11) seven_windows_and_five []
        = Ok ws
        /\ length ws = 7
        /\ Forall2 (fun j rd =>
                      digisens_interface._parse_weight_response
                        ("@13" ++ window seven_windows_and_five j ++ "00")
                      = Ok rd)
                   (seq 0 7) ws).
Proof.
  destruct (bulk_reply_windows seven_windows_and_five 7 5) as [H1 H2].
  - reflexivity.
  - lia.
  - split; [exact H1 | apply H2; vm_compute; reflexivity].
Defined.

(** C3 as stated fails: a body of eight 10-character blocks gives seven
    readings from the scripts, not eight, because the windows are 11 wide
    and the last holds three characters; the library, cutting the same
    windows, meets a weight field that is no number and returns no readings
    at all. *)
Lemma eight_ten_character_blocks_give_seven :
  len eight_blocks_of_ten = 8 * 10
  /\ (exists ws,
        read_two_muxes_simple.read_mux_weights_loop
          (range_step (len eight_blocks_of_ten) 11) eight_blocks_of_ten []
        = Ok ws
        /\ length ws = 7)
  /\ len (window eight_blocks_of_ten 7) = 3
  /\ digisens_interface.get_all_weights_loop
       (range_step (len eight_blocks_of_ten) 11) eight_blocks_of_ten []
     = Raise ValueError.
Proof.
  split; [reflexivity|]. split; [|split; vm_compute; reflexivity].
  eexists. split; [vm_compute; reflexivity | reflexivity].
Qed.

(** ** Single blocks: status byte and weight field *)

Section Blocks.

Import digisens_interface.

(** The scripts give UNKNOWN, and an invalid reading, for every status
    character outside the table, whenever the weight field is a number. *)
Lemma script_unmapped_status_is_UNKNOWN (block : string) (ch : nat)
      (sign c : ascii) (w : pyfloat) :
  item 0 block = Ok sign ->
  item 9 block = Ok c ->
  float (strip (slice (Some 1%Z) (Some 9%Z) block)) = Ok w ->
  StatusFlag_of_value c = Raise ValueError ->
  read_two_muxes_simple.parse_weight_response block ch
  = Ok (ch, if Ascii.eqb sign "-" then fneg w else w, Name "UNKNOWN", false).
Proof.
  intros H0 H9 Hw Hc. unfold read_two_muxes_simple.parse_weight_response.
  rewrite H0, H9. cbn [Py.bind]. rewrite Hw.
  unfold StatusFlag_of_value in Hc.
  unfold read_two_muxes_simple.status_map_get.
  destruct (Ascii.eqb c " "); [discriminate|].
  destruct (Ascii.eqb c "M"); [discriminate|].
  destruct (Ascii.eqb c "C"); [discriminate|].
  destruct (Ascii.eqb c "E"); [discriminate|].
  reflexivity.
Qed.

(** The library parser gives OK, and so a valid reading, for every status
    character outside the table. *)
Lemma library_unmapped_status_is_OK (response : string) (c : ascii)
      (r : WeightReading) :
  _parse_weight_response response = Ok r ->
  item 9 (slice (Some 3%Z) None response) = Ok c ->
  StatusFlag_of_value c = Raise ValueError ->
  status r = OK /\ is_valid r = true.
Proof.
  unfold _parse_weight_response. intros H H9 Hc.
  destruct (item 0 _) as [s|]; [|discriminate]. cbn [Py.bind] in H.
  rewrite H9 in H. cbn [Py.bind] in H.
  destruct (float _) as [w|]; [|discriminate]. cbn [Py.bind] in H.
  rewrite Hc in H. cbn [Py.bind] in H. injection H as <-. now split.
Qed.

(** The scripts turn a weight field that is not a number into the
    placeholder: weight 0.0, status EEPROM_ERROR, not valid. *)
Lemma script_bad_weight_is_placeholder (block : string) (ch : nat) :
  10 <= len block ->
  float_of_str (strip (slice (Some 1%Z) (Some 9%Z) block)) = None ->
  read_two_muxes_simple.parse_weight_response block ch
  = Ok (ch, float_zero, Name "EEPROM_ERROR", false).
Proof.
  intros H Hw. unfold read_two_muxes_simple.parse_weight_response.
  destruct (item_Ok 0 block) as [s ->]; [lia|].
  destruct (item_Ok 9 block) as [x ->]; [lia|].
  cbn [Py.bind]. unfold float. rewrite Hw. reflexivity.
Qed.

(** [parse_gd_response] never raises, and a weight field that is not a
    number gives its placeholder. *)
Lemma gd_bad_weight_is_placeholder (response : string) (ch : nat) :
  14 <= len response ->
  float_of_str (strip (slice (Some 1%Z) (Some 10%Z)
                             (slice (Some 3%Z) None response))) = None ->
  get_weights_gd_fixed.parse_gd_response response ch
  = (ch, float_zero, PARSE_ERROR ValueError, false).
Proof.
  intros H Hw. unfold get_weights_gd_fixed.parse_gd_response.
  assert (L : len (slice (Some 3%Z) None response) = len response - 3)
    by (rewrite (slice_from 3); apply len_drop).
  destruct (item_Ok 0 (slice (Some 3%Z) None response)) as [s ->]; [lia|].
  destruct (item_Ok 10 (slice (Some 3%Z) None response)) as [x ->]; [lia|].
  cbn [Py.bind]. unfold float. rewrite Hw. reflexivity.
Qed.

(** The library parser lets the ValueError of [float] through. *)
Lemma library_bad_weight_raises (response : string) :
  13 <= len response ->
  float_of_str (strip (slice (Some 1%Z) (Some 9%Z)
                             (slice (Some 3%Z) None response))) = None ->
  _parse_weight_response response = Raise ValueError.
Proof.
  intros H Hw. unfold _parse_weight_response.
  assert (L : len (slice (Some 3%Z) None response) = len response - 3)
    by (rewrite (slice_from 3); apply len_drop).
  destruct (item_Ok 0 (slice (Some 3%Z) None response)) as [s ->]; [lia|].
  destruct (item_Ok 9 (slice (Some 3%Z) None response)) as [x ->]; [lia|].
  cbn [Py.bind]. unfold float. rewrite Hw. reflexivity.
Qed.

(** A reply of fewer than 13 characters makes the library parser raise
    IndexError at one of its two fixed-offset reads. *)
Lemma library_short_reply_raises (response : string) :
  len response < 13 -> _parse_weight_response response = Raise IndexError.
Proof.
  intros H. unfold _parse_weight_response.
  assert (L : len (slice (Some 3%Z) None response) = len response - 3)
    by (rewrite (slice_from 3); apply len_drop).
  destruct (Nat.le_gt_cases (len response) 3) as [H3|H3].
  - rewrite (item_Raise 0) by lia. reflexivity.
  - destruct (item_Ok 0 (slice (Some 3%Z) None response)) as [s ->]; [lia|].
    rewrite (item_Raise 9) by lia. reflexivity.
Qed.

End Blocks.

(** C4 at the failing input.  The reply [@13 0002.130X5C] carries the status
    byte ['X'], which is not in the table.  The library parser returns the
    status OK for it, and the reading counts as valid; the parsers of the
    scripts return UNKNOWN and an invalid reading for the same block. *)
Theorem library_status_falls_back_to_OK :
  digisens_interface._parse_weight_response "@13 0002.130X5C"
  = Ok {| digisens_interface.weight := Finite false 2130 (-3);
          digisens_interface.status := digisens_interface.OK;
          digisens_interface.raw_response := "@13 0002.130X5C" |}
  /\ option_map digisens_interface.is_valid
       (match digisens_interface._parse_weight_response "@13 0002.130X5C" with
        | Ok r => Some r
        | Raise _ => None
        end) = Some true
  /\ read_two_muxes_simple.parse_weight_response " 0002.130X" 0
     = Ok (0, Finite false 2130 (-3), Name "UNKNOWN", false)
  /\ get_weights_gd_fixed.parse_gd_response "@14 00002.130X5C" 0
     = (0, Finite false 2130 (-3), Name "UNKNOWN", false).
Proof. repeat split; vm_compute; reflexivity. Qed.

(** C5 at the failing input.  The weight field [00A2.130] is not a number.
    The library parser raises ValueError for the block, and a [gl] reply that
    holds such a block makes [get_all_weights] raise it too, so the readings
    of the other channels of that reply are lost; the parsers of the scripts
    return a placeholder for the block. *)
Theorem library_weight_error_is_raised :
  digisens_interface._parse_weight_response "@13 00A2.130 5C" = Raise ValueError
  /\ fst (digisens_interface.get_all_weights "123" false
            (connected (fresh_port
               [Reply ("@27 0002.130   00A2.130  5C" ++ CR)])))
     = Raise ValueError
  /\ read_two_muxes_simple.parse_weight_response " 00A2.130 " 1
     = Ok (1, float_zero, Name "EEPROM_ERROR", false)
  /\ get_weights_gd_fixed.parse_gd_response "@14 000A2.130 5C" 1
     = (1, float_zero, PARSE_ERROR ValueError, false).
Proof. repeat split; vm_compute; reflexivity. Qed.

(** ** One exchange of the library *)

Section Exchange.

Import digisens_interface.

Lemma ords_app (a b : string) : ords (a ++ b) = (ords a ++ ords b)%list.
Proof. induction a as [|x a IH]; simpl; [reflexivity | now rewrite IH]. Qed.

Lemma is_ascii_app (a b : string) :
  is_ascii (a ++ b) = (is_ascii a && is_ascii b)%bool.
Proof. unfold is_ascii. now rewrite ords_app, forallb_app. Qed.

Lemma is_ascii_decimal (d : Decimal.uint) :
  is_ascii (DecimalString.NilEmpty.string_of_uint d) = true.
Proof. induction d; simpl; auto. Qed.

Lemma is_ascii_zeros (n : nat) : is_ascii (zeros n) = true.
Proof. induction n; simpl; auto. Qed.

Lemma is_ascii_zfill (w : nat) (s : string) :
  is_ascii s = true -> is_ascii (zfill w s) = true.
Proof.
  intros H. unfold zfill. destruct s as [|c s]; [apply is_ascii_zeros|].
  destruct (Ascii.eqb c "+" || Ascii.eqb c "-")%bool.
  - change (String c (zeros (w - len (String c s)) ++ s))
      with (String c EmptyString ++ zeros (w - len (String c s)) ++ s).
    change (String c s) with (String c EmptyString ++ s) in H.
    rewrite is_ascii_app in H. apply andb_prop in H as [H1 H2].
    now rewrite !is_ascii_app, is_ascii_zeros, H1, H2.
  - now rewrite is_ascii_app, is_ascii_zeros, H.
Qed.

Lemma is_ascii_fmt_02d (n : Z) : is_ascii (fmt_02d n) = true.
Proof.
  unfold fmt_02d, str_of_nat. destruct (n <? 0)%Z; apply is_ascii_zfill.
  - rewrite is_ascii_app. now rewrite is_ascii_decimal.
  - apply is_ascii_decimal.
Qed.

Lemma is_ascii_hex2 (n : N) : (n < 256)%N -> is_ascii (hex2 n) = true.
Proof.
  intros H. rewrite <- (N2Nat.id n).
  apply (forall_below (fun k => is_ascii (hex2 (N.of_nat k))) 256);
    [vm_compute; reflexivity | lia].
Qed.

(** A command built from an ASCII command code and an ASCII address is
    ASCII, so [encode('ascii')] accepts it. *)
Lemma is_ascii__build_command (command mux_id : string) (channel : option Z)
      (use_extended : bool) :
  is_ascii command = true -> is_ascii mux_id = true ->
  is_ascii (_build_command command mux_id channel use_extended) = true.
Proof.
  intros Hc Hm. unfold _build_command.
  rewrite _calculate_checksum_hex2.
  assert (Hd : is_ascii (match channel with
                         | Some ch => mux_id ++ fmt_02d ch
                         | None => mux_id
                         end) = true).
  { destruct channel; [|exact Hm]. now rewrite is_ascii_app, Hm, is_ascii_fmt_02d. }
  rewrite !is_ascii_app, is_ascii_fmt_02d, Hc, Hd.
  rewrite is_ascii_hex2 by apply xor_ords_lt_256.
  now destruct use_extended.
Qed.

(** What [_send_command] does with the text of a reply. *)
Lemma _send_command_reply (command text : string) (ser : Serial)
      (rest : list outcome) :
  is_ascii command = true ->
  is_open ser = true ->
  incoming ser = Reply text :: rest ->
  _send_command command (connected ser)
  = (if String.eqb (strip text) EmptyString then Raise TimeoutError else Ok (strip text),
     connected {| is_open := true; incoming := rest;
                  log := log ser ++ [EvWrite (ords command); EvFlush;
                                     EvReadUntil] |}).
Proof.
  intros Ha Ho Hi. destruct ser as [o inc lg]. simpl in Ho, Hi. subst o inc.
  unfold _send_command, connected, on_serial. cbn [serial is_open negb].
  unfold encode_ascii. unfold is_ascii in Ha. rewrite Ha.
  unfold Port.bind, lift, write, flush, read_until_decode, when_open, record.
  cbn [is_open incoming log].
  rewrite <- !app_assoc. cbn [List.app].
  destruct (String.eqb (strip text) EmptyString); reflexivity.
Qed.

End Exchange.

(** C10.  The single-block parser is partial, and [get_weight] does not
    guard it: whenever the reply, stripped as [_send_command] strips it, is
    not empty and is shorter than 13 characters, [get_weight] ends in an
    IndexError raised to its caller. *)
Theorem get_weight_short_reply_raises_IndexError
        (mux_id text : string) (channel : Z) (use_extended : bool)
        (ser : Serial) (rest : list outcome) :
  is_ascii mux_id = true ->
  is_open ser = true ->
  incoming ser = Reply text :: rest ->
  strip text <> EmptyString ->
  len (strip text) < 13 ->
  fst (digisens_interface.get_weight mux_id channel use_extended (connected ser))
  = Raise IndexError.
Proof.
  intros Ha Ho Hi Hne Hlen. unfold digisens_interface.get_weight, Port.bind.
  rewrite (_send_command_reply _ text ser rest); try assumption.
  - destruct (String.eqb_spec (strip text) EmptyString); [contradiction|].
    unfold lift. cbn [fst].
    now apply library_short_reply_raises.
  - now apply is_ascii__build_command.
Qed.

Lemma get_weight_short_reply_raises_IndexError_witness :
  fst (digisens_interface.get_weight "123" 0 false
         (connected (fresh_port [Reply ("@13 0002.130" ++ CR)])))
  = Raise IndexError.
Proof.
  apply (get_weight_short_reply_raises_IndexError
           "123" ("@13 0002.130" ++ CR) 0 false
           (fresh_port [Reply ("@13 0002.130" ++ CR)]) []).
  - reflexivity.
  - reflexivity.
  - reflexivity.
  - vm_compute. discriminate.
  - vm_compute. lia.
Defined.

(** ** Failures of one exchange *)

Section Failures.

Import digisens_interface.

Lemma status_map_get_cases (c : ascii) :
  In (read_two_muxes_simple.status_map_get c)
     ["OK"; "MOTION"; "NOT_CONNECTED"; "EEPROM_ERROR"; "UNKNOWN"].
Proof.
  unfold read_two_muxes_simple.status_map_get.
  destruct (Ascii.eqb c " "); [simpl; auto|].
  destruct (Ascii.eqb c "M"); [simpl; auto|].
  destruct (Ascii.eqb c "C"); [simpl; auto|].
  destruct (Ascii.eqb c "E"); simpl; auto 6.
Qed.

(** [parse_gd_response] never produces the NO_RESPONSE marker. *)
Lemma parse_gd_response_not_NO_RESPONSE (response : string) (ch : nat) :
  status_of (get_weights_gd_fixed.parse_gd_response response ch)
  <> Name "NO_RESPONSE".
Proof.
  unfold get_weights_gd_fixed.parse_gd_response.
  destruct (item 0 _) as [s|e]; [|discriminate]. cbn [Py.bind].
  destruct (item 10 _) as [c|e]; [|discriminate]. cbn [Py.bind].
  destruct (float _) as [w|e]; [|discriminate]. cbn [Py.bind status_of].
  unfold get_weights_gd_fixed.status_map_get.
  pose proof (status_map_get_cases c) as H. simpl in H.
  intros E. injection E as E. rewrite E in H.
  repeat (destruct H as [H|H]; [discriminate|]). exact H.
Qed.

End Failures.

(** C6, as the code has it, for a read that returns text.
    [_send_command] raises TimeoutError exactly when the reply is empty once
    stripped of white space, whether or not a terminator came; every other
    reply is returned, stripped, whatever its length and with or without a
    terminator.  It has no failure for a short reply: [get_weight] hands
    every returned reply to the parser.  The loop of [read_all_weights_gd]
    records the NO_RESPONSE placeholder, and parses nothing, exactly when the
    reply has fewer than 14 characters. *)
Theorem exchange_failures (mux_id text : string) (channel : Z) (ch : nat)
        (use_extended : bool) (ser : Serial) (rest : list outcome) :
  is_ascii mux_id = true ->
  is_open ser = true ->
  incoming ser = Reply text :: rest ->
  let command :=
    digisens_interface._build_command "gw" mux_id (Some channel) use_extended in
  fst (digisens_interface._send_command command (connected ser))
  = (if String.eqb (strip text) EmptyString then Raise TimeoutError else Ok (strip text))
  /\ fst (digisens_interface.get_weight mux_id channel use_extended (connected ser))
     = (if String.eqb (strip text) EmptyString then Raise TimeoutError
        else digisens_interface._parse_weight_response (strip text))
  /\ get_weights_gd_fixed.reading_of_response text ch
     = (if (len text <? 14)%nat then (ch, float_zero, Name "NO_RESPONSE", false)
        else get_weights_gd_fixed.parse_gd_response text ch)
  /\ status_of (get_weights_gd_fixed.parse_gd_response text ch)
     <> Name "NO_RESPONSE".
Proof.
  intros Ha Ho Hi command.
  assert (Hc : is_ascii command = true)
    by now apply is_ascii__build_command.
  repeat split.
  - now rewrite (_send_command_reply _ text ser rest).
  - unfold digisens_interface.get_weight, Port.bind. fold command.
    rewrite (_send_command_reply _ text ser rest) by assumption.
    now destruct (String.eqb (strip text) EmptyString).
  - unfold get_weights_gd_fixed.reading_of_response.
    destruct (Nat.ltb_spec (len text) 14) as [H|H].
    + destruct (Nat.leb_spec 14 (len text)); [lia|].
      now rewrite andb_false_r.
    + destruct (Nat.leb_spec 14 (len text)); [|lia].
      destruct (String.eqb_spec text EmptyString); [subst; simpl in H; lia | reflexivity].
  - apply parse_gd_response_not_NO_RESPONSE.
Qed.

Lemma exchange_failures_witness :
  fst (digisens_interface._send_command
         (digisens_interface._build_command "gw" "123" (Some 0%Z) false)
         (connected (fresh_port [Reply gw_reply])))
  = (if String.eqb (strip gw_reply) EmptyString then Raise TimeoutError
     else Ok (strip gw_reply))
  /\ fst (digisens_interface.get_weight "123" 0 false
            (connected (fresh_port [Reply gw_reply])))
     = (if String.eqb (strip gw_reply) EmptyString then Raise TimeoutError
        else digisens_interface._parse_weight_response (strip gw_reply))
  /\ get_weights_gd_fixed.reading_of_response gw_reply 0
     = (if (len gw_reply <? 14)%nat then (0, float_zero, Name "NO_RESPONSE", false)
        else get_weights_gd_fixed.parse_gd_response gw_reply 0)
  /\ status_of (get_weights_gd_fixed.parse_gd_response gw_reply 0)
     <> Name "NO_RESPONSE".
Proof.
  apply (exchange_failures "123" gw_reply 0 0 false
                           (fresh_port [Reply gw_reply]) []); reflexivity.
Defined.

(** C6 as stated fails.  Six characters that came without a terminator are
    returned as a reply, not as a Timeout; a terminated reply of three
    characters is returned too, there being no ShortResponse; and a reply
    that is the terminator alone is a Timeout although the terminator
    came. *)
Lemma timeout_is_not_missing_terminator :
  (terminated "@13 00" = false
   /\ fst (digisens_interface._send_command gw_request
             (connected (fresh_port [Reply "@13 00"]))) = Ok "@13 00")
  /\ (terminated ("@13" ++ CR) = true
      /\ fst (digisens_interface._send_command gw_request
                (connected (fresh_port [Reply ("@13" ++ CR)]))) = Ok "@13")
  /\ (terminated CR = true
      /\ fst (digisens_interface._send_command gw_request
                (connected (fresh_port [Reply CR]))) = Raise TimeoutError).
Proof. repeat split; vm_compute; reflexivity. Qed.

(** ** Polling several devices on one port *)

Section Bus.

Import get_weights_gd_single_port.

Lemma loop_events (d : Q) (head mux : string) (channels : list nat)
      (ws : list reading) (inc : list outcome) (lg : list event) :
  exists ws',
    read_all_weights_gd_single_port_loop head mux d channels ws
      {| is_open := true; incoming := inc; log := lg |}
    = (Ok ws', {| is_open := true; incoming := skipn (length channels) inc;
                  log := lg ++ poll_events d head mux channels inc |}).
Proof.
  revert ws inc lg; induction channels as [|ch rest IH]; intros ws inc lg.
  - exists ws. cbn. now rewrite app_nil_r.
  - cbn [read_all_weights_gd_single_port_loop poll_events length].
    unfold Port.bind at 1, try_except, Port.bind, write, flush,
      read_until_decode, when_open, sleep, record, ret, exchange_events.
    cbn [is_open incoming log].
    destruct inc as [|[text|e] inc']; cbn [hd_error tl skipn];
      destruct (positive d); cbn [is_open incoming log];
      try destruct (negb _ && _)%bool;
      match goal with
      | |- exists _, read_all_weights_gd_single_port_loop _ _ _ _ ?w
                       {| is_open := _; incoming := ?i; log := ?l |} = _ =>
          destruct (IH w i l) as [ws' E]; exists ws'; rewrite E
      end;
      repeat rewrite <- app_assoc; rewrite ?skipn_nil; reflexivity.
Qed.

Lemma single_port_events (mux : string) (n : nat) (ext : bool) (d : Q)
      (inc : list outcome) (lg : list event) :
  exists ws,
    read_all_weights_gd_single_port mux n ext d
      {| is_open := true; incoming := inc; log := lg |}
    = (Ok (true, ws, None),
       {| is_open := true; incoming := skipn n inc;
          log := lg ++ [EvResetInput; EvResetOutput]
                    ++ poll_events d (if ext then "#" else "@") mux (range n) inc |}).
Proof.
  unfold read_all_weights_gd_single_port, try_except, Port.bind,
    reset_input_buffer, reset_output_buffer, when_open, record, ret.
  cbn [is_open incoming log].
  destruct (loop_events d (if ext then "#" else "@") mux (range n) [] inc
                        ((lg ++ [EvResetInput]) ++ [EvResetOutput]))
    as [ws E].
  exists ws. rewrite E. unfold range. rewrite length_seq.
  repeat rewrite <- app_assoc. reflexivity.
Qed.

Lemma bus_loop_events (dm : Q) (total idx : nat)
      (cfgs : list (string * string)) (results : list mux_result)
      (inc : list outcome) (lg : list event) :
  exists results' inc',
    read_multiple_muxes_single_port_loop dm total idx cfgs results
      {| is_open := true; incoming := inc; log := lg |}
    = (Ok results', {| is_open := true; incoming := inc';
                       log := lg ++ bus_events dm total idx cfgs inc |}).
Proof.
  revert idx results inc lg;
    induction cfgs as [|[mux label] rest IH]; intros idx results inc lg.
  - exists results, inc. cbn. now rewrite app_nil_r.
  - cbn [read_multiple_muxes_single_port_loop bus_events].
    unfold Port.bind at 1.
    destruct (single_port_events mux 8 (len mux =? 16)%nat
                default_inter_command_delay inc lg) as [ws E].
    rewrite E. unfold head_of.
    unfold Port.bind at 1, sleep, record, ret.
    destruct (positive dm && (idx <? total - 1)%nat)%bool;
      cbn [is_open incoming log];
      match goal with
      | |- exists _ _, read_multiple_muxes_single_port_loop _ _ _ _ ?r
                         {| is_open := _; incoming := ?i; log := ?l |} = _ =>
          destruct (IH (S idx) r i l) as (res' & inc' & E'); exists res', inc';
          rewrite E'
      end;
      repeat rewrite <- app_assoc; reflexivity.
Qed.

Lemma bus_events_log (cfgs : list (string * string)) (dm : Q) (ser : Serial) :
  log (snd (read_multiple_muxes_single_port cfgs dm ser))
  = (log ser ++ [EvOpen]
     ++ bus_events dm (length cfgs) 0 cfgs (incoming ser) ++ [EvClose])%list.
Proof.
  unfold read_multiple_muxes_single_port, try_except, Port.bind at 1, open.
  destruct (bus_loop_events dm (length cfgs) 0 cfgs [] (incoming ser)
                            (log ser ++ [EvOpen])) as (res & inc' & E).
  unfold Port.bind at 1. rewrite E.
  unfold Port.bind, close, ret. cbn [snd log].
  repeat rewrite <- app_assoc. reflexivity.
Qed.

Lemma writes_app (l1 l2 : list event) :
  writes (l1 ++ l2) = (writes l1 ++ writes l2)%list.
Proof.
  induction l1 as [|[] l1 IH]; cbn; try assumption; [reflexivity|].
  now rewrite IH.
Qed.

Lemma writes_poll_events (d : Q) (head mux : string) (channels : list nat)
      (inc : list outcome) :
  writes (poll_events d head mux channels inc)
  = map (fun channel => encode_utf8 (gd_msg head mux channel)) channels.
Proof.
  revert inc; induction channels as [|ch rest IH]; intros inc; [reflexivity|].
  cbn [poll_events map]. unfold exchange_events.
  rewrite !writes_app, IH.
  destruct (hd_error inc) as [[|]|]; destruct (positive d); reflexivity.
Qed.

Lemma writes_bus_events (dm : Q) (total idx : nat)
      (cfgs : list (string * string)) (inc : list outcome) :
  writes (bus_events dm total idx cfgs inc)
  = flat_map (fun cfg => requests_of (fst cfg)) cfgs.
Proof.
  revert idx inc; induction cfgs as [|[mux label] rest IH]; intros idx inc;
    [reflexivity|].
  cbn [bus_events flat_map fst].
  rewrite !writes_app, writes_poll_events, IH.
  destruct (positive dm && _)%bool; reflexivity.
Qed.

Lemma settle_run_app (d : Q) (st : phase) (l1 l2 : list event) :
  settle_run d st (l1 ++ l2)
  = match settle_run d st l1 with
    | Some st' => settle_run d st' l2
    | None => None
    end.
Proof.
  revert st; induction l1 as [|ev l1 IH]; intros st; cbn [List.app settle_run];
    [reflexivity|].
  destruct (settle_step d st ev); [apply IH | reflexivity].
Qed.

Lemma forallb_tl {A : Type} (f : A -> bool) (l : list A) :
  forallb f l = true -> forallb f (tl l) = true.
Proof. destruct l; cbn; [auto|]. intros H. now apply andb_prop in H. Qed.

Lemma forallb_skipn {A : Type} (f : A -> bool) (n : nat) (l : list A) :
  forallb f l = true -> forallb f (skipn n l) = true.
Proof.
  revert l; induction n as [|n IH]; intros l H; [exact H|].
  destruct l as [|x l]; [exact H|]. cbn in *.
  apply andb_prop in H. now apply IH.
Qed.

(** With a positive delay and reads that all return, every exchange of one
    device runs from [Ready] back to [Ready]. *)
Lemma poll_events_settled (d : Q) (head mux : string) (channels : list nat)
      (inc : list outcome) :
  positive d = true ->
  forallb is_reply inc = true ->
  settle_run d Ready (poll_events d head mux channels inc) = Some Ready.
Proof.
  intros Hd. revert inc; induction channels as [|ch rest IH]; intros inc Hinc;
    [reflexivity|].
  cbn [poll_events]. rewrite settle_run_app.
  assert (Hq : Qle_bool d d = true) by (apply Qle_bool_iff, Qle_refl).
  assert (E : settle_run d Ready
                (exchange_events d (gd_msg head mux ch) (hd_error inc))
              = Some Ready).
  { unfold exchange_events. rewrite Hd.
    destruct inc as [|[text|e] inc']; cbn in *; try discriminate;
      now rewrite Hq. }
  rewrite E. apply IH, forallb_tl, Hinc.
Qed.

Lemma bus_events_settled (dm : Q) (total idx : nat)
      (cfgs : list (string * string)) (inc : list outcome) :
  forallb is_reply inc = true ->
  settle_run default_inter_command_delay Ready
             (bus_events dm total idx cfgs inc) = Some Ready.
Proof.
  revert idx inc; induction cfgs as [|[mux label] rest IH]; intros idx inc Hinc;
    [reflexivity|].
  cbn [bus_events].
  rewrite settle_run_app. cbn [settle_run settle_step].
  rewrite settle_run_app.
  rewrite (poll_events_settled default_inter_command_delay (head_of mux) mux
             (range 8) inc eq_refl Hinc).
  rewrite settle_run_app.
  destruct (positive dm && _)%bool; cbn [settle_run settle_step];
    apply IH, forallb_skipn, Hinc.
Qed.

End Bus.

Section Library_bus.

Import digisens_interface.

(** Whatever the read gives, [_send_command] on an open port logs one
    write, one flush and one read, and no sleep. *)
Lemma _send_command_events (command : string) (inc : list outcome)
      (lg : list event) :
  is_ascii command = true ->
  exists r,
    _send_command command
      (connected {| is_open := true; incoming := inc; log := lg |})
    = (r, connected {| is_open := true; incoming := tl inc;
                       log := lg ++ [EvWrite (ords command); EvFlush;
                                     EvReadUntil] |}).
Proof.
  intros Ha.
  unfold _send_command, connected, on_serial. cbn [serial is_open negb].
  unfold encode_ascii. unfold is_ascii in Ha. rewrite Ha.
  unfold Port.bind, lift, write, flush, read_until_decode, when_open, record.
  cbn [is_open incoming log].
  rewrite <- !app_assoc. cbn [List.app].
  destruct inc as [|[text|e] inc']; cbn [tl].
  - eexists; reflexivity.
  - destruct (String.eqb (strip text) EmptyString); eexists; reflexivity.
  - eexists; reflexivity.
Qed.

Lemma get_all_weights_events (mux_id : string) (ext : bool)
      (inc : list outcome) (lg : list event) :
  is_ascii mux_id = true ->
  exists r,
    get_all_weights mux_id ext
      (connected {| is_open := true; incoming := inc; log := lg |})
    = (r, connected {| is_open := true; incoming := tl inc;
                       log := lg ++ [EvWrite (ords (_build_command "gl" mux_id None ext));
                                     EvFlush; EvReadUntil] |}).
Proof.
  intros Ha. unfold get_all_weights, Port.bind.
  destruct (_send_command_events (_build_command "gl" mux_id None ext) inc lg)
    as [r E]; [now apply is_ascii__build_command|].
  rewrite E. destruct r as [response|e]; eexists; reflexivity.
Qed.

(** One guarded read of [main]: the exchange, whose failure is caught. *)
Lemma guarded_read_events (mux_id : string) (ext : bool)
      (inc : list outcome) (lg : list event) :
  is_ascii mux_id = true ->
  exists r,
    try_except (w <~ get_all_weights mux_id ext ;; ret (Some w))
               (fun _ => ret None)
      (connected {| is_open := true; incoming := inc; log := lg |})
    = (Ok r, connected {| is_open := true; incoming := tl inc;
                          log := lg ++ [EvWrite (ords (_build_command "gl" mux_id None ext));
                                        EvFlush; EvReadUntil] |}).
Proof.
  intros Ha. unfold try_except, Port.bind.
  destruct (get_all_weights_events mux_id ext inc lg Ha) as [r E].
  rewrite E. destruct r; eexists; reflexivity.
Qed.

(** The two reads of [main]: two exchanges back to back, the second one
    also when the first failed, and nothing between them. *)
Lemma main_reads_events (mux1_id mux2_id : string) (inc : list outcome) :
  is_ascii mux1_id = true -> is_ascii mux2_id = true ->
  log_of (snd (read_two_muxes.main_reads mux1_id mux2_id
                 (connected (fresh_port inc))))
  = [EvWrite (ords (_build_command "gl" mux1_id None
                      (read_two_muxes.detect_addressing_mode mux1_id)));
     EvFlush; EvReadUntil;
     EvWrite (ords (_build_command "gl" mux2_id None
                      (read_two_muxes.detect_addressing_mode mux2_id)));
     EvFlush; EvReadUntil].
Proof.
  intros H1 H2. unfold read_two_muxes.main_reads, fresh_port.
  unfold Port.bind at 1.
  destruct (guarded_read_events mux1_id
              (read_two_muxes.detect_addressing_mode mux1_id) inc [] H1)
    as [r1 E1].
  rewrite E1. unfold Port.bind at 1.
  destruct (guarded_read_events mux2_id
              (read_two_muxes.detect_addressing_mode mux2_id) (tl inc)
              ([] ++ [EvWrite (ords (_build_command "gl" mux1_id None
                                (read_two_muxes.detect_addressing_mode mux1_id)));
                      EvFlush; EvReadUntil]) H2) as [r2 E2].
  rewrite E2. reflexivity.
Qed.

End Library_bus.

(** C9, as the code has it.  [read_multiple_muxes_single_port] writes the
    requests of the devices in the order of [mux_configs], channel 0 to 7 for
    each, whatever the reads give.  When every read returns (with a reply or
    with the silence of a timeout), every exchange is a write followed by
    its read, and after the read comes a sleep of at least the inter-command
    delay before the next request is written, across the boundary between
    two devices as well, and before the port is closed.
    [read_two_muxes.main], on the library, issues its two exchanges in order
    with nothing between them: the library has no settle delay. *)
Theorem shared_port_order_and_delay (mux_configs : list (string * string))
        (inter_mux_delay : Q) (replies : list outcome)
        (mux1_id mux2_id : string) :
  let lg := log (snd (get_weights_gd_single_port.read_multiple_muxes_single_port
                        mux_configs inter_mux_delay (fresh_port replies))) in
  let lg2 := log_of (snd (read_two_muxes.main_reads mux1_id mux2_id
                            (connected (fresh_port replies)))) in
  writes lg = flat_map (fun cfg => requests_of (fst cfg)) mux_configs
  /\ (forallb is_reply replies = true ->
      settled get_weights_gd_single_port.default_inter_command_delay lg = true)
  /\ (is_ascii mux1_id = true -> is_ascii mux2_id = true ->
      lg2 = [EvWrite (ords (digisens_interface._build_command "gl" mux1_id None
                              (read_two_muxes.detect_addressing_mode mux1_id)));
             EvFlush; EvReadUntil;
             EvWrite (ords (digisens_interface._build_command "gl" mux2_id None
                              (read_two_muxes.detect_addressing_mode mux2_id)));
             EvFlush; EvReadUntil]).
Proof.
  cbv zeta. rewrite bus_events_log. cbn [fresh_port log incoming List.app].
  split; [|split].
  - cbn [writes]. now rewrite writes_app, writes_bus_events, app_nil_r.
  - intros H. unfold settled. cbn [settle_run settle_step].
    rewrite settle_run_app.
    now rewrite (bus_events_settled inter_mux_delay (length mux_configs) 0
                   mux_configs replies H).
  - apply main_reads_events.
Qed.

(** Two devices on one port, every read timing out. *)
Lemma shared_port_order_and_delay_witness :
  writes (log (snd (get_weights_gd_single_port.read_multiple_muxes_single_port
                      [("123", "MUX 1"); ("0120250925110711", "MUX 2")]
                      (1 # 10) (fresh_port []))))
  = (requests_of "123" ++ requests_of "0120250925110711")%list
  /\ settled get_weights_gd_single_port.default_inter_command_delay
       (log (snd (get_weights_gd_single_port.read_multiple_muxes_single_port
                    [("123", "MUX 1"); ("0120250925110711", "MUX 2")]
                    (1 # 10) (fresh_port [])))) = true
  /\ log_of (snd (read_two_muxes.main_reads "123" "456"
                    (connected (fresh_port []))))
     = [EvWrite (ords (digisens_interface._build_command "gl" "123" None false));
        EvFlush; EvReadUntil;
        EvWrite (ords (digisens_interface._build_command "gl" "456" None false));
        EvFlush; EvReadUntil].
Proof.
  destruct (shared_port_order_and_delay
              [("123", "MUX 1"); ("0120250925110711", "MUX 2")]
              (1 # 10) [] "123" "456") as (H1 & H2 & H3).
  split; [|split].
  - rewrite H1. cbn [flat_map fst]. now rewrite app_nil_r.
  - apply H2. reflexivity.
  - apply H3; reflexivity.
Defined.

(** C9 as stated fails: [read_two_muxes.main] reads two devices on one port
    back to back; its log holds no sleep at all, so the second request is
    written on a port that has not settled, for the 50 ms delay the
    single-port script uses as for any other. *)
Lemma main_reads_has_no_settle_delay :
  length (writes main_reads_log) = 2
  /\ existsb (fun ev => match ev with EvSleep _ => true | _ => false end)
             main_reads_log = false
  /\ settled (5 # 100) main_reads_log = false.
Proof. repeat split; vm_compute; reflexivity. Qed.

(** The sleep of the single-port loop sits inside its [try]: an exchange
    whose read raises is followed at once by the next write. *)
Lemma failed_exchange_skips_delay :
  failed_then_answered_log
  = [EvResetInput; EvResetOutput;
     EvWrite (encode_utf8 (get_weights_gd_single_port.gd_msg "@" "123" 0));
     EvFlush; EvReadUntil;
     EvWrite (encode_utf8 (get_weights_gd_single_port.gd_msg "@" "123" 1));
     EvFlush; EvReadUntil; EvSleep (5 # 100)]
  /\ settled (5 # 100) failed_then_answered_log = false.
Proof. split; vm_compute; reflexivity. Qed.

(** ** More on the checksum *)

Section Checksum.

Lemma hex2_value_hex2 (n : N) : (n < 256)%N -> hex2_value (hex2 n) = n.
Proof.
  intros H. rewrite <- (N2Nat.id n). apply N.eqb_eq.
  apply (forall_below
           (fun k => (hex2_value (hex2 (N.of_nat k)) =? N.of_nat k)%N) 256);
    [vm_compute; reflexivity | lia].
Qed.

Lemma hex2_inj (n m : N) : (n < 256 -> m < 256 -> hex2 n = hex2 m -> n = m)%N.
Proof.
  intros Hn Hm E.
  rewrite <- (hex2_value_hex2 n Hn), <- (hex2_value_hex2 m Hm). now rewrite E.
Qed.

Lemma xor_ords_app (a b : string) :
  xor_ords (a ++ b) = N.lxor (xor_ords a) (xor_ords b).
Proof.
  unfold xor_ords. induction a as [|x a IH]; cbn [append ords fold_right].
  - now rewrite N.lxor_0_l.
  - now rewrite IH, N.lxor_assoc.
Qed.

Lemma xor_ords_String (c : ascii) (s : string) :
  xor_ords (String c s) = N.lxor (ord c) (xor_ords s).
Proof. reflexivity. Qed.

Lemma ord_inj (c c' : ascii) : ord c = ord c' -> c = c'.
Proof.
  unfold ord. intros E.
  rewrite <- (ascii_N_embedding c), <- (ascii_N_embedding c'). now rewrite E.
Qed.

Lemma lxor_cancel_l (a b c : N) : N.lxor a b = N.lxor a c -> b = c.
Proof.
  intros E.
  assert (H : N.lxor a (N.lxor a b) = N.lxor a (N.lxor a c)) by now rewrite E.
  now rewrite <- !N.lxor_assoc, N.lxor_nilpotent, !N.lxor_0_l in H.
Qed.

Lemma encode_utf8_ascii (s : string) : is_ascii s = true -> encode_utf8 s = ords s.
Proof.
  unfold is_ascii. induction s as [|c s IH]; cbn [ords forallb encode_utf8];
    [reflexivity|].
  intros H. apply andb_prop in H as [H1 H2].
  rewrite H1. cbn [List.app]. now rewrite IH.
Qed.

End Checksum.

(** X1.  The checksum tells one changed character: two messages that differ
    in exactly one position never have the same checksum, in the library and
    in the scripts that pad it. *)
Theorem checksum_detects_one_changed_character (a b : string) (c c' : ascii) :
  c <> c' ->
  digisens_interface._calculate_checksum (a ++ String c b)
  <> digisens_interface._calculate_checksum (a ++ String c' b)
  /\ read_two_muxes_simple.XOR_CRC_calculation (a ++ String c b)
     <> read_two_muxes_simple.XOR_CRC_calculation (a ++ String c' b).
Proof.
  intros Hc.
  assert (D : hex2 (xor_ords (a ++ String c b))
              <> hex2 (xor_ords (a ++ String c' b))).
  { intros E. apply hex2_inj in E; try apply xor_ords_lt_256.
    rewrite !xor_ords_app, !xor_ords_String in E.
    apply lxor_cancel_l in E. rewrite (N.lxor_comm (ord c)), (N.lxor_comm (ord c')) in E.
    apply lxor_cancel_l in E. now apply Hc, ord_inj. }
  split.
  - now rewrite !_calculate_checksum_hex2.
  - now rewrite !XOR_CRC_calculation_hex2.
Qed.

Lemma checksum_detects_one_changed_character_witness :
  digisens_interface._calculate_checksum ("@09sz" ++ String "1" "230")
  <> digisens_interface._calculate_checksum ("@09sz" ++ String "7" "230")
  /\ read_two_muxes_simple.XOR_CRC_calculation ("@09sz" ++ String "1" "230")
     <> read_two_muxes_simple.XOR_CRC_calculation ("@09sz" ++ String "7" "230").
Proof.
  apply (checksum_detects_one_changed_character "@09sz" "230" "1" "7").
  discriminate.
Defined.

(** X2.  The checksum does not see the order of the characters: exchanging
    two parts of a message leaves it unchanged, in the library and in the
    scripts. *)
Theorem checksum_ignores_order (a b : string) :
  digisens_interface._calculate_checksum (a ++ b)
  = digisens_interface._calculate_checksum (b ++ a)
  /\ read_two_muxes_simple.XOR_CRC_calculation (a ++ b)
     = read_two_muxes_simple.XOR_CRC_calculation (b ++ a)
  /\ digisens_n17.XOR_CRC_calculation (a ++ b)
     = digisens_n17.XOR_CRC_calculation (b ++ a).
Proof.
  rewrite !_calculate_checksum_hex2, ?XOR_CRC_calculation_hex2, !xor_ords_app.
  rewrite (N.lxor_comm (xor_ords a)). repeat split.
  unfold digisens_n17.XOR_CRC_calculation.
  assert (F : forall l1 l2 acc,
            fold_left (fun x y => N.lxor x y) (l1 ++ l2)%list acc
            = fold_left (fun x y => N.lxor x y) (l2 ++ l1)%list acc).
  { intros l1 l2 acc. rewrite !fold_left_app.
    assert (G : forall l x, fold_left (fun x y => N.lxor x y) l x
                            = N.lxor x (fold_left (fun x y => N.lxor x y) l 0%N)).
    { induction l as [|y l IH]; intros x; cbn [fold_left].
      - now rewrite N.lxor_0_r.
      - rewrite IH, (IH (N.lxor 0 y)), N.lxor_0_l. now rewrite N.lxor_assoc. }
    rewrite (G l2 (fold_left _ l1 acc)), (G l1 (fold_left _ l2 acc)).
    rewrite (G l1 acc), (G l2 acc).
    rewrite !N.lxor_assoc. f_equal. apply N.lxor_comm. }
  assert (U : forall x y, encode_utf8 (x ++ y) = (encode_utf8 x ++ encode_utf8 y)%list).
  { intros x y. induction x as [|ch x IH]; cbn [append encode_utf8]; [reflexivity|].
    now rewrite IH, app_assoc. }
  now rewrite !U, F.
Qed.

(** X3.  The checksum of digisens_n17.py on an ASCII message is the padded
    checksum without its leading zero: one digit when the XOR of the
    ordinals is below 16, the same two digits otherwise. *)
Theorem n17_checksum_drops_leading_zero (msg : string) :
  is_ascii msg = true ->
  digisens_n17.XOR_CRC_calculation msg
  = (if (xor_ords msg <? 16)%N
     then String (hexdigit (xor_ords msg)) EmptyString
     else read_two_muxes_simple.XOR_CRC_calculation msg).
Proof.
  intros Ha. rewrite XOR_CRC_calculation_hex2.
  unfold digisens_n17.XOR_CRC_calculation.
  rewrite (encode_utf8_ascii msg Ha), fold_lxor_xor_ords, N.lxor_0_l.
  pose proof (xor_ords_lt_256 msg) as Hx. revert Hx.
  generalize (xor_ords msg) as n. intros n Hn.
  rewrite <- (N2Nat.id n). apply String.eqb_eq.
  apply (forall_below
           (fun k => String.eqb
                       (upper (slice (Some 2%Z) None (hex (N.of_nat k))))
                       (if (N.of_nat k <? 16)%N
                        then String (hexdigit (N.of_nat k)) EmptyString
                        else hex2 (N.of_nat k))) 256);
    [vm_compute; reflexivity | lia].
Qed.

Lemma n17_checksum_drops_leading_zero_witness :
  digisens_n17.XOR_CRC_calculation "ab"
  = (if (xor_ords "ab" <? 16)%N
     then String (hexdigit (xor_ords "ab")) EmptyString
     else read_two_muxes_simple.XOR_CRC_calculation "ab").
Proof. apply (n17_checksum_drops_leading_zero "ab"). reflexivity. Defined.

(** ** The two builders side by side *)

Section Builders.

Lemma dec2_inj (n m : nat) : n < 100 -> m < 100 -> dec2 n = dec2 m -> n = m.
Proof.
  intros Hn Hm E.
  assert (E1 : nat_of_ascii (ascii_of_nat (48 + n / 10))
               = nat_of_ascii (ascii_of_nat (48 + m / 10)))
    by exact (f_equal (fun s => match s with
                                | String a _ => nat_of_ascii a
                                | EmptyString => 0
                                end) E).
  assert (E2 : nat_of_ascii (ascii_of_nat (48 + n mod 10))
               = nat_of_ascii (ascii_of_nat (48 + m mod 10)))
    by exact (f_equal (fun s => match s with
                                | String _ (String b _) => nat_of_ascii b
                                | _ => 0
                                end) E).
  assert (Bn : n / 10 < 10) by (apply Nat.Div0.div_lt_upper_bound; lia).
  assert (Bm : m / 10 < 10) by (apply Nat.Div0.div_lt_upper_bound; lia).
  pose proof (Nat.mod_upper_bound n 10 ltac:(discriminate)) as Rn.
  pose proof (Nat.mod_upper_bound m 10 ltac:(discriminate)) as Rm.
  rewrite !nat_ascii_embedding in E1 by lia.
  rewrite !nat_ascii_embedding in E2 by lia.
  rewrite (Nat.div_mod_eq n 10), (Nat.div_mod_eq m 10). lia.
Qed.

Lemma fmt_02d_of_nat (n : nat) : fmt_02d (Z.of_nat n) = zfill 2 (str_of_nat n).
Proof.
  unfold fmt_02d. destruct (Z.ltb_spec (Z.of_nat n) 0); [lia|].
  now rewrite Nat2Z.id.
Qed.

(** The shape of a library frame, whatever its length. *)
Lemma _build_command_shape_any (command mux_id : string) (channel : option Z)
      (use_extended : bool) :
  let h := if use_extended then "#"%char else "@"%char in
  let payload := command ++ mux_id ++ channel_text channel in
  let field := fmt_02d (Z.of_nat (len payload + 2)) in
  digisens_interface._build_command command mux_id channel use_extended
  = String h (field ++ payload
              ++ hex2 (xor_ords (String h (field ++ payload))) ++ CR).
Proof.
  intros h payload field. unfold digisens_interface._build_command.
  rewrite _calculate_checksum_hex2.
  assert (E : (match channel with
               | Some ch => mux_id ++ fmt_02d ch
               | None => mux_id
               end) = mux_id ++ channel_text channel).
  { destruct channel; simpl; [reflexivity | now rewrite app_empty_r]. }
  rewrite E.
  replace (len command + len (mux_id ++ channel_text channel) + 2)
    with (len payload + 2) by (unfold payload; rewrite !len_app; lia).
  fold payload. fold field. subst h.
  destruct use_extended; rewrite !app_assoc_str; reflexivity.
Qed.

Lemma fmt_02d_three_digits (n : nat) :
  100 <= n < 1000 -> len (fmt_02d (Z.of_nat n)) = 3.
Proof.
  intros H. rewrite fmt_02d_of_nat.
  assert (A : ((100 <=? n)%nat
               && negb (len (zfill 2 (str_of_nat n)) =? 3)%nat)%bool = false).
  { apply negb_true_iff.
    apply (forall_below
             (fun k => negb ((100 <=? k)%nat
                             && negb (len (zfill 2 (str_of_nat k)) =? 3)%nat))
             1000);
      [vm_compute; reflexivity | lia]. }
  destruct (Nat.leb_spec 100 n); [|lia].
  cbn [andb] in A. apply negb_false_iff, Nat.eqb_eq in A. exact A.
Qed.

End Builders.

(** X4.  On text of code points below 256, the text of the embedding, the
    library builds the frame that verify_protocol.py calls
    [create_lowa_msg_CORRECT]: for every such command, address and data the
    two give the same text. *)
Theorem library_builder_is_create_lowa_msg_CORRECT
        (command uid data : string) (use_extended : bool) :
  digisens_interface._build_command command (uid ++ data) None use_extended
  = verify_protocol.create_lowa_msg_CORRECT
      (if use_extended then "#" else "@") uid command data.
Proof.
  unfold digisens_interface._build_command,
    verify_protocol.create_lowa_msg_CORRECT,
    verify_protocol.XOR_CRC_calculation.
  rewrite fmt_02d_of_nat.
  replace (len command + len (uid ++ data) + 2)
    with (len (command ++ uid ++ data) + 2) by (rewrite !len_app; lia).
  rewrite _calculate_checksum_hex2, XOR_CRC_calculation_hex2.
  now rewrite !app_assoc_str.
Qed.

(** X5.  The builder of the scripts and the builder of the library never
    produce the same frame from the same header, command, address and data:
    their length fields are two consecutive numbers. *)
Theorem builders_never_agree (command uid data : string) (use_extended : bool) :
  len (command ++ uid ++ data) + 3 < 100 ->
  read_two_muxes_simple.create_lowa_msg
    (if use_extended then "#" else "@") uid command data
  <> digisens_interface._build_command command (uid ++ data) None use_extended.
Proof.
  intros H E.
  assert (F : slice (Some 1%Z) (Some 3%Z)
                (read_two_muxes_simple.create_lowa_msg
                   (if use_extended then "#" else "@") uid command data)
              = slice (Some 1%Z) (Some 3%Z)
                  (digisens_interface._build_command command (uid ++ data) None
                                                     use_extended))
    by now rewrite E.
  assert (P : len (command ++ (uid ++ data) ++ channel_text None)
              = len (command ++ uid ++ data))
    by (cbn [channel_text]; now rewrite app_empty_r).
  rewrite _build_command_shape in F by lia.
  replace (if use_extended then "#" else "@")
    with (String (if use_extended then "#"%char else "@"%char) EmptyString) in F
    by now destruct use_extended.
  rewrite create_lowa_msg_shape in F by exact H.
  rewrite !slice_1_3 in F by reflexivity.
  rewrite P in F. apply dec2_inj in F; lia.
Qed.

Lemma builders_never_agree_witness :
  read_two_muxes_simple.create_lowa_msg "@" "123" "gl" EmptyString
  <> digisens_interface._build_command "gl" ("123" ++ EmptyString) None false.
Proof.
  apply (builders_never_agree "gl" "123" EmptyString false).
  vm_compute. lia.
Defined.

(** X6.  The library builder does not bound what it is given: when command,
    address and channel text count 98 to 997 characters the length field
    takes three digits, and the cut [response[3:-2]] of such a frame is the
    last digit of the field followed by the payload. *)
Theorem long_payload_shifts_the_body (command mux_id : string)
        (channel : option Z) (use_extended : bool) :
  let payload := command ++ mux_id ++ channel_text channel in
  98 <= len payload < 998 ->
  let frame := digisens_interface._build_command command mux_id channel
                                                 use_extended in
  let body := slice (Some 3%Z) (Some (-2)%Z) (strip frame) in
  len frame = len payload + 7
  /\ len body = len payload + 1
  /\ slice (Some 1%Z) None body = payload.
Proof.
  intros payload H. cbv zeta.
  rewrite _build_command_shape_any. fold payload.
  set (h := if use_extended then "#"%char else "@"%char).
  assert (Hh : isspace h = false) by (subst h; now destruct use_extended).
  pose proof (fmt_02d_three_digits (len payload + 2) ltac:(lia)) as L.
  set (field := fmt_02d (Z.of_nat (len payload + 2))) in *.
  set (x := xor_ords (String h (field ++ payload))).
  split.
  - change (String h (field ++ payload ++ hex2 x ++ CR))
      with (String h EmptyString ++ field ++ payload ++ hex2 x ++ CR).
    rewrite !len_app, L, hex2_len.
    change (len (String h EmptyString)) with 1. change (len CR) with 1. lia.
  - replace (field ++ payload ++ hex2 x ++ CR)
      with ((field ++ payload) ++ hex2 x ++ CR) by now rewrite app_assoc_str.
    rewrite strip_frame by exact Hh.
    change (String h ((field ++ payload) ++ hex2 x))
      with (String h (field ++ payload) ++ hex2 x).
    assert (L3 : 3 <= len (String h (field ++ payload))).
    { change (String h (field ++ payload))
        with (String h EmptyString ++ field ++ payload).
      rewrite !len_app, L. lia. }
    rewrite (slice_inner 3 2) by (try reflexivity; lia).
    change (drop 3 (String h (field ++ payload)))
      with (drop 2 (field ++ payload)).
    destruct field as [|d1 [|d2 [|d3 [|d4 rest]]]]; try discriminate L.
    cbn [append drop]. split.
    + cbn [len String.length]. unfold len. lia.
    + now rewrite (slice_from 1).
Qed.

Lemma long_payload_shifts_the_body_witness :
  len (digisens_interface._build_command "gl" hundred_characters None false)
  = len ("gl" ++ hundred_characters ++ channel_text None) + 7
  /\ len (slice (Some 3%Z) (Some (-2)%Z)
            (strip (digisens_interface._build_command "gl" hundred_characters
                                                      None false)))
     = len ("gl" ++ hundred_characters ++ channel_text None) + 1
  /\ slice (Some 1%Z) None
       (slice (Some 3%Z) (Some (-2)%Z)
          (strip (digisens_interface._build_command "gl" hundred_characters
                                                    None false)))
     = "gl" ++ hundred_characters ++ channel_text None.
Proof.
  apply (long_payload_shifts_the_body "gl" hundred_characters None false).
  vm_compute. lia.
Defined.

(** ** The library without a usable port *)

Section Disconnected.

Import digisens_interface.

Lemma _send_command_not_connected (command : string) (self : DigiSensInterface) :
  not_connected self = true ->
  _send_command command self = (Raise ConnectionError, self).
Proof.
  unfold not_connected, _send_command. destruct (serial self) as [ser|];
    [|reflexivity].
  intros H. now rewrite H.
Qed.

Lemma _send_command_not_ascii (command : string) (ser : Serial) :
  is_open ser = true -> is_ascii command = false ->
  _send_command command (connected ser)
  = (Raise UnicodeEncodeError, connected ser).
Proof.
  intros Ho Ha. unfold _send_command, connected, on_serial.
  cbn [serial]. rewrite Ho. cbn [negb].
  unfold Port.bind, lift, encode_ascii. unfold is_ascii in Ha. now rewrite Ha.
Qed.

Lemma is_ascii__build_command_false (command mux_id : string)
      (channel : option Z) (use_extended : bool) :
  is_ascii mux_id = false ->
  is_ascii (_build_command command mux_id channel use_extended) = false.
Proof.
  intros Hm. unfold _build_command.
  assert (Hd : is_ascii (match channel with
                         | Some ch => mux_id ++ fmt_02d ch
                         | None => mux_id
                         end) = false).
  { destruct channel; [|exact Hm]. now rewrite is_ascii_app, Hm. }
  rewrite !is_ascii_app, Hd. now rewrite !andb_false_r.
Qed.

End Disconnected.

(** X7.  Without an open port nothing is sent: every operation of the
    library, [set_baudrate] with any rate of its table included, raises
    ConnectionError and leaves the interface, and the log of its port, as
    they were. *)
Theorem operations_need_an_open_port
        (self : digisens_interface.DigiSensInterface) (mux_id : string)
        (channel baudrate : Z) (use_extended : bool) :
  not_connected self = true ->
  In baudrate digisens_interface.valid_baudrates ->
  digisens_interface.get_weight mux_id channel use_extended self
  = (Raise ConnectionError, self)
  /\ digisens_interface.get_all_weights mux_id use_extended self
     = (Raise ConnectionError, self)
  /\ digisens_interface.zero_sensor mux_id channel use_extended self
     = (Raise ConnectionError, self)
  /\ digisens_interface.get_mux_address use_extended self
     = (Raise ConnectionError, self)
  /\ digisens_interface.get_model_number mux_id use_extended self
     = (Raise ConnectionError, self)
  /\ digisens_interface.get_software_revision mux_id use_extended self
     = (Raise ConnectionError, self)
  /\ digisens_interface.set_baudrate mux_id baudrate use_extended self
     = (Raise ConnectionError, self).
Proof.
  intros H Hb.
  assert (E : existsb (Z.eqb baudrate) digisens_interface.valid_baudrates = true).
  { apply existsb_exists. exists baudrate. split; [exact Hb | apply Z.eqb_refl]. }
  unfold digisens_interface.get_weight, digisens_interface.get_all_weights,
    digisens_interface.zero_sensor, digisens_interface.get_mux_address,
    digisens_interface.get_model_number,
    digisens_interface.get_software_revision,
    digisens_interface.set_baudrate, Port.bind.
  rewrite E. cbn [negb].
  now rewrite !_send_command_not_connected.
Qed.

Lemma operations_need_an_open_port_witness :
  digisens_interface.get_weight "123" 0 false
    {| digisens_interface.serial := None |}
  = (Raise ConnectionError, {| digisens_interface.serial := None |})
  /\ digisens_interface.get_all_weights "123" false
       {| digisens_interface.serial := None |}
     = (Raise ConnectionError, {| digisens_interface.serial := None |})
  /\ digisens_interface.zero_sensor "123" 0 false
       {| digisens_interface.serial := None |}
     = (Raise ConnectionError, {| digisens_interface.serial := None |})
  /\ digisens_interface.get_mux_address false
       {| digisens_interface.serial := None |}
     = (Raise ConnectionError, {| digisens_interface.serial := None |})
  /\ digisens_interface.get_model_number "123" false
       {| digisens_interface.serial := None |}
     = (Raise ConnectionError, {| digisens_interface.serial := None |})
  /\ digisens_interface.get_software_revision "123" false
       {| digisens_interface.serial := None |}
     = (Raise ConnectionError, {| digisens_interface.serial := None |})
  /\ digisens_interface.set_baudrate "123" 115200 false
       {| digisens_interface.serial := None |}
     = (Raise ConnectionError, {| digisens_interface.serial := None |}).
Proof.
  apply (operations_need_an_open_port
           {| digisens_interface.serial := None |} "123" 0 115200 false).
  - reflexivity.
  - do 4 right. left. reflexivity.
Defined.

(** X8.  [disconnect] closes the port at most once: after it the interface
    is not connected, a second [disconnect] changes nothing, and a read
    attempted afterwards raises ConnectionError. *)
Theorem disconnect_is_final (self : digisens_interface.DigiSensInterface)
        (mux_id : string) (channel : Z) (use_extended : bool) :
  let self' := snd (digisens_interface.disconnect self) in
  fst (digisens_interface.disconnect self) = Ok tt
  /\ not_connected self' = true
  /\ digisens_interface.disconnect self' = (Ok tt, self')
  /\ digisens_interface.get_weight mux_id channel use_extended self'
     = (Raise ConnectionError, self').
Proof.
  cbv zeta.
  assert (N : not_connected (snd (digisens_interface.disconnect self)) = true
              /\ fst (digisens_interface.disconnect self) = Ok tt).
  { unfold digisens_interface.disconnect, not_connected.
    destruct self as [[ser|]]; cbn [digisens_interface.serial]; [|now split].
    destruct (is_open ser) eqn:Ho; cbn; [now split|now rewrite Ho]. }
  destruct N as [N1 N2]. repeat split; try assumption.
  - revert N1. generalize (snd (digisens_interface.disconnect self)) as s.
    intros s Hs. unfold digisens_interface.disconnect, not_connected in *.
    destruct (digisens_interface.serial s) as [ser|]; [|reflexivity].
    apply negb_true_iff in Hs. now rewrite Hs.
  - unfold digisens_interface.get_weight, Port.bind.
    now rewrite _send_command_not_connected.
Qed.

(** X9.  An address with a character above 127 is refused before anything
    is written: on an open port [get_weight] and [get_all_weights] raise
    UnicodeEncodeError and the port, its log and its pending input stay as
    they were. *)
Theorem non_ascii_address_is_not_sent (mux_id : string) (channel : Z)
        (use_extended : bool) (ser : Serial) :
  is_open ser = true ->
  is_ascii mux_id = false ->
  digisens_interface.get_weight mux_id channel use_extended (connected ser)
  = (Raise UnicodeEncodeError, connected ser)
  /\ digisens_interface.get_all_weights mux_id use_extended (connected ser)
     = (Raise UnicodeEncodeError, connected ser).
Proof.
  intros Ho Ha.
  unfold digisens_interface.get_weight, digisens_interface.get_all_weights,
    Port.bind.
  now rewrite !_send_command_not_ascii
    by (try assumption; now apply is_ascii__build_command_false).
Qed.

Lemma non_ascii_address_is_not_sent_witness :
  digisens_interface.get_weight accented_address 0 false
    (connected (fresh_port [Reply gw_reply]))
  = (Raise UnicodeEncodeError, connected (fresh_port [Reply gw_reply]))
  /\ digisens_interface.get_all_weights accented_address false
       (connected (fresh_port [Reply gw_reply]))
     = (Raise UnicodeEncodeError, connected (fresh_port [Reply gw_reply])).
Proof.
  apply (non_ascii_address_is_not_sent accented_address 0 false
           (fresh_port [Reply gw_reply])); reflexivity.
Defined.

(** X10.  [set_baudrate] checks the rate before it touches the port: a rate
    outside its table raises ValueError and leaves the interface as it was,
    connected or not. *)
Theorem set_baudrate_rejects_unknown_rate
        (self : digisens_interface.DigiSensInterface) (mux_id : string)
        (baudrate : Z) (use_extended : bool) :
  ~ In baudrate digisens_interface.valid_baudrates ->
  digisens_interface.set_baudrate mux_id baudrate use_extended self
  = (Raise ValueError, self).
Proof.
  intros H. unfold digisens_interface.set_baudrate.
  destruct (existsb (Z.eqb baudrate) digisens_interface.valid_baudrates) eqn:E;
    [|reflexivity].
  apply existsb_exists in E as (x & Hx & Ex).
  apply Z.eqb_eq in Ex. subst x. contradiction.
Qed.

Lemma set_baudrate_rejects_unknown_rate_witness :
  digisens_interface.set_baudrate "123" 4800 false
    (connected (fresh_port []))
  = (Raise ValueError, connected (fresh_port [])).
Proof.
  apply (set_baudrate_rejects_unknown_rate (connected (fresh_port []))
           "123" 4800%Z false).
  cbn. intros [H|[H|[H|[H|[H|[]]]]]]; discriminate H.
Defined.

(** ** Replies to the library *)

Section Replies.

Import digisens_interface.

Lemma drop_app_le (n : nat) (a b : string) :
  n <= len a -> drop n (a ++ b) = drop n a ++ b.
Proof.
  revert a; induction n as [|n IH]; intros a H; [now destruct a|].
  destruct a as [|c a]; unfold len in *; simpl in *; [lia|]. apply IH. lia.
Qed.

Lemma take_app_le (n : nat) (a b : string) :
  n <= len a -> take n (a ++ b) = take n a.
Proof.
  revert a; induction n as [|n IH]; intros a H; [now destruct a|].
  destruct a as [|c a]; unfold len in *; simpl in *; [lia|]. f_equal. apply IH. lia.
Qed.

Lemma get_app_l (i : nat) (a b : string) :
  i < len a -> String.get i (a ++ b) = String.get i a.
Proof. intros H. symmetry. now apply append_correct1. Qed.

Lemma len_slice_init_2 (s : string) :
  len (slice None (Some (-2)%Z) s) = len s - 2.
Proof.
  unfold slice, bound. cbn [Z.ltb Z.compare]. rewrite len_take.
  change (drop 0 s) with s. lia.
Qed.

(** A window wrapped as [get_all_weights] wraps it parses, or its weight
    field is not a number; it never runs out of characters. *)
Lemma wrapped_window_parses (block : string) :
  len block = 11 ->
  (exists rd, _parse_weight_response ("@13" ++ block ++ "00") = Ok rd)
  \/ _parse_weight_response ("@13" ++ block ++ "00") = Raise ValueError.
Proof.
  intros H. unfold _parse_weight_response.
  replace (slice (Some 3%Z) None ("@13" ++ block ++ "00")) with (block ++ "00")
    by (now rewrite (slice_from 3)).
  destruct (item_Ok 0 (block ++ "00")) as [s ->]; [rewrite len_app; lia|].
  destruct (item_Ok 9 (block ++ "00")) as [x ->]; [rewrite len_app; lia|].
  cbn [Py.bind]. destruct (float _) as [w|e] eqn:F.
  - left. cbn [Py.bind].
    unfold StatusFlag_of_value.
    destruct (Ascii.eqb x " "); [eexists; reflexivity|].
    destruct (Ascii.eqb x "M"); [eexists; reflexivity|].
    destruct (Ascii.eqb x "C"); [eexists; reflexivity|].
    destruct (Ascii.eqb x "E"); eexists; reflexivity.
  - right. unfold float in F. destruct (float_of_str _); [discriminate|].
    now injection F as <-.
Qed.

(** The loop of [get_all_weights] over the first [n] full windows. *)
Lemma get_all_weights_loop_outcomes (data : string) (n : nat)
      (acc : list WeightReading) :
  n * 11 <= len data ->
  (exists ws, get_all_weights_loop (map (fun j => j * 11) (seq 0 n)) data acc
              = Ok (acc ++ ws)%list /\ length ws = n)
  \/ (get_all_weights_loop (map (fun j => j * 11) (seq 0 n)) data acc
      = Raise ValueError /\ 0 < n).
Proof.
  induction n as [|n IH]; intros Hn.
  - left. exists []. cbn. now rewrite app_nil_r.
  - rewrite seq_S, map_app, get_all_weights_loop_app.
    destruct IH as [(ws & E & Hl)|[E _]];
      [lia| |right; rewrite E; split; [reflexivity | lia]].
    rewrite E. cbn [Py.bind map get_all_weights_loop Nat.add].
    fold (window data n).
    assert (L : len (window data n) = 11)
      by (unfold window; rewrite len_slice_nat; lia).
    rewrite L, Nat.eqb_refl.
    destruct (wrapped_window_parses (window data n) L) as [[rd P]|P];
      rewrite P; cbn [Py.bind]; [left | right; split; [reflexivity | lia]].
    exists (ws ++ [rd])%list. rewrite <- app_assoc. split; [reflexivity|].
    rewrite length_app, Hl. cbn. lia.
Qed.

Lemma get_all_weights_loop_total (data : string) :
  (exists ws, get_all_weights_loop (range_step (len data) 11) data [] = Ok ws
              /\ length ws = len data / 11)
  \/ (get_all_weights_loop (range_step (len data) 11) data [] = Raise ValueError
      /\ 11 <= len data).
Proof.
  pose proof (Nat.div_mod_eq (len data) 11) as D.
  pose proof (Nat.mod_upper_bound (len data) 11 ltac:(discriminate)) as R.
  set (k := len data / 11) in *. set (r := len data mod 11) in *.
  rewrite D, range_step_11, get_all_weights_loop_app by exact R.
  destruct (get_all_weights_loop_outcomes data k []) as [(ws & E & Hl)|[E Hk]];
    [lia| |right; rewrite E; split; [reflexivity | lia]].
  left. exists ws. rewrite E. cbn [Py.bind List.app]. split; [|exact Hl].
  destruct (Nat.eqb_spec r 0); [reflexivity|].
  cbn [get_all_weights_loop]. fold (window data k).
  assert (L : len (window data k) = r)
    by (unfold window; rewrite len_slice_nat; lia).
  rewrite L. destruct (Nat.eqb_spec r 11); [lia | reflexivity].
Qed.

End Replies.

(** X11.  [get_all_weights] on a reply that is not blank either returns one
    reading for each full window of 11 characters between the third
    character and the last two, or raises the ValueError of a weight field
    that is not a number; it never raises IndexError.  A reply too short to
    hold a window gives the empty list. *)
Theorem get_all_weights_outcomes (mux_id text : string) (use_extended : bool)
        (ser : Serial) (rest : list outcome) :
  is_ascii mux_id = true ->
  is_open ser = true ->
  incoming ser = Reply text :: rest ->
  strip text <> EmptyString ->
  let r := fst (digisens_interface.get_all_weights mux_id use_extended
                  (connected ser)) in
  (r = Raise ValueError
   \/ exists ws, r = Ok ws /\ length ws = (len (strip text) - 5) / 11)
  /\ (len (strip text) < 16 -> r = Ok []).
Proof.
  intros Ha Ho Hi Hne. cbv zeta.
  unfold digisens_interface.get_all_weights, Port.bind.
  rewrite (_send_command_reply _ text ser rest)
    by (try assumption; now apply is_ascii__build_command).
  destruct (String.eqb_spec (strip text) EmptyString); [contradiction|].
  unfold lift. cbn [fst].
  set (data := slice None (Some (-2)%Z) (slice (Some 3%Z) None (strip text))).
  assert (L : len data = len (strip text) - 5).
  { unfold data. rewrite len_slice_init_2, (slice_from 3), len_drop. lia. }
  destruct (get_all_weights_loop_total data) as [(ws & E & Hl)|[E Hd]].
  - split.
    + right. exists ws. now rewrite <- L.
    + intros Hs. rewrite E. f_equal.
      rewrite L in Hl. rewrite Nat.div_small in Hl by lia.
      now destruct ws.
  - split; [now left | lia].
Qed.

Lemma get_all_weights_outcomes_witness :
  (fst (digisens_interface.get_all_weights "123" false
          (connected (fresh_port [Reply gw_reply]))) = Raise ValueError
   \/ exists ws,
        fst (digisens_interface.get_all_weights "123" false
               (connected (fresh_port [Reply gw_reply]))) = Ok ws
        /\ length ws = (len (strip gw_reply) - 5) / 11)
  /\ (len (strip gw_reply) < 16 ->
      fst (digisens_interface.get_all_weights "123" false
             (connected (fresh_port [Reply gw_reply]))) = Ok []).
Proof.
  apply (get_all_weights_outcomes "123" gw_reply false
           (fresh_port [Reply gw_reply]) []); try reflexivity.
  vm_compute. discriminate.
Defined.

Section Bodies.

Import digisens_interface.

(** Stripping a terminated text that begins and ends on characters that
    are not white space takes the terminator off and nothing else. *)
Lemma strip_terminated (h c : ascii) (m : string) :
  isspace h = false -> isspace c = false ->
  strip (String h (m ++ String c CR)) = String h (m ++ String c EmptyString).
Proof.
  intros Hh Hc. unfold strip.
  change (lstrip (String h (m ++ String c CR)))
    with (if isspace h then lstrip (m ++ String c CR)
          else String h (m ++ String c CR)).
  rewrite Hh.
  change (String h (m ++ String c CR)) with (String h m ++ String c CR).
  now rewrite rstrip_CR.
Qed.

Lemma slice_3_m2_short (s : string) :
  len s <= 5 -> slice (Some 3%Z) (Some (-2)%Z) s = EmptyString.
Proof.
  intros H. unfold slice, bound. cbn [Z.ltb Z.compare].
  replace (Z.to_nat (Z.max 0 (-2 + Z.of_nat (len s)))
           - Nat.min (Z.to_nat 3) (len s)) with 0 by lia.
  now destruct (drop _ s).
Qed.

Lemma is_ascii_ag_command (use_extended : bool) :
  is_ascii (((if use_extended then "#" else "@") ++ "05ag")
            ++ _calculate_checksum ((if use_extended then "#" else "@") ++ "05ag")
            ++ CR) = true.
Proof. destruct use_extended; vm_compute; reflexivity. Qed.

End Bodies.

(** X12.  The three getters cut the body out of a framed reply: for a reply
    made of a header, a two-character length field, a body, two checksum
    characters and the terminator, [get_model_number],
    [get_software_revision] and [get_mux_address] return the body, whatever
    the length field and the checksum say. *)
Theorem getters_return_the_body (mux_id field body : string) (h c1 c2 : ascii)
        (use_extended : bool) (ser : Serial) (rest : list outcome) :
  is_ascii mux_id = true ->
  is_open ser = true ->
  incoming ser
  = Reply (String h (field ++ body ++ String c1 (String c2 CR))) :: rest ->
  len field = 2 ->
  isspace h = false ->
  isspace c2 = false ->
  fst (digisens_interface.get_model_number mux_id use_extended (connected ser))
  = Ok body
  /\ fst (digisens_interface.get_software_revision mux_id use_extended
            (connected ser)) = Ok body
  /\ fst (digisens_interface.get_mux_address use_extended (connected ser))
     = Ok body.
Proof.
  intros Ha Ho Hi Hf Hh Hc.
  set (text := String h (field ++ body ++ String c1 (String c2 CR))) in *.
  assert (S1 : strip text
               = String h (field ++ body) ++ String c1 (String c2 EmptyString)).
  { unfold text.
    replace (field ++ body ++ String c1 (String c2 CR))
      with ((field ++ body ++ String c1 EmptyString) ++ String c2 CR)
      by (rewrite !app_assoc_str; reflexivity).
    rewrite strip_terminated by assumption.
    cbn [append]. now rewrite !app_assoc_str. }
  assert (S2 : slice (Some 3%Z) (Some (-2)%Z) (strip text) = body).
  { rewrite S1.
    assert (L3 : 3 <= len (String h (field ++ body))).
    { change (String h (field ++ body))
        with (String h EmptyString ++ field ++ body).
      rewrite !len_app, Hf. cbn [len String.length]. lia. }
    rewrite (slice_inner 3 2) by (try reflexivity; lia).
    destruct (len_2_inv field Hf) as (a & b & ->). reflexivity. }
  assert (Hne : strip text <> EmptyString) by (rewrite S1; discriminate).
  unfold digisens_interface.get_model_number,
    digisens_interface.get_software_revision,
    digisens_interface.get_mux_address, Port.bind.
  rewrite !(_send_command_reply _ text ser rest)
    by (try assumption;
        first [now apply is_ascii__build_command | apply is_ascii_ag_command]).
  destruct (String.eqb_spec (strip text) EmptyString); [contradiction|].
  unfold ret. cbn [fst]. now rewrite S2.
Qed.

Lemma getters_return_the_body_witness :
  fst (digisens_interface.get_model_number "123" false
         (connected (fresh_port
            [Reply (String "@" ("10" ++ "H1103" ++ String "4" (String "F" CR)))])))
  = Ok "H1103"
  /\ fst (digisens_interface.get_software_revision "123" false
            (connected (fresh_port
               [Reply (String "@" ("10" ++ "H1103" ++ String "4" (String "F" CR)))])))
     = Ok "H1103"
  /\ fst (digisens_interface.get_mux_address false
            (connected (fresh_port
               [Reply (String "@" ("10" ++ "H1103" ++ String "4" (String "F" CR)))])))
     = Ok "H1103".
Proof.
  apply (getters_return_the_body "123" "10" "H1103" "@" "4" "F" false
           (fresh_port
              [Reply (String "@" ("10" ++ "H1103" ++ String "4" (String "F" CR)))])
           []);
    reflexivity.
Defined.

(** X13.  The getters do not fail on a short reply: a reply that is not
    blank and has at most five characters once stripped gives the empty
    text. *)
Theorem getters_return_empty_for_short_reply (mux_id text : string)
        (use_extended : bool) (ser : Serial) (rest : list outcome) :
  is_ascii mux_id = true ->
  is_open ser = true ->
  incoming ser = Reply text :: rest ->
  strip text <> EmptyString ->
  len (strip text) <= 5 ->
  fst (digisens_interface.get_model_number mux_id use_extended (connected ser))
  = Ok EmptyString
  /\ fst (digisens_interface.get_software_revision mux_id use_extended
            (connected ser)) = Ok EmptyString
  /\ fst (digisens_interface.get_mux_address use_extended (connected ser))
     = Ok EmptyString.
Proof.
  intros Ha Ho Hi Hne Hl.
  unfold digisens_interface.get_model_number,
    digisens_interface.get_software_revision,
    digisens_interface.get_mux_address, Port.bind.
  rewrite !(_send_command_reply _ text ser rest)
    by (try assumption;
        first [now apply is_ascii__build_command | apply is_ascii_ag_command]).
  destruct (String.eqb_spec (strip text) EmptyString); [contradiction|].
  unfold ret. cbn [fst]. now rewrite slice_3_m2_short.
Qed.

Lemma getters_return_empty_for_short_reply_witness :
  fst (digisens_interface.get_model_number "123" false
         (connected (fresh_port [Reply ("@05" ++ CR)]))) = Ok EmptyString
  /\ fst (digisens_interface.get_software_revision "123" false
            (connected (fresh_port [Reply ("@05" ++ CR)]))) = Ok EmptyString
  /\ fst (digisens_interface.get_mux_address false
            (connected (fresh_port [Reply ("@05" ++ CR)]))) = Ok EmptyString.
Proof.
  apply (getters_return_empty_for_short_reply "123" ("@05" ++ CR) false
           (fresh_port [Reply ("@05" ++ CR)]) []); try reflexivity.
  - vm_compute. discriminate.
  - vm_compute. lia.
Defined.

Section Parser_reach.

Import digisens_interface.

Lemma prefix_app (n b : string) : prefix n (n ++ b) = true.
Proof.
  induction n as [|c n IH]; cbn [append prefix]; [now destruct b|].
  destruct (ascii_dec c c); [exact IH | contradiction].
Qed.

Lemma contains_skip (n s : string) (c : ascii) :
  contains n s = true -> contains n (String c s) = true.
Proof.
  intros H. cbn [contains]. now destruct (prefix n (String c s)).
Qed.

Lemma contains_app (n a b : string) : contains n (a ++ n ++ b) = true.
Proof.
  induction a as [|c a IH]; cbn [append].
  - destruct (n ++ b) eqn:E; cbn [contains]; rewrite <- E, prefix_app;
      reflexivity.
  - now apply contains_skip.
Qed.

Lemma lower_app (a b : string) : lower (a ++ b) = lower a ++ lower b.
Proof.
  unfold lower. induction a as [|c a IH]; [reflexivity|].
  cbn [append list_ascii_of_string map string_of_list_ascii].
  now rewrite IH.
Qed.

End Parser_reach.

(** X14.  The single-block parser reads the first 13 characters of a reply
    and nothing after them: two replies that agree on those give the same
    weight and status, or the same exception, whatever follows.  The two
    checksum characters of a reply are never looked at. *)
Theorem parser_ignores_what_follows_the_block (p t1 t2 : string) :
  len p = 13 ->
  result_map (fun r => (digisens_interface.weight r, digisens_interface.status r))
             (digisens_interface._parse_weight_response (p ++ t1))
  = result_map (fun r => (digisens_interface.weight r, digisens_interface.status r))
               (digisens_interface._parse_weight_response (p ++ t2)).
Proof.
  intros H.
  assert (R : forall t,
            result_map (fun r => (digisens_interface.weight r,
                                  digisens_interface.status r))
                       (digisens_interface._parse_weight_response (p ++ t))
            = result_map (fun r => (digisens_interface.weight r,
                                    digisens_interface.status r))
                         (digisens_interface._parse_weight_response p)).
  { intros t. unfold digisens_interface._parse_weight_response.
    rewrite !(slice_from 3), drop_app_le by lia.
    set (q := drop 3 p).
    assert (Lq : len q = 10) by (unfold q; rewrite len_drop; lia).
    assert (I0 : item 0 (q ++ t) = item 0 q)
      by (unfold item; rewrite get_app_l by lia; reflexivity).
    assert (I9 : item 9 (q ++ t) = item 9 q)
      by (unfold item; rewrite get_app_l by lia; reflexivity).
    assert (W : slice (Some 1%Z) (Some 9%Z) (q ++ t) = slice (Some 1%Z) (Some 9%Z) q).
    { rewrite !(slice_nat 1 9) by (rewrite ?len_app; lia).
      rewrite drop_app_le by lia. apply take_app_le. rewrite len_drop. lia. }
    rewrite I0, I9, W.
    destruct (item 0 q); [|reflexivity]. cbn [Py.bind].
    destruct (item 9 q) as [x|]; [|reflexivity]. cbn [Py.bind].
    destruct (float _); [|reflexivity]. cbn [Py.bind].
    destruct (digisens_interface.StatusFlag_of_value x) as [st|[]]; reflexivity. }
  now rewrite (R t1), (R t2).
Qed.

Lemma parser_ignores_what_follows_the_block_witness :
  result_map (fun r => (digisens_interface.weight r, digisens_interface.status r))
             (digisens_interface._parse_weight_response ("@13 0002.130 " ++ "5C"))
  = result_map (fun r => (digisens_interface.weight r, digisens_interface.status r))
               (digisens_interface._parse_weight_response ("@13 0002.130 " ++ "ZZ")).
Proof.
  apply (parser_ignores_what_follows_the_block "@13 0002.130 " "5C" "ZZ").
  reflexivity.
Defined.

(** X15.  [zero_sensor] takes the echo of its own request for success: when
    the device answers with the frame it was sent, the result is True. *)
Theorem zero_sensor_accepts_the_echo (mux_id : string) (channel : Z)
        (use_extended : bool) (ser : Serial) (rest : list outcome) :
  is_ascii mux_id = true ->
  is_open ser = true ->
  incoming ser
  = Reply (digisens_interface._build_command "sz" mux_id (Some channel)
                                             use_extended) :: rest ->
  fst (digisens_interface.zero_sensor mux_id channel use_extended (connected ser))
  = Ok true.
Proof.
  intros Ha Ho Hi.
  unfold digisens_interface.zero_sensor, Port.bind.
  rewrite (_send_command_reply _ _ ser rest
             (is_ascii__build_command "sz" mux_id (Some channel) use_extended
                                      eq_refl Ha) Ho Hi).
  rewrite _build_command_shape_any.
  set (h := if use_extended then "#"%char else "@"%char).
  assert (Hh : isspace h = false) by (subst h; now destruct use_extended).
  set (payload := "sz" ++ mux_id ++ channel_text (Some channel)).
  set (field := fmt_02d (Z.of_nat (len payload + 2))).
  set (x := xor_ords (String h (field ++ payload))).
  replace (field ++ payload ++ hex2 x ++ CR)
    with ((field ++ payload) ++ hex2 x ++ CR) by now rewrite app_assoc_str.
  rewrite strip_frame by exact Hh.
  destruct (String.eqb_spec (String h ((field ++ payload) ++ hex2 x)) EmptyString);
    [discriminate|].
  unfold ret. cbn [fst]. f_equal.
  change (String h ((field ++ payload) ++ hex2 x))
    with (String h EmptyString ++ (field ++ payload) ++ hex2 x).
  unfold payload.
  replace (String h EmptyString
           ++ (field ++ "sz" ++ mux_id ++ channel_text (Some channel)) ++ hex2 x)
    with ((String h EmptyString ++ field)
          ++ "sz" ++ (mux_id ++ channel_text (Some channel)) ++ hex2 x)
    by (rewrite !app_assoc_str; reflexivity).
  rewrite lower_app, (lower_app "sz").
  change (lower "sz") with "sz".
  apply contains_app.
Qed.

Lemma zero_sensor_accepts_the_echo_witness :
  fst (digisens_interface.zero_sensor "123" 0 false
         (connected (fresh_port
            [Reply (digisens_interface._build_command "sz" "123" (Some 0%Z) false)])))
  = Ok true.
Proof.
  apply (zero_sensor_accepts_the_echo "123" 0 false
           (fresh_port
              [Reply (digisens_interface._build_command "sz" "123" (Some 0%Z) false)])
           []); reflexivity.
Defined.

(** ** Readings of the scripts *)

Section Script_readings.

Import get_weights_gd_fixed.

Lemma status_map_get_OK (c : ascii) :
  read_two_muxes_simple.status_map_get c = "OK" <-> Ascii.eqb c " " = true.
Proof.
  unfold read_two_muxes_simple.status_map_get.
  destruct (Ascii.eqb c " "); [now split|].
  destruct (Ascii.eqb c "M"); [split; discriminate|].
  destruct (Ascii.eqb c "C"); [split; discriminate|].
  destruct (Ascii.eqb c "E"); split; discriminate.
Qed.

Lemma Name_OK_iff (c : ascii) :
  Ascii.eqb c " " = true
  <-> Name (read_two_muxes_simple.status_map_get c) = Name "OK".
Proof.
  rewrite <- status_map_get_OK. split; [now intros -> | now intros [= ->]].
Qed.

Lemma parse_gd_response_valid (response : string) (ch : nat) :
  valid_of (parse_gd_response response ch) = true
  <-> status_of (parse_gd_response response ch) = Name "OK".
Proof.
  unfold parse_gd_response.
  destruct (item 0 _); [|split; discriminate]. cbn [Py.bind].
  destruct (item 10 _) as [c|]; [|split; discriminate]. cbn [Py.bind].
  destruct (float _); [|split; discriminate]. cbn [Py.bind valid_of status_of].
  apply Name_OK_iff.
Qed.

Lemma channel_of_parse_gd_response (response : string) (ch : nat) :
  channel_of (parse_gd_response response ch) = ch.
Proof.
  unfold parse_gd_response.
  destruct (item 0 _); [|reflexivity]. cbn [Py.bind].
  destruct (item 10 _); [|reflexivity]. cbn [Py.bind].
  destruct (float _); reflexivity.
Qed.

Lemma channel_of_reading_of_response (response : string) (ch : nat) :
  channel_of (reading_of_response response ch) = ch.
Proof.
  unfold reading_of_response.
  destruct (_ && _)%bool; [apply channel_of_parse_gd_response | reflexivity].
Qed.

End Script_readings.

(** X16.  In every reading the scripts produce, the valid flag is True
    exactly when the status text is OK: for a block parsed by
    [parse_weight_response], for a reply parsed by [parse_gd_response], and
    for what the loop of [read_all_weights_gd] records, placeholders
    included. *)
Theorem valid_exactly_when_status_is_OK (block response : string) (ch : nat)
        (r : reading) :
  read_two_muxes_simple.parse_weight_response block ch = Ok r ->
  (valid_of r = true <-> status_of r = Name "OK")
  /\ (valid_of (get_weights_gd_fixed.parse_gd_response response ch) = true
      <-> status_of (get_weights_gd_fixed.parse_gd_response response ch)
          = Name "OK")
  /\ (valid_of (get_weights_gd_fixed.reading_of_response response ch) = true
      <-> status_of (get_weights_gd_fixed.reading_of_response response ch)
          = Name "OK").
Proof.
  intros H. split; [|split].
  - unfold read_two_muxes_simple.parse_weight_response in H.
    destruct (item 0 block); [|discriminate]. cbn [Py.bind] in H.
    destruct (item 9 block) as [c|]; [|discriminate]. cbn [Py.bind] in H.
    destruct (float _); injection H as <-; cbn [valid_of status_of].
    + apply Name_OK_iff.
    + split; discriminate.
  - apply parse_gd_response_valid.
  - unfold get_weights_gd_fixed.reading_of_response.
    destruct (_ && _)%bool; [apply parse_gd_response_valid|].
    cbn. split; discriminate.
Qed.

Lemma valid_exactly_when_status_is_OK_witness :
  (valid_of (0, Finite true 1250 (-3), Name "MOTION", false) = true
   <-> status_of (0, Finite true 1250 (-3), Name "MOTION", false) = Name "OK")
  /\ (valid_of (get_weights_gd_fixed.parse_gd_response gw_reply 0) = true
      <-> status_of (get_weights_gd_fixed.parse_gd_response gw_reply 0)
          = Name "OK")
  /\ (valid_of (get_weights_gd_fixed.reading_of_response gw_reply 0) = true
      <-> status_of (get_weights_gd_fixed.reading_of_response gw_reply 0)
          = Name "OK").
Proof.
  apply (valid_exactly_when_status_is_OK "-0001.250M" gw_reply 0
           (0, Finite true 1250 (-3), Name "MOTION", false)).
  reflexivity.
Defined.

(** X17.  The length guard of the [gd] loops is exact: [parse_gd_response]
    ends in the IndexError placeholder exactly for the replies of fewer than
    14 characters, which the guard keeps away from it. *)
Theorem gd_guard_is_exact (response : string) (ch : nat) :
  get_weights_gd_fixed.parse_gd_response response ch
  = (ch, float_zero, PARSE_ERROR IndexError, false)
  <-> len response < 14.
Proof.
  unfold get_weights_gd_fixed.parse_gd_response.
  assert (L : len (slice (Some 3%Z) None response) = len response - 3)
    by (rewrite (slice_from 3); apply len_drop).
  destruct (Nat.lt_ge_cases (len response) 14) as [H|H].
  - split; [intros _; exact H | intros _].
    destruct (Nat.le_gt_cases (len response) 3) as [H3|H3].
    + rewrite (item_Raise 0) by lia. reflexivity.
    + destruct (item_Ok 0 (slice (Some 3%Z) None response)) as [s ->]; [lia|].
      rewrite (item_Raise 10) by lia. reflexivity.
  - split; [|lia].
    destruct (item_Ok 0 (slice (Some 3%Z) None response)) as [s ->]; [lia|].
    destruct (item_Ok 10 (slice (Some 3%Z) None response)) as [x ->]; [lia|].
    cbn [Py.bind]. unfold float.
    destruct (float_of_str _); cbn [Py.bind]; discriminate.
Qed.

Section Gd_loop.

Import get_weights_gd_fixed.

(** The loop of [read_all_weights_gd] on an open port: one reading for
    each channel, in order, whatever the reads give. *)
Lemma read_all_weights_gd_loop_channels (head mux : string)
      (channels : list nat) (acc : list reading) (inc : list outcome)
      (lg : list event) :
  exists ws inc' lg',
    read_all_weights_gd_loop head mux channels acc
      {| is_open := true; incoming := inc; log := lg |}
    = (Ok (acc ++ ws)%list,
       {| is_open := true; incoming := inc'; log := lg' |})
    /\ map channel_of ws = channels.
Proof.
  revert acc inc lg; induction channels as [|ch rest IH]; intros acc inc lg.
  - exists [], inc, lg. cbn. now rewrite app_nil_r.
  - cbn [read_all_weights_gd_loop].
    unfold Port.bind at 1, try_except, Port.bind, write, flush,
      read_until_decode, when_open, record, ret.
    cbn [is_open incoming log].
    destruct inc as [|[text|e] inc'];
      match goal with
      | |- exists _ _ _, read_all_weights_gd_loop _ _ _ ?w
                           {| is_open := _; incoming := ?i; log := ?l |} = _ /\ _ =>
          destruct (IH w i l) as (ws & i' & l' & E & Hc);
          eexists; exists i', l'; rewrite E, <- app_assoc; split;
          [reflexivity | cbn [List.app map]; rewrite Hc; f_equal]
      end;
      first [apply channel_of_reading_of_response | reflexivity].
Qed.

End Gd_loop.

(** X18.  [read_all_weights_gd] never gives up on a device: whatever the
    reads return or raise, it answers success with exactly [num_channels]
    readings, the channels 0 to [num_channels - 1] in order, and it has
    closed the port. *)
Theorem read_all_weights_gd_reports_every_channel (mux_id : string)
        (num_channels : nat) (use_extended : bool) (ser : Serial) :
  exists ws,
    fst (get_weights_gd_fixed.read_all_weights_gd mux_id num_channels
           use_extended ser) = Ok (true, ws, None)
    /\ map channel_of ws = seq 0 num_channels
    /\ is_open (snd (get_weights_gd_fixed.read_all_weights_gd mux_id
                       num_channels use_extended ser)) = false.
Proof.
  destruct (read_all_weights_gd_loop_channels
              (if use_extended then "#" else "@") mux_id (range num_channels) []
              (incoming ser)
              (((log ser ++ [EvOpen]) ++ [EvResetInput]) ++ [EvResetOutput]))
    as (ws & inc' & lg' & E & Hc).
  assert (R : get_weights_gd_fixed.read_all_weights_gd mux_id num_channels
                use_extended ser
              = (Ok (true, ws, None),
                 {| is_open := false; incoming := inc';
                    log := (lg' ++ [EvClose])%list |})).
  { unfold get_weights_gd_fixed.read_all_weights_gd, try_except.
    unfold Port.bind at 1. unfold open.
    unfold Port.bind at 1. unfold reset_input_buffer, when_open, record.
    cbn [is_open incoming log].
    unfold Port.bind at 1. unfold reset_output_buffer, when_open, record.
    cbn [is_open incoming log].
    unfold Port.bind at 1. rewrite E.
    unfold Port.bind, close, ret. cbn [is_open incoming log List.app].
    reflexivity. }
  rewrite R. exists ws. cbn [fst snd is_open].
  split; [reflexivity | split; [exact Hc | reflexivity]].
Qed.

(** ** What the shared-bus reader returns *)

Section Bus_results.

Import get_weights_gd_single_port.

Lemma single_port_loop_channels (d : Q) (head mux : string)
      (channels : list nat) (acc : list reading) (inc : list outcome)
      (lg : list event) :
  exists ws inc' lg',
    read_all_weights_gd_single_port_loop head mux d channels acc
      {| is_open := true; incoming := inc; log := lg |}
    = (Ok (acc ++ ws)%list,
       {| is_open := true; incoming := inc'; log := lg' |})
    /\ map channel_of ws = channels.
Proof.
  revert acc inc lg; induction channels as [|ch rest IH]; intros acc inc lg.
  - exists [], inc, lg. cbn. now rewrite app_nil_r.
  - cbn [read_all_weights_gd_single_port_loop].
    unfold Port.bind at 1, try_except, Port.bind, write, flush,
      read_until_decode, when_open, sleep, record, ret.
    cbn [is_open incoming log].
    destruct inc as [|[text|e] inc'];
      destruct (positive d); cbn [is_open incoming log];
      try destruct (negb _ && _)%bool;
      match goal with
      | |- exists _ _ _, read_all_weights_gd_single_port_loop _ _ _ _ ?w
                           {| is_open := _; incoming := ?i; log := ?l |} = _ /\ _ =>
          destruct (IH w i l) as (ws & i' & l' & E & Hc);
          eexists; exists i', l'; rewrite E, <- app_assoc; split;
          [reflexivity | cbn [List.app map]; rewrite Hc; f_equal]
      end;
      first [apply channel_of_parse_gd_response | reflexivity].
Qed.

Lemma single_port_channels (mux : string) (n : nat) (ext : bool) (d : Q)
      (inc : list outcome) (lg : list event) :
  exists ws inc' lg',
    read_all_weights_gd_single_port mux n ext d
      {| is_open := true; incoming := inc; log := lg |}
    = (Ok (true, ws, None),
       {| is_open := true; incoming := inc'; log := lg' |})
    /\ map channel_of ws = seq 0 n.
Proof.
  unfold read_all_weights_gd_single_port, try_except, Port.bind,
    reset_input_buffer, reset_output_buffer, when_open, record, ret.
  cbn [is_open incoming log].
  destruct (single_port_loop_channels d (if ext then "#" else "@") mux
              (range n) [] inc ((lg ++ [EvResetInput]) ++ [EvResetOutput]))
    as (ws & inc' & lg' & E & Hc).
  exists ws, inc', lg'. rewrite E. split; [reflexivity | exact Hc].
Qed.

Lemma bus_loop_results (dm : Q) (total idx : nat)
      (cfgs : list (string * string)) (results : list mux_result)
      (inc : list outcome) (lg : list event) :
  exists rs inc' lg',
    read_multiple_muxes_single_port_loop dm total idx cfgs results
      {| is_open := true; incoming := inc; log := lg |}
    = (Ok (results ++ rs)%list,
       {| is_open := true; incoming := inc'; log := lg' |})
    /\ map config_of rs = cfgs
    /\ Forall full_result rs.
Proof.
  revert idx results inc lg;
    induction cfgs as [|[mux lbl] rest IH]; intros idx results inc lg.
  - exists [], inc, lg. cbn. rewrite app_nil_r. repeat split. constructor.
  - cbn [read_multiple_muxes_single_port_loop].
    unfold Port.bind at 1.
    destruct (single_port_channels mux 8 (len mux =? 16)%nat
                default_inter_command_delay inc lg)
      as (ws & inc1 & lg1 & E & Hc).
    rewrite E.
    unfold Port.bind at 1, sleep, record, ret.
    destruct (positive dm && (idx <? total - 1)%nat)%bool;
      cbn [is_open incoming log];
      match goal with
      | |- exists _ _ _, read_multiple_muxes_single_port_loop _ _ _ _ ?r
                           {| is_open := _; incoming := ?i; log := ?l |} = _ /\ _ =>
          destruct (IH (S idx) r i l) as (rs & inc' & lg' & E' & Hm & Hf);
          eexists; exists inc', lg'; rewrite E', <- app_assoc; split;
          [reflexivity | cbn [List.app map]; rewrite Hm; split;
                         [reflexivity | constructor; [|exact Hf]]]
      end;
      (split; [reflexivity | split; [reflexivity | exact Hc]]).
Qed.

End Bus_results.

(** X19.  On a port that opens, [read_multiple_muxes_single_port] answers
    with one result for each configured MUX, in the order of the
    configuration and under its id and label; every result reports success,
    no error and eight readings for the channels 0 to 7, whatever the bus
    sent back; and the port is closed afterwards. *)
Theorem read_multiple_muxes_single_port_results
        (mux_configs : list (string * string)) (inter_mux_delay : Q)
        (ser : Serial) :
  exists results,
    fst (get_weights_gd_single_port.read_multiple_muxes_single_port
           mux_configs inter_mux_delay ser) = Ok results
    /\ map config_of results = mux_configs
    /\ Forall full_result results
    /\ is_open (snd (get_weights_gd_single_port.read_multiple_muxes_single_port
                       mux_configs inter_mux_delay ser)) = false.
Proof.
  destruct (bus_loop_results inter_mux_delay (length mux_configs) 0 mux_configs
              [] (incoming ser) (log ser ++ [EvOpen]))
    as (rs & inc' & lg' & E & Hm & Hf).
  assert (R : get_weights_gd_single_port.read_multiple_muxes_single_port
                mux_configs inter_mux_delay ser
              = (Ok rs, {| is_open := false; incoming := inc';
                           log := (lg' ++ [EvClose])%list |})).
  { unfold get_weights_gd_single_port.read_multiple_muxes_single_port,
      try_except.
    unfold Port.bind at 1. unfold open.
    unfold Port.bind at 1. rewrite E.
    unfold Port.bind, close, ret. cbn [is_open incoming log List.app].
    reflexivity. }
  rewrite R. exists rs. cbn [fst snd is_open].
  split; [reflexivity | split; [exact Hm | split; [exact Hf | reflexivity]]].
Qed.

(** ** The one-port-per-MUX reader *)

Section Answers.

Import read_two_muxes_simple.

Lemma len_slice_3_m3 (s : string) :
  len (slice (Some 3%Z) (Some (-3)%Z) s) = len s - 6.
Proof.
  unfold slice, bound. cbn [Z.ltb Z.compare].
  destruct (Nat.le_gt_cases (len s) 3) as [H|H].
  - replace (Z.to_nat (Z.min 3 (Z.of_nat (len s)))) with (len s) by lia.
    replace (Z.to_nat (Z.max 0 (Z.of_nat (len s) + -3))) with 0 by lia.
    rewrite len_take, len_drop. lia.
  - rewrite len_take, len_drop. lia.
Qed.

(** The parsing of a [gl] reply never raises: it gives one reading for
    each full window of the text between the first three and the last
    three characters. *)
Lemma weights_of_answer_total (mux_answer : string) :
  exists ws,
    weights_of_answer mux_answer = Ok ws
    /\ map channel_of ws = seq 0 ((len mux_answer - 6) / 11).
Proof.
  unfold weights_of_answer.
  set (data := slice (Some 3%Z) (Some (-3)%Z) mux_answer).
  assert (L : len data = len mux_answer - 6) by apply len_slice_3_m3.
  rewrite <- L.
  pose proof (Nat.div_mod_eq (len data) 11) as D.
  pose proof (Nat.mod_upper_bound (len data) 11 ltac:(discriminate)) as R.
  set (k := len data / 11) in *. set (r := len data mod 11) in *.
  rewrite D, range_step_11, read_mux_weights_loop_app by exact R.
  destruct (read_mux_weights_loop_full data k []) as (ws & E & Hc & _); [lia|].
  rewrite E. cbn [Py.bind List.app]. exists ws. split; [|exact Hc].
  destruct (Nat.eqb_spec r 0); [reflexivity|].
  cbn [read_mux_weights_loop]. fold (window data k).
  assert (Lw : len (window data k) = r)
    by (unfold window; rewrite len_slice_nat; lia).
  rewrite Lw. destruct (Nat.eqb_spec r 11); [lia | reflexivity].
Qed.

End Answers.

(** X20.  For a MUX id of code points below 256, the text of the embedding,
    [read_mux_weights] of read_two_muxes_multiport.py never raises, and its
    answer follows the read: an exception of the read gives failure with
    the exception in the error, and the function makes no call of [close];
    silence or fewer than five characters give failure with the text
    No response or timeout, the port closed; any longer reply gives success
    with one reading for each full 11-character window between the first
    three and the last three characters, channels counted from 0, the port
    closed. *)
Theorem multiport_read_mux_weights_answers (mux_id : string)
        (use_extended : bool) (ser : Serial) :
  exists r,
    fst (read_two_muxes_multiport.read_mux_weights mux_id use_extended ser) = Ok r
    /\ multiport_answer (hd_error (incoming ser)) r
    /\ is_open (snd (read_two_muxes_multiport.read_mux_weights mux_id
                       use_extended ser))
       = match hd_error (incoming ser) with
         | Some (Fails _) => true
         | _ => false
         end.
Proof.
  destruct ser as [o inc lg].
  unfold read_two_muxes_multiport.read_mux_weights, try_except, Port.bind, open,
    write, read_until_decode, when_open, record.
  cbn [is_open incoming log].
  destruct inc as [|[text|e] rest]; cbn [hd_error multiport_answer].
  - cbn [String.eqb orb]. unfold close, ret. cbn [fst snd is_open].
    eexists. repeat split.
  - replace (String.eqb text EmptyString || (len text <? 5)%nat)%bool
      with (len text <? 5)%nat by (destruct text; reflexivity).
    destruct (len text <? 5)%nat.
    + unfold close, ret. cbn [fst snd is_open]. eexists. repeat split.
    + destruct (weights_of_answer_total text) as (ws & E & Hc).
      unfold lift. rewrite E. unfold close, ret. cbn [fst snd is_open].
      eexists. split; [reflexivity | split; [|reflexivity]].
      exists ws. split; [reflexivity | split; [|exact Hc]].
      rewrite <- (length_map channel_of), Hc. apply length_seq.
  - destruct e; unfold ret; cbn [fst snd is_open error_of];
      eexists; repeat split.
Qed.

(** ** digisens_n17.py: what [read_scale] returns *)

Section Scale.

Import digisens_n17.

Lemma read_scale_reply (uid text : string) (scale_number : Z) (ser : Serial)
      (rest : list outcome) :
  is_open ser = true ->
  incoming ser = Reply text :: rest ->
  fst (read_scale uid scale_number ser)
  = Ok (if (len text <? 5)%nat then None
        else Some (slice (Some 3%Z) (Some (-1)%Z) text)).
Proof.
  intros Ho Hi. unfold read_scale, Port.bind, write, read_until_decode,
    when_open, record, ret.
  rewrite Ho. cbn [is_open incoming log]. rewrite Hi.
  now destruct (len text <? 5)%nat.
Qed.

End Scale.

(** X21.  [read_scale] returns what stands between the three characters of
    the header and the last character of the reply.  For a frame made of a
    header, a body, the two characters of the checksum and the carriage
    return, that is the body followed by the checksum: the checksum is not
    removed. *)
Theorem read_scale_keeps_the_checksum (uid header body crc : string)
        (scale_number : Z) (ser : Serial) (rest : list outcome) :
  is_open ser = true ->
  incoming ser = Reply (header ++ body ++ crc ++ CR) :: rest ->
  len header = 3 ->
  len crc = 2 ->
  fst (digisens_n17.read_scale uid scale_number ser) = Ok (Some (body ++ crc)).
Proof.
  intros Ho Hi Hh Hc.
  rewrite (read_scale_reply uid _ scale_number ser rest Ho Hi).
  assert (L : len (header ++ body ++ crc ++ CR) = 3 + len body + 2 + 1)
    by (rewrite !len_app, Hh, Hc; unfold CR, len; simpl; lia).
  destruct (Nat.ltb_spec (len (header ++ body ++ crc ++ CR)) 5) as [H|_]; [lia|].
  do 2 f_equal.
  replace (header ++ body ++ crc ++ CR) with ((header ++ body ++ crc) ++ CR)
    by (now rewrite !app_assoc_str).
  change (Some (-1)%Z) with (Some (- Z.of_nat 1)%Z).
  change (Some 3%Z) with (Some (Z.of_nat 3)).
  rewrite slice_inner by (try reflexivity; rewrite ?len_app, ?Hh; lia).
  rewrite <- Hh. apply drop_app.
Qed.

Lemma read_scale_keeps_the_checksum_witness :
  fst (digisens_n17.read_scale "0120250925110711" 0
         (fresh_port [Reply ("#13" ++ "+0002.130 k" ++ "5C" ++ CR)]))
  = Ok (Some ("+0002.130 k" ++ "5C")).
Proof.
  apply (read_scale_keeps_the_checksum "0120250925110711" "#13" "+0002.130 k"
           "5C" 0 (fresh_port [Reply ("#13" ++ "+0002.130 k" ++ "5C" ++ CR)]) []);
    reflexivity.
Defined.

(** ** read_two_muxes_simple.py: the two reads of [main] *)

Section Simple_main.

Import read_two_muxes_simple.

Lemma simple_guarded_read (mux_id : string) (ext : bool)
      (inc : list outcome) (lg : list event) :
  exists ws,
    try_except (read_mux_weights mux_id ext) (fun _ => ret [])
      {| is_open := true; incoming := inc; log := lg |}
    = (Ok ws,
       {| is_open := true; incoming := tl inc;
          log := lg ++ [EvWrite (encode_utf8
                                   (create_lowa_msg (if ext then "#" else "@")
                                      mux_id "gl" EmptyString));
                        EvReadUntil] |}).
Proof.
  unfold try_except, read_mux_weights, Port.bind, write, read_until_decode,
    when_open, record, lift, ret.
  cbn [is_open incoming log].
  rewrite <- !app_assoc. cbn [List.app].
  destruct inc as [|[text|e] inc']; cbn [tl].
  - destruct (weights_of_answer_total EmptyString) as (ws & E & _).
    rewrite E. now exists ws.
  - destruct (weights_of_answer_total text) as (ws & E & _).
    rewrite E. now exists ws.
  - now exists [].
Qed.

End Simple_main.

(** X22.  The two reads of [main] in read_two_muxes_simple.py, on a port that
    opens and for MUX ids of code points below 256, the text of the
    embedding: whatever the first read gives or raises, both [gl] requests
    are written, the first MUX before the second, each with the prefix
    chosen from the length of its id; nothing is raised; and the port is
    closed at the end. *)
Theorem simple_main_attempts_both_reads (mux1_id mux2_id : string)
        (ser : Serial) :
  exists weights1 weights2,
    fst (read_two_muxes_simple.main_reads mux1_id mux2_id ser)
    = Ok (weights1, weights2)
    /\ writes (log (snd (read_two_muxes_simple.main_reads mux1_id mux2_id ser)))
       = (writes (log ser) ++ [gl_request mux1_id; gl_request mux2_id])%list
    /\ is_open (snd (read_two_muxes_simple.main_reads mux1_id mux2_id ser))
       = false.
Proof.
  destruct (simple_guarded_read mux1_id (len mux1_id =? 16)%nat (incoming ser)
              (log ser ++ [EvOpen])) as [w1 E1].
  destruct (simple_guarded_read mux2_id (len mux2_id =? 16)%nat
              (tl (incoming ser))
              ((log ser ++ [EvOpen])
                 ++ [EvWrite (encode_utf8
                                (read_two_muxes_simple.create_lowa_msg
                                   (if (len mux1_id =? 16)%nat then "#" else "@")
                                   mux1_id "gl" EmptyString));
                     EvReadUntil])) as [w2 E2].
  assert (R : read_two_muxes_simple.main_reads mux1_id mux2_id ser
              = (Ok (w1, w2),
                 {| is_open := false; incoming := tl (tl (incoming ser));
                    log := (((log ser ++ [EvOpen])
                               ++ [EvWrite (gl_request mux1_id); EvReadUntil])
                              ++ [EvWrite (gl_request mux2_id); EvReadUntil])
                             ++ [EvClose] |})).
  { unfold read_two_muxes_simple.main_reads.
    unfold Port.bind at 1. unfold open.
    unfold Port.bind at 1. rewrite E1.
    unfold Port.bind at 1. rewrite E2.
    unfold Port.bind, close, ret. cbn [is_open incoming log].
    reflexivity. }
  rewrite R. exists w1, w2. cbn [fst snd is_open log].
  split; [reflexivity | split; [|reflexivity]].
  rewrite !writes_app. cbn [writes]. rewrite app_nil_r, <- !app_assoc.
  reflexivity.
Qed.

(** ** [ShelfMonitor] *)

Section Shelves.

Import digisens_interface.

Lemma dict_get_set_same {V : Type} (k : string) (v : V) (d : list (string * V)) :
  dict_get k (dict_set k v d) = Some v.
Proof.
  induction d as [|[k' v'] d IH]; cbn [dict_set dict_get].
  - now rewrite String.eqb_refl.
  - destruct (String.eqb k k') eqn:E; cbn [dict_get]; rewrite E;
      [reflexivity | exact IH].
Qed.

Lemma dict_get_set_other {V : Type} (k k0 : string) (v : V)
      (d : list (string * V)) :
  k0 <> k -> dict_get k0 (dict_set k v d) = dict_get k0 d.
Proof.
  intros Hne. induction d as [|[k' v'] d IH]; cbn [dict_set dict_get].
  - destruct (String.eqb_spec k0 k); [contradiction | reflexivity].
  - destruct (String.eqb_spec k k') as [->|Hk]; cbn [dict_get].
    + destruct (String.eqb_spec k0 k'); [contradiction | reflexivity].
    + destruct (String.eqb k0 k'); [reflexivity | exact IH].
Qed.

Lemma sleep_before_read_shelves (seconds : Q) (i : DigiSensInterface) :
  exists i', sleep_before_read seconds i = (Ok tt, i').
Proof.
  unfold sleep_before_read. destruct (serial i) as [ser|] eqn:E.
  - unfold on_serial. rewrite E. unfold sleep, record. eexists; reflexivity.
  - eexists; reflexivity.
Qed.

Lemma calibrate_shelf_outcomes (mux_id : string) (self : ShelfMonitor) :
  (exists tares i,
      calibrate_shelf mux_id self
      = (Ok tares, {| interface := i;
                      shelves := dict_set mux_id tares (shelves self) |}))
  \/ (exists e i,
         calibrate_shelf mux_id self
         = (Raise e, {| interface := i; shelves := shelves self |})).
Proof.
  unfold calibrate_shelf, Port.bind, on_interface.
  destruct (sleep_before_read_shelves 2 (interface self)) as [i1 E1].
  rewrite E1. cbn [interface shelves].
  destruct (get_all_weights mux_id false i1) as [[ws|e] i2];
    cbn [interface shelves].
  - left. eexists. exists i2. reflexivity.
  - right. exists e, i2. reflexivity.
Qed.

Section Net.

Variable float_sub : pyfloat -> pyfloat -> pyfloat.

Lemma net_of_entries (weights : list WeightReading) (tares : list pyfloat) :
  net_entries float_sub weights tares (net_of float_sub weights tares).
Proof.
  split.
  - revert tares; induction weights as [|r ws IH]; intros [|t ts];
      cbn [net_of length Nat.min]; try reflexivity.
    now rewrite IH.
  - intros i. revert weights tares.
    induction i as [|i IH]; intros [|r ws] [|t ts];
      cbn [net_of nth_error]; try reflexivity.
    + now destruct (nth_error ws i).
    + apply IH.
Qed.

End Net.

End Shelves.

(** X23.  Registration is kept under the MUX id.  After [add_shelf] the shelf
    holds the tare weights given, or [num_sensors] zeros when none are given;
    after a [calibrate_shelf] that returns, it holds the list returned, and a
    [calibrate_shelf] that raises leaves every shelf as it was; neither
    touches the tare weights of another shelf. *)
Theorem shelf_registration (mux_id other : string) (num_sensors : Z)
        (tare_weights : option (list pyfloat))
        (self : digisens_interface.ShelfMonitor) :
  other <> mux_id ->
  let added := snd (digisens_interface.add_shelf mux_id num_sensors
                      tare_weights self) in
  let calibrated := digisens_interface.calibrate_shelf mux_id self in
  digisens_interface.dict_get mux_id (digisens_interface.shelves added)
  = Some (match tare_weights with
          | Some t => t
          | None => repeat float_zero (Z.to_nat num_sensors)
          end)
  /\ digisens_interface.dict_get other (digisens_interface.shelves added)
     = digisens_interface.dict_get other (digisens_interface.shelves self)
  /\ match fst calibrated with
     | Ok tares =>
         digisens_interface.dict_get mux_id
           (digisens_interface.shelves (snd calibrated)) = Some tares
     | Raise _ =>
         digisens_interface.shelves (snd calibrated)
         = digisens_interface.shelves self
     end
  /\ digisens_interface.dict_get other
       (digisens_interface.shelves (snd calibrated))
     = digisens_interface.dict_get other (digisens_interface.shelves self).
Proof.
  intros Hne. cbv zeta. unfold digisens_interface.add_shelf.
  cbn [snd digisens_interface.shelves].
  split; [destruct tare_weights; apply dict_get_set_same|].
  split; [now apply dict_get_set_other|].
  destruct (calibrate_shelf_outcomes mux_id self)
    as [(tares & i & E)|(e & i & E)]; rewrite E;
    cbn [fst snd digisens_interface.shelves].
  - split; [apply dict_get_set_same | now apply dict_get_set_other].
  - split; reflexivity.
Qed.

Lemma shelf_registration_witness :
  digisens_interface.dict_get "456"
    (digisens_interface.shelves
       (snd (digisens_interface.add_shelf "456" 8 None monitor_123)))
  = Some (repeat float_zero 8)
  /\ digisens_interface.dict_get "123"
       (digisens_interface.shelves
          (snd (digisens_interface.add_shelf "456" 8 None monitor_123)))
     = Some [float_zero; float_zero; float_zero].
Proof.
  destruct (shelf_registration "456" "123" 8 None monitor_123
              ltac:(discriminate)) as (H1 & H2 & _).
  split; [exact H1 | exact H2].
Defined.

(** X24.  For a registered shelf, [get_net_weights] fails exactly as the
    [get_all_weights] it calls fails, and from its readings it returns as
    many entries as there are readings and tare weights both: entry [i] is
    the weight of reading [i] less tare [i] when the reading is valid and
    [None] when it is not, and readings beyond the registered tare weights
    are dropped. *)
Theorem get_net_weights_entries (float_sub : pyfloat -> pyfloat -> pyfloat)
        (mux_id : string) (tares : list pyfloat)
        (self : digisens_interface.ShelfMonitor) :
  digisens_interface.dict_get mux_id (digisens_interface.shelves self)
  = Some tares ->
  net_answer float_sub tares
    (fst (digisens_interface.get_all_weights mux_id false
            (digisens_interface.interface self)))
    (fst (digisens_interface.get_net_weights float_sub mux_id self)).
Proof.
  intros Hd. unfold digisens_interface.get_net_weights. rewrite Hd.
  unfold Port.bind, digisens_interface.on_interface.
  destruct (digisens_interface.get_all_weights mux_id false
              (digisens_interface.interface self)) as [[ws|e] i];
    cbn [fst net_answer]; [apply net_of_entries | reflexivity].
Qed.

Lemma get_net_weights_entries_witness :
  net_answer (fun w _ => w) [float_zero; float_zero; float_zero]
    (fst (digisens_interface.get_all_weights "123" false
            (digisens_interface.interface monitor_123)))
    (fst (digisens_interface.get_net_weights (fun w _ => w) "123" monitor_123)).
Proof.
  apply (get_net_weights_entries (fun w _ => w) "123"
           [float_zero; float_zero; float_zero] monitor_123).
  reflexivity.
Defined.

(** X25.  [ShelfMonitor] speaks standard addressing only: on an open port,
    [get_net_weights] of a registered shelf writes one request, the [gl]
    command built without the extended flag, which starts with [@] whatever
    the length of the MUX id. *)
Theorem shelf_monitor_uses_standard_addressing
        (float_sub : pyfloat -> pyfloat -> pyfloat) (mux_id : string)
        (tares : list pyfloat) (self : digisens_interface.ShelfMonitor)
        (ser : Serial) :
  digisens_interface.interface self = connected ser ->
  is_open ser = true ->
  is_ascii mux_id = true ->
  digisens_interface.dict_get mux_id (digisens_interface.shelves self)
  = Some tares ->
  exists body,
    digisens_interface._build_command "gl" mux_id None false = String "@" body
    /\ writes (log_of (digisens_interface.interface
                         (snd (digisens_interface.get_net_weights float_sub
                                 mux_id self))))
       = (writes (log ser) ++ [ords (String "@" body)])%list.
Proof.
  intros Hi Ho Ha Hd. destruct ser as [o inc lg]. cbn [is_open] in Ho. subst o.
  unfold digisens_interface.get_net_weights. rewrite Hd.
  unfold Port.bind, digisens_interface.on_interface. rewrite Hi.
  destruct (get_all_weights_events mux_id false inc lg Ha) as [r E].
  rewrite E. rewrite (_build_command_shape_any "gl" mux_id None false).
  cbv zeta. eexists. split; [reflexivity|].
  destruct r as [ws|e]; unfold ret;
    cbn [snd digisens_interface.interface log_of connected
           digisens_interface.serial log];
    rewrite writes_app; cbn [writes]; reflexivity.
Qed.

Lemma shelf_monitor_uses_standard_addressing_witness :
  exists body,
    digisens_interface._build_command "gl" "0120250925110711" None false
    = String "@" body
    /\ writes (log_of (digisens_interface.interface
                         (snd (digisens_interface.get_net_weights (fun w _ => w)
                                 "0120250925110711" monitor_16))))
       = (writes (log (fresh_port [Reply gl_reply_two]))
          ++ [ords (String "@" body)])%list.
Proof.
  apply (shelf_monitor_uses_standard_addressing (fun w _ => w)
           "0120250925110711" [float_zero] monitor_16
           (fresh_port [Reply gl_reply_two])); reflexivity.
Defined.
